(** * Database DDL replay and database-shard assignment (citus)

    A shallow embedding of
    - [commands/database.c] : [citus_internal_database_command], the
      idempotent create/drop database replay UDF, and
    - [database/database_sharding.c] : the database-shard registry, the
      shard assignment policy, the CONNECT privilege sweep and the
      control-database delegation hook,
    followed by the properties proved about them.

    Backend-local state (GUCs, catalogs, privileges, the log of issued
    commands) is threaded explicitly; [ereport(ERROR, ...)] is an outcome
    that keeps the state reached when the error was raised. *)

From stdpp Require Import base decidable option list strings gmap sets.
From Stdlib Require Import ZArith Lia.

Local Open Scope Z_scope.

(** ** Machine integers *)

(** [Oid] is [unsigned int]; node group ids and list lengths are [int]. *)
Definition uint32 (z : Z) : Z := z mod 2 ^ 32.
Definition int32 (z : Z) : Z := (z + 2 ^ 31) mod 2 ^ 32 - 2 ^ 31.

Definition Oid_range (z : Z) : Prop := 0 <= z < 2 ^ 32.
Definition int32_range (z : Z) : Prop := - 2 ^ 31 <= z < 2 ^ 31.

Definition InvalidOid : Z := 0.
Definition OidIsValid (objectId : Z) : bool := negb (objectId =? InvalidOid).

(** ** Parse trees *)

Inductive NodeTag :=
| T_CreatedbStmt
| T_DropdbStmt
| T_Other (tag : Z).

Inductive Node :=
| CreatedbStmt (dbname : string)
| DropdbStmt (dbname : string) (missing_ok : bool)
| OtherStmt (tag : Z).

Definition nodeTag (n : Node) : NodeTag :=
  match n with
  | CreatedbStmt _ => T_CreatedbStmt
  | DropdbStmt _ _ => T_DropdbStmt
  | OtherStmt tag => T_Other tag
  end.

Definition IsA (n : Node) (t : NodeTag) : bool :=
  match nodeTag n, t with
  | T_CreatedbStmt, T_CreatedbStmt => true
  | T_DropdbStmt, T_DropdbStmt => true
  | T_Other a, T_Other b => a =? b
  | _, _ => false
  end.

Inductive ProcessUtilityContext :=
| PROCESS_UTILITY_TOPLEVEL
| PROCESS_UTILITY_QUERY
| PROCESS_UTILITY_QUERY_NONATOMIC
| PROCESS_UTILITY_SUBCOMMAND.

Definition is_toplevel (c : ProcessUtilityContext) : bool :=
  match c with PROCESS_UTILITY_TOPLEVEL => true | _ => false end.

(** The statement parser and deparser are external collaborators; the
    development is parametric in them.  [ParseTreeNode] yields [None] when
    the text is not a statement (the parser raises a syntax error). *)
Class SqlFrontend := {
  ParseTreeNode : string -> option Node;
  DeparseCreatedbStmt : Node -> string;
  DeparseDropdbStmt : Node -> string
}.

(** ** Catalog rows, nodes, commands *)

Record pg_database_row := {
  datname : string;
  dboid : Z;
  datdba : Z
}.

Record DatabaseShard := {
  databaseOid : Z;
  nodeGroupId : Z;
  isAvailable : bool
}.

Record WorkerNode := {
  workerName : string;
  workerPort : Z;
  groupId : Z
}.

(** Where a utility command runs: [None] is the local backend (SPI),
    [Some (name, port)] the worker reached at that address. *)
Definition Site : Type := option (string * Z).
Definition LocalSite : Site := None.
Definition RemoteSite (name : string) (port : Z) : Site := Some (name, port).

Inductive Command :=
| GrantConnectOnDatabase (db : string)
| RevokeConnectOnDatabase (db : string)
| InternalAddDatabaseShard (db : string) (group : Z)
| InternalDeleteDatabaseShard (db : string)
| SetApplicationName (name : string)
| RawCommand (text : string).

Inductive ConnectionFlag := FORCE_NEW_CONNECTION.

Record MultiConnection := {
  connectionFlags : ConnectionFlag;
  hostname : string;
  port : Z;
  user : option string;
  database : string
}.

Inductive Event :=
| EvExecuteQueryViaSPI (c : Command)
| EvSendCommandToWorker (name : string) (port : Z) (c : Command)
| EvSendCommandToWorkersWithMetadata (c : Command)
| EvGetNodeUserDatabaseConnection (conn : MultiConnection)
| EvExecuteCriticalRemoteCommand (conn : MultiConnection) (c : Command)
| EvCloseConnection (conn : MultiConnection).

(** ** GUC save stack *)

Inductive GucVar :=
| citus_enable_ddl_propagation
| citus_enable_create_database_propagation.

Inductive GucContext := PGC_SUSET | PGC_USERSET.

Inductive GucAction := GUC_ACTION_SET | GUC_ACTION_LOCAL | GUC_ACTION_SAVE.

Inductive GucStackState := GUC_SAVE | GUC_SET | GUC_LOCAL | GUC_SET_LOCAL.

(** One saved entry of a variable's stack: the nest level it belongs to,
    how the value was changed at that level, the value before the change,
    and, in state [GUC_SET_LOCAL], the value of the SET that a later SET
    LOCAL masks. *)
Record GucStack := {
  nest_level : Z;
  state : GucStackState;
  prior : bool;
  masked : bool
}.

Definition GucVar_eqb (a b : GucVar) : bool :=
  match a, b with
  | citus_enable_ddl_propagation, citus_enable_ddl_propagation => true
  | citus_enable_create_database_propagation,
    citus_enable_create_database_propagation => true
  | _, _ => false
  end.

(** ** Errors *)

Inductive ErrorData :=
| SyntaxError
| UnsupportedCommandType (tag : NodeTag)
| UndefinedDatabase (name : string)
| UndefinedDatabaseOid (oid : Z)
| DuplicateDatabase (name : string)
| InsufficientPrivilege (name : string)
| AlreadyAssignedToShard
| UniqueViolation (oid : Z)
| ConnectionFailure
| SPIFailure
| VersionMismatch
| NullPointer
| ListIndexOutOfRange.

Inductive ErrorLevel := WARNING | ERROR.

Inductive Outcome (A : Type) :=
| Returned (a : A)
| Raised (e : ErrorData).
Arguments Returned {A} a.
Arguments Raised {A} e.

(** ** Configuration and backend state *)

(** What the modelled code only reads: session identity, whether the
    installed extension version matches the loaded library, settings that
    it never assigns, the node list the dispatcher returns for
    [TargetWorkerSetNodeList(ALL_SHARD_NODES, ...)], and which requests
    fail. *)
Record Env := {
  superuser : bool;
  GetUserId : Z;
  CitusVersionCompatible : bool;
  GetLocalGroupId : Z;
  EnableDatabaseSharding : bool;
  EnableMetadataSync : bool;
  LocalHostName : string;
  PostPortNumber : Z;
  CitusMainDatabase : string;
  TargetWorkerSetNodeList_ALL_SHARD_NODES : list WorkerNode;
  remote_failure : Event -> bool
}.

Record Backend := {
  EnableDDLPropagation : bool;
  EnableCreateDatabasePropagation : bool;
  GUCNestLevel : Z;
  guc_stack : GucVar -> list GucStack;
  pg_database : list pg_database_row;
  nextOid : Z;
  database_shard : list DatabaseShard;
  connect_revoked : gset (Site * string);
  ReconfigurePgBouncersOnCommit : bool;
  trace : list Event
}.

Definition set_EnableDDLPropagation (v : bool) (s : Backend) : Backend :=
  {| EnableDDLPropagation := v;
     EnableCreateDatabasePropagation := EnableCreateDatabasePropagation s;
     GUCNestLevel := GUCNestLevel s; guc_stack := guc_stack s;
     pg_database := pg_database s; nextOid := nextOid s;
     database_shard := database_shard s;
     connect_revoked := connect_revoked s;
     ReconfigurePgBouncersOnCommit := ReconfigurePgBouncersOnCommit s;
     trace := trace s |}.

Definition set_EnableCreateDatabasePropagation (v : bool) (s : Backend)
  : Backend :=
  {| EnableDDLPropagation := EnableDDLPropagation s;
     EnableCreateDatabasePropagation := v;
     GUCNestLevel := GUCNestLevel s; guc_stack := guc_stack s;
     pg_database := pg_database s; nextOid := nextOid s;
     database_shard := database_shard s;
     connect_revoked := connect_revoked s;
     ReconfigurePgBouncersOnCommit := ReconfigurePgBouncersOnCommit s;
     trace := trace s |}.

Definition set_GUCNestLevel (v : Z) (s : Backend) : Backend :=
  {| EnableDDLPropagation := EnableDDLPropagation s;
     EnableCreateDatabasePropagation := EnableCreateDatabasePropagation s;
     GUCNestLevel := v; guc_stack := guc_stack s;
     pg_database := pg_database s; nextOid := nextOid s;
     database_shard := database_shard s;
     connect_revoked := connect_revoked s;
     ReconfigurePgBouncersOnCommit := ReconfigurePgBouncersOnCommit s;
     trace := trace s |}.

Definition set_guc_stack (v : GucVar -> list GucStack) (s : Backend)
  : Backend :=
  {| EnableDDLPropagation := EnableDDLPropagation s;
     EnableCreateDatabasePropagation := EnableCreateDatabasePropagation s;
     GUCNestLevel := GUCNestLevel s; guc_stack := v;
     pg_database := pg_database s; nextOid := nextOid s;
     database_shard := database_shard s;
     connect_revoked := connect_revoked s;
     ReconfigurePgBouncersOnCommit := ReconfigurePgBouncersOnCommit s;
     trace := trace s |}.

Definition set_pg_database (v : list pg_database_row) (n : Z) (s : Backend)
  : Backend :=
  {| EnableDDLPropagation := EnableDDLPropagation s;
     EnableCreateDatabasePropagation := EnableCreateDatabasePropagation s;
     GUCNestLevel := GUCNestLevel s; guc_stack := guc_stack s;
     pg_database := v; nextOid := n;
     database_shard := database_shard s;
     connect_revoked := connect_revoked s;
     ReconfigurePgBouncersOnCommit := ReconfigurePgBouncersOnCommit s;
     trace := trace s |}.

Definition set_database_shard (v : list DatabaseShard) (s : Backend)
  : Backend :=
  {| EnableDDLPropagation := EnableDDLPropagation s;
     EnableCreateDatabasePropagation := EnableCreateDatabasePropagation s;
     GUCNestLevel := GUCNestLevel s; guc_stack := guc_stack s;
     pg_database := pg_database s; nextOid := nextOid s;
     database_shard := v;
     connect_revoked := connect_revoked s;
     ReconfigurePgBouncersOnCommit := ReconfigurePgBouncersOnCommit s;
     trace := trace s |}.

Definition set_connect_revoked (v : gset (Site * string)) (s : Backend)
  : Backend :=
  {| EnableDDLPropagation := EnableDDLPropagation s;
     EnableCreateDatabasePropagation := EnableCreateDatabasePropagation s;
     GUCNestLevel := GUCNestLevel s; guc_stack := guc_stack s;
     pg_database := pg_database s; nextOid := nextOid s;
     database_shard := database_shard s;
     connect_revoked := v;
     ReconfigurePgBouncersOnCommit := ReconfigurePgBouncersOnCommit s;
     trace := trace s |}.

Definition set_ReconfigurePgBouncersOnCommit (v : bool) (s : Backend)
  : Backend :=
  {| EnableDDLPropagation := EnableDDLPropagation s;
     EnableCreateDatabasePropagation := EnableCreateDatabasePropagation s;
     GUCNestLevel := GUCNestLevel s; guc_stack := guc_stack s;
     pg_database := pg_database s; nextOid := nextOid s;
     database_shard := database_shard s;
     connect_revoked := connect_revoked s;
     ReconfigurePgBouncersOnCommit := v;
     trace := trace s |}.

Definition set_trace (v : list Event) (s : Backend) : Backend :=
  {| EnableDDLPropagation := EnableDDLPropagation s;
     EnableCreateDatabasePropagation := EnableCreateDatabasePropagation s;
     GUCNestLevel := GUCNestLevel s; guc_stack := guc_stack s;
     pg_database := pg_database s; nextOid := nextOid s;
     database_shard := database_shard s;
     connect_revoked := connect_revoked s;
     ReconfigurePgBouncersOnCommit := ReconfigurePgBouncersOnCommit s;
     trace := v |}.

(** ** The backend monad: state, plus errors that keep the state *)

Definition PG (A : Type) : Type := Backend -> Outcome A * Backend.

Definition ret {A} (a : A) : PG A := fun s => (Returned a, s).

Definition bind {A B} (m : PG A) (k : A -> PG B) : PG B :=
  fun s =>
    match m s with
    | (Returned a, s') => k a s'
    | (Raised e, s') => (Raised e, s')
    end.

Definition ereport {A} (e : ErrorData) : PG A := fun s => (Raised e, s).

Definition gets {A} (f : Backend -> A) : PG A := fun s => (Returned (f s), s).

Definition modify (f : Backend -> Backend) : PG unit :=
  fun s => (Returned tt, f s).

Declare Scope pg_scope.
Delimit Scope pg_scope with pg.
Notation "x <- m ;; k" := (bind m (fun x => k))
  (at level 100, m at next level, right associativity) : pg_scope.
Notation "m ;;; k" := (bind m (fun _ => k))
  (at level 100, right associativity) : pg_scope.
Local Open Scope pg_scope.

Section Subsystem.

Context `{SqlFrontend} (env : Env).

(** ** GUC nesting (guc.c, as used by the replay UDF)

    Every variable has a stack of saved entries of its own, top first.
    [set_config_option] (always called with [PGC_S_SESSION] here) saves
    the old value through [push_old_value] and assigns the new one.
    [AtEOXact_GUC (isCommit, nestLevel)] runs, for every variable, the
    loop "while the top entry's nest level is at least nestLevel":
    - on abort, and for a [GUC_SAVE] entry, the prior value is restored
      and the entry popped;
    - on commit at nest level 1 (transaction commit) the entry is popped:
      a [GUC_LOCAL] value is rolled back to the prior value, a [GUC_SET]
      value is kept, a [GUC_SET_LOCAL] gives way to the masked SET value;
    - on commit at a deeper level the value is kept and the entry is
      handed to the enclosing level: its level is decremented when the
      enclosing level has no entry, otherwise it is merged into that
      entry.
    The nest level is then set to [nestLevel - 1]. *)

Definition guc_value (v : GucVar) (s : Backend) : bool :=
  match v with
  | citus_enable_ddl_propagation => EnableDDLPropagation s
  | citus_enable_create_database_propagation =>
      EnableCreateDatabasePropagation s
  end.

Definition guc_assign (v : GucVar) (b : bool) (s : Backend) : Backend :=
  match v with
  | citus_enable_ddl_propagation => set_EnableDDLPropagation b s
  | citus_enable_create_database_propagation =>
      set_EnableCreateDatabasePropagation b s
  end.

Definition NewGUCNestLevel : PG Z :=
  fun s =>
    let level := GUCNestLevel s + 1 in
    (Returned level, set_GUCNestLevel level s).

Definition set_stack (v : GucVar) (stack : list GucStack) (s : Backend)
  : Backend :=
  set_guc_stack
    (fun v' => if GucVar_eqb v' v then stack else guc_stack s v') s.

Definition set_state (st : GucStackState) (e : GucStack) : GucStack :=
  {| nest_level := nest_level e; state := st; prior := prior e;
     masked := masked e |}.

Definition set_masked (m : bool) (e : GucStack) : GucStack :=
  {| nest_level := nest_level e; state := state e; prior := prior e;
     masked := m |}.

Definition set_nest_level (level : Z) (e : GucStack) : GucStack :=
  {| nest_level := level; state := state e; prior := prior e;
     masked := masked e |}.

(** [push_old_value]: nothing is saved outside a nest level; an entry of
    the current nest level is only adjusted; otherwise a new entry holding
    the current value is pushed. *)
Definition push_old_value (v : GucVar) (action : GucAction) (s : Backend)
  : Backend :=
  let fresh :=
    {| nest_level := GUCNestLevel s;
       state := match action with
                | GUC_ACTION_SET => GUC_SET
                | GUC_ACTION_LOCAL => GUC_LOCAL
                | GUC_ACTION_SAVE => GUC_SAVE
                end;
       prior := guc_value v s; masked := false |} in
  if GUCNestLevel s =? 0 then s
  else
    match guc_stack s v with
    | top :: below =>
        if GUCNestLevel s <=? nest_level top then
          match action with
          | GUC_ACTION_SET =>
              (* SET overrides any prior action at same nest level *)
              set_stack v (set_state GUC_SET top :: below) s
          | GUC_ACTION_LOCAL =>
              match state top with
              | GUC_SET =>
                  (* SET followed by SET LOCAL, remember SET's value *)
                  set_stack v
                    (set_state GUC_SET_LOCAL
                       (set_masked (guc_value v s) top) :: below) s
              | _ => s
              end
          | GUC_ACTION_SAVE => s
          end
        else set_stack v (fresh :: top :: below) s
    | [] => set_stack v [fresh] s
    end.

Definition set_config_option (v : GucVar) (value : bool)
    (context : GucContext) (action : GucAction) : PG unit :=
  modify (fun s => guc_assign v value (push_old_value v action s)).

(** The value that a transaction commit leaves when it pops [top]. *)
Definition commit_value (top : GucStack) (value : bool) : bool :=
  match state top with
  | GUC_SET_LOCAL => masked top
  | GUC_SET => value              (* we keep the current active value *)
  | _ => prior top
  end.

(** Merging [top] into the entry [prev] of the enclosing level. *)
Definition merge_stack (top prev : GucStack) : GucStack :=
  match state top with
  | GUC_SAVE => prev              (* can't get here *)
  | GUC_SET => set_state GUC_SET prev
  | GUC_LOCAL =>
      match state prev with
      | GUC_SET =>                (* LOCAL migrates down *)
          set_state GUC_SET_LOCAL (set_masked (prior top) prev)
      | _ => prev                 (* else just forget this stack level *)
      end
  | GUC_SET_LOCAL =>              (* copy down the masked state *)
      set_state GUC_SET_LOCAL (set_masked (masked top) prev)
  end.

(** One iteration of the loop over a variable's stack, for a top entry
    whose nest level is at least [nestLevel]. *)
Definition unwind_step (isCommit : bool) (top : GucStack)
    (below : list GucStack) (value : bool) : list GucStack * bool :=
  if negb isCommit then
    (* if abort, always restore prior value *)
    (below, prior top)
  else
    match state top with
    | GUC_SAVE => (below, prior top)
    | _ =>
        if nest_level top =? 1 then
          (* transaction commit *)
          (below, commit_value top value)
        else
          match below with
          | [] =>
              (* decrement entry's level and do not pop it *)
              ([set_nest_level (nest_level top - 1) top], value)
          | prev :: rest =>
              if nest_level prev <? nest_level top - 1
              then (set_nest_level (nest_level top - 1) top :: below, value)
              else (merge_stack top prev :: rest, value)
          end
    end.

(** The loop: every iteration pops the top entry or decrements its level,
    so [unwind_fuel] iterations are enough. *)
Fixpoint unwind_stack (fuel : nat) (isCommit : bool) (nestLevel : Z)
    (stack : list GucStack) (value : bool) : list GucStack * bool :=
  match fuel, stack with
  | S fuel', top :: below =>
      if nest_level top <? nestLevel then (stack, value)
      else
        let next := unwind_step isCommit top below value in
        unwind_stack fuel' isCommit nestLevel (fst next) (snd next)
  | _, _ => (stack, value)
  end.

Definition unwind_fuel (nestLevel : Z) (stack : list GucStack) : nat :=
  fold_right
    (fun e n => (S (Z.to_nat (nest_level e - nestLevel + 1)) + n)%nat)
    O stack.

Definition guc_unwind (isCommit : bool) (nestLevel : Z)
    (stack : list GucStack) (value : bool) : list GucStack * bool :=
  unwind_stack (unwind_fuel nestLevel stack) isCommit nestLevel stack value.

Definition unwind_variable (isCommit : bool) (nestLevel : Z) (v : GucVar)
    (s : Backend) : Backend :=
  let unwound := guc_unwind isCommit nestLevel (guc_stack s v) (guc_value v s)
  in
  guc_assign v (snd unwound) (set_stack v (fst unwound) s).

Definition AtEOXact_GUC (isCommit : bool) (nestLevel : Z) : PG unit :=
  modify (fun s =>
    set_GUCNestLevel (nestLevel - 1)
      (unwind_variable isCommit nestLevel
         citus_enable_create_database_propagation
         (unwind_variable isCommit nestLevel citus_enable_ddl_propagation
            s))).



(** ** pg_database (dbcommands.c)

    Only the existence checks and the catalog effect of the PostgreSQL
    routines are modelled. *)

Definition find_database (name : string) (s : Backend)
  : option pg_database_row :=
  List.find (fun r => String.eqb (datname r) name) (pg_database s).

Definition find_database_by_oid (oid : Z) (s : Backend)
  : option pg_database_row :=
  List.find (fun r => dboid r =? oid) (pg_database s).

(** [get_database_oid]: "Errors if missing_ok is false". *)
Definition get_database_oid (name : string) (missing_ok : bool) : PG Z :=
  fun s =>
    match find_database name s with
    | Some r => (Returned (dboid r), s)
    | None =>
        if missing_ok then (Returned InvalidOid, s)
        else (Raised (UndefinedDatabase name), s)
    end.

Definition get_database_name (oid : Z) : PG (option string) :=
  gets (fun s => datname <$> find_database_by_oid oid s).

Definition createdb (stmt : Node) : PG Z :=
  match stmt with
  | CreatedbStmt dbname =>
      fun s =>
        match find_database dbname s with
        | Some _ => (Raised (DuplicateDatabase dbname), s)
        | None =>
            let row := {| datname := dbname; dboid := nextOid s;
                          datdba := GetUserId env |} in
            (Returned (nextOid s),
             set_pg_database (pg_database s ++ [row]) (nextOid s + 1) s)
        end
  | _ => ereport NullPointer
  end.

Definition dropdb (dbname : string) (missing_ok : bool) : PG unit :=
  fun s =>
    match find_database dbname s with
    | None =>
        if missing_ok then (Returned tt, s)
        else (Raised (UndefinedDatabase dbname), s)
    | Some _ =>
        (Returned tt,
         set_connect_revoked (connect_revoked s ∖ {[ (LocalSite, dbname) ]})
           (set_pg_database
              (List.filter (fun r => negb (String.eqb (datname r) dbname))
                 (pg_database s))
              (nextOid s) s))
    end.

Definition DropDatabase (stmt : Node) : PG unit :=
  match stmt with
  | DropdbStmt dbname missing_ok => dropdb dbname missing_ok
  | _ => ereport NullPointer
  end.

Definition pg_database_ownercheck (oid : Z) (roleid : Z) : PG bool :=
  if superuser env then ret true
  else
    fun s =>
      match find_database_by_oid oid s with
      | Some r => (Returned (datdba r =? roleid), s)
      | None => (Raised (UndefinedDatabaseOid oid), s)
      end.

(** ** commands/database.c *)

(** [citus_internal_database_command] is an internal UDF to create/drop a
    database in an idempotent manner without transaction block
    restrictions. *)
Definition citus_internal_database_command (command : string) : PG unit :=
  saveNestLevel <- NewGUCNestLevel ;;
  match ParseTreeNode command with
  | None => ereport SyntaxError
  | Some parseTree =>
      set_config_option citus_enable_ddl_propagation false
        (if superuser env then PGC_SUSET else PGC_USERSET)
        GUC_ACTION_LOCAL ;;;
      set_config_option citus_enable_create_database_propagation false
        (if superuser env then PGC_SUSET else PGC_USERSET)
        GUC_ACTION_LOCAL ;;;
      (if IsA parseTree T_CreatedbStmt then
         match parseTree with
         | CreatedbStmt dbname =>
             let missingOk := true in
             databaseOid <- get_database_oid dbname missingOk ;;
             if negb (OidIsValid databaseOid)
             then (_ <- createdb parseTree ;; ret tt)
             else ret tt
         | _ => ereport NullPointer
         end
       else if IsA parseTree T_DropdbStmt then
         match parseTree with
         | DropdbStmt dbname _ =>
             let missingOk := false in
             databaseOid <- get_database_oid dbname missingOk ;;
             if OidIsValid databaseOid
             then DropDatabase parseTree
             else ret tt
         | _ => ereport NullPointer
         end
       else ereport (UnsupportedCommandType (nodeTag parseTree))) ;;;
      (* Below command rollbacks flags to the state before this session *)
      AtEOXact_GUC true saveNestLevel
  end.

(** ** Remote and local command execution *)

(** The effect of a privilege command on the site that runs it. *)
Definition apply_command (site : Site) (c : Command)
    (revoked : gset (Site * string)) : gset (Site * string) :=
  match c with
  | GrantConnectOnDatabase db => revoked ∖ {[ (site, db) ]}
  | RevokeConnectOnDatabase db => revoked ∪ {[ (site, db) ]}
  | _ => revoked
  end.

Definition log_event (e : Event) (s : Backend) : Backend :=
  set_trace (trace s ++ [e]) s.

(** [ExecuteQueryViaSPI] raises when the SPI manager cannot be reached or
    the query does not run. *)
Definition ExecuteQueryViaSPI (c : Command) : PG unit :=
  if remote_failure env (EvExecuteQueryViaSPI c)
  then ereport SPIFailure
  else
    modify (fun s =>
      set_connect_revoked (apply_command LocalSite c (connect_revoked s))
        (log_event (EvExecuteQueryViaSPI c) s)).

Definition SendCommandToWorker (name : string) (port : Z) (c : Command)
  : PG unit :=
  if remote_failure env (EvSendCommandToWorker name port c)
  then ereport ConnectionFailure
  else
    modify (fun s =>
      set_connect_revoked
        (apply_command (RemoteSite name port) c (connect_revoked s))
        (log_event (EvSendCommandToWorker name port c) s)).

Definition SendCommandToWorkersWithMetadata (c : Command) : PG unit :=
  if remote_failure env (EvSendCommandToWorkersWithMetadata c)
  then ereport ConnectionFailure
  else modify (log_event (EvSendCommandToWorkersWithMetadata c)).

Definition GetNodeUserDatabaseConnection (flags : ConnectionFlag)
    (host : string) (portNumber : Z) (userName : option string)
    (databaseName : string) : PG MultiConnection :=
  let connection :=
    {| connectionFlags := flags; hostname := host; port := portNumber;
       user := userName; database := databaseName |} in
  if remote_failure env (EvGetNodeUserDatabaseConnection connection)
  then ereport ConnectionFailure
  else
    modify (log_event (EvGetNodeUserDatabaseConnection connection)) ;;;
    ret connection.

Definition ExecuteCriticalRemoteCommand (connection : MultiConnection)
    (c : Command) : PG unit :=
  if remote_failure env (EvExecuteCriticalRemoteCommand connection c)
  then ereport ConnectionFailure
  else modify (log_event (EvExecuteCriticalRemoteCommand connection c)).

Definition CloseConnection (connection : MultiConnection) : PG unit :=
  modify (log_event (EvCloseConnection connection)).

(** ** database/database_sharding.c *)

Definition list_length {A} (l : list A) : Z := Z.of_nat (length l).

Definition list_nth {A} (l : list A) (n : Z) : option A :=
  if n <? 0 then None else l !! Z.to_nat n.

Fixpoint foreach_ptr {A} (l : list A) (body : A -> PG unit) : PG unit :=
  match l with
  | [] => ret tt
  | x :: rest => body x ;;; foreach_ptr rest body
  end.

(** [ExecuteCommandInControlDatabase] connects to localhost to execute a
    command in the main Citus database. *)
Definition ExecuteCommandInControlDatabase (command : string) : PG unit :=
  let connectionFlag := FORCE_NEW_CONNECTION in
  connection <-
    GetNodeUserDatabaseConnection connectionFlag (LocalHostName env)
      (PostPortNumber env) None (CitusMainDatabase env) ;;
  ExecuteCriticalRemoteCommand connection
    (SetApplicationName "citus_database_shard") ;;;
  ExecuteCriticalRemoteCommand connection (RawCommand command) ;;;
  CloseConnection connection.

(** [PreProcessUtilityInDatabaseShard] handles DDL commands that occur
    within a database shard and require global coordination.  The result is
    the value left in [*runPreviousUtilityHook]. *)
Definition PreProcessUtilityInDatabaseShard (parseTree : Node)
    (context : ProcessUtilityContext) (runPreviousUtilityHook : bool)
  : PG bool :=
  if negb (EnableDatabaseSharding env) || negb (is_toplevel context)
  then ret runPreviousUtilityHook
  else
    createDatabasePropagation <- gets EnableCreateDatabasePropagation ;;
    if createDatabasePropagation then
      if IsA parseTree T_CreatedbStmt then
        ExecuteCommandInControlDatabase (DeparseCreatedbStmt parseTree) ;;;
        (* command is fully delegated to control database *)
        ret false
      else if IsA parseTree T_DropdbStmt then
        ExecuteCommandInControlDatabase (DeparseDropdbStmt parseTree) ;;;
        (* command is fully delegated to control database *)
        ret false
      else ret runPreviousUtilityHook
    else ret runPreviousUtilityHook.

(** [InsertDatabaseShardAssignmentLocally] inserts a record into the local
    database_shard table; the table's primary key index on the database id
    rejects a second row for the same database. *)
Definition InsertDatabaseShardAssignmentLocally (databaseOid' : Z)
    (nodeGroupId' : Z) : PG unit :=
  fun s =>
    let heapTuple :=
      {| databaseOid := databaseOid'; nodeGroupId := nodeGroupId';
         isAvailable := true |} in
    if existsb (fun r => databaseOid r =? databaseOid') (database_shard s)
    then (Raised (UniqueViolation databaseOid'), s)
    else (Returned tt, set_database_shard (database_shard s ++ [heapTuple]) s).

Definition InsertDatabaseShardAssignmentCommand (databaseOid' : Z)
    (nodeGroupId' : Z) : PG Command :=
  databaseName <- get_database_name databaseOid' ;;
  match databaseName with
  | Some name => ret (InternalAddDatabaseShard name nodeGroupId')
  | None => ereport NullPointer
  end.

Definition InsertDatabaseShardAssignmentOnOtherNodes (databaseOid' : Z)
    (nodeGroupId' : Z) : PG unit :=
  insertCommand <-
    InsertDatabaseShardAssignmentCommand databaseOid' nodeGroupId' ;;
  SendCommandToWorkersWithMetadata insertCommand.

Definition InsertDatabaseShardAssignment (databaseOid' : Z)
    (nodeGroupId' : Z) : PG unit :=
  InsertDatabaseShardAssignmentLocally databaseOid' nodeGroupId' ;;;
  if EnableMetadataSync env
  then InsertDatabaseShardAssignmentOnOtherNodes databaseOid' nodeGroupId'
  else ret tt.

(** The index scan returns the first matching tuple, and only that tuple
    is deleted. *)
Fixpoint simple_heap_delete (databaseOid' : Z) (rows : list DatabaseShard)
  : list DatabaseShard :=
  match rows with
  | [] => []
  | r :: rest =>
      if databaseOid r =? databaseOid' then rest
      else r :: simple_heap_delete databaseOid' rest
  end.

Definition DeleteDatabaseShardByDatabaseIdLocally (databaseOid' : Z)
  : PG unit :=
  modify (fun s =>
    set_database_shard (simple_heap_delete databaseOid' (database_shard s)) s).

Definition DeleteDatabaseShardByDatabaseIdCommand (databaseOid' : Z)
  : PG Command :=
  databaseName <- get_database_name databaseOid' ;;
  match databaseName with
  | Some name => ret (InternalDeleteDatabaseShard name)
  | None => ereport NullPointer
  end.

Definition DeleteDatabaseShardByDatabaseIdOnOtherNodes (databaseOid' : Z)
  : PG unit :=
  deleteCommand <- DeleteDatabaseShardByDatabaseIdCommand databaseOid' ;;
  SendCommandToWorkersWithMetadata deleteCommand.

Definition DeleteDatabaseShardByDatabaseId (databaseOid' : Z) : PG unit :=
  DeleteDatabaseShardByDatabaseIdLocally databaseOid' ;;;
  if EnableMetadataSync env
  then DeleteDatabaseShardByDatabaseIdOnOtherNodes databaseOid'
  else ret tt.

Definition ListDatabaseShards : PG (list DatabaseShard) :=
  gets database_shard.

Definition GetDatabaseShardByOid (databaseOid' : Z)
  : PG (option DatabaseShard) :=
  gets (fun s =>
    List.find (fun r => databaseOid r =? databaseOid') (database_shard s)).

(** [AllowConnectionsOnlyOnNodeGroup] sets the ALLOW_CONNECTIONS properties
    on the database to false, except on nodeGroupId.  Its second parameter
    is declared [Oid]: callers' [int] group ids arrive converted, and the
    comparison with [workerNode->groupId] is an unsigned one.  Commands are
    kept structured; the database name they carry stands for the quoted
    identifier spliced into the SQL text.  A database OID that no longer
    resolves gives a NULL name, which the first loop iteration would
    dereference. *)
Definition AllowConnectionsOnlyOnNodeGroup (databaseOid' : Z)
    (nodeGroupId' : Z) : PG unit :=
  databaseName <- get_database_name databaseOid' ;;
  let workerNodes := TargetWorkerSetNodeList_ALL_SHARD_NODES env in
  foreach_ptr workerNodes (fun workerNode =>
    match databaseName with
    | None => ereport NullPointer
    | Some name =>
        let command :=
          if uint32 (groupId workerNode) =? nodeGroupId'
          then GrantConnectOnDatabase name
          else RevokeConnectOnDatabase name in
        if groupId workerNode =? GetLocalGroupId env
        then ExecuteQueryViaSPI command
        else SendCommandToWorker (workerName workerNode)
               (workerPort workerNode) command
    end).

(** [AssignDatabaseToShard] finds a suitable node for the given database
    and assigns it. *)
Definition AssignDatabaseToShard (databaseOid' : Z) : PG unit :=
  let workerNodes := TargetWorkerSetNodeList_ALL_SHARD_NODES env in
  nodeGroupId' <-
    (if 0 <? list_length workerNodes then
       (* TODO: actually look for available space *)
       let workerNodeIndex :=
         int32 (uint32 databaseOid' mod uint32 (list_length workerNodes)) in
       match list_nth workerNodes workerNodeIndex with
       | Some workerNode => ret (groupId workerNode)
       | None => ereport ListIndexOutOfRange
       end
     else ret (GetLocalGroupId env)) ;;
  InsertDatabaseShardAssignment databaseOid' nodeGroupId' ;;;
  AllowConnectionsOnlyOnNodeGroup databaseOid' (uint32 nodeGroupId') ;;;
  modify (set_ReconfigurePgBouncersOnCommit true).

(** [CheckCitusVersion] (metadata_cache.c): a mismatch between the
    installed extension and the loaded library is reported at [elevel];
    the result tells whether the versions match. *)
Definition CheckCitusVersion (elevel : ErrorLevel) : PG bool :=
  if CitusVersionCompatible env then ret true
  else
    match elevel with
    | ERROR => ereport VersionMismatch
    | WARNING => ret false
    end.

(** [database_shard_assign] assigns an existing database to a node. *)
Definition database_shard_assign (databaseName : string) : PG unit :=
  CheckCitusVersion ERROR ;;;
  let missingOk := false in
  databaseOid' <- get_database_oid databaseName missingOk ;;
  isOwner <- pg_database_ownercheck databaseOid' (GetUserId env) ;;
  if negb isOwner then ereport (InsufficientPrivilege databaseName)
  else
    shard <- GetDatabaseShardByOid databaseOid' ;;
    match shard with
    | Some _ => ereport AlreadyAssignedToShard
    | None => AssignDatabaseToShard databaseOid'
    end.

(** [UpdateDatabaseShard] updates a database shard after it is moved to a
    new node. *)
Definition UpdateDatabaseShard (databaseOid' : Z) (targetNodeGroupId : Z)
  : PG unit :=
  DeleteDatabaseShardByDatabaseId databaseOid' ;;;
  InsertDatabaseShardAssignment databaseOid' targetNodeGroupId ;;;
  AllowConnectionsOnlyOnNodeGroup databaseOid' (uint32 targetNodeGroupId) ;;;
  modify (set_ReconfigurePgBouncersOnCommit true).

(** [citus_internal_add_database_shard] is an internal UDF to add a row to
    database_shard. *)
Definition citus_internal_add_database_shard (databaseName : string)
    (nodeGroupId' : Z) : PG unit :=
  let missingOk := false in
  databaseOid' <- get_database_oid databaseName missingOk ;;
  isOwner <- pg_database_ownercheck databaseOid' (GetUserId env) ;;
  if negb isOwner then ereport (InsufficientPrivilege databaseName)
  else
    InsertDatabaseShardAssignmentLocally databaseOid' nodeGroupId' ;;;
    (* make sure new database is added to pgbouncer config *)
    modify (set_ReconfigurePgBouncersOnCommit true).

(** [citus_internal_delete_database_shard] is an internal UDF to delete a
    row from database_shard. *)
Definition citus_internal_delete_database_shard (databaseName : string)
  : PG unit :=
  let missingOk := false in
  databaseOid' <- get_database_oid databaseName missingOk ;;
  isOwner <- pg_database_ownercheck databaseOid' (GetUserId env) ;;
  if negb isOwner then ereport (InsufficientPrivilege databaseName)
  else
    DeleteDatabaseShardByDatabaseIdLocally databaseOid' ;;;
    modify (set_ReconfigurePgBouncersOnCommit true).

(** The calls through which the subsystem is entered. *)
Inductive EntryPoint :=
| Call_citus_internal_database_command (command : string)
| Call_PreProcessUtilityInDatabaseShard
    (parseTree : Node) (context : ProcessUtilityContext)
| Call_database_shard_assign (databaseName : string)
| Call_AssignDatabaseToShard (databaseOid' : Z)
| Call_UpdateDatabaseShard (databaseOid' : Z) (targetNodeGroupId : Z)
| Call_citus_internal_add_database_shard
    (databaseName : string) (nodeGroupId' : Z)
| Call_citus_internal_delete_database_shard (databaseName : string).

Definition run_entry (call : EntryPoint) : PG unit :=
  match call with
  | Call_citus_internal_database_command command =>
      citus_internal_database_command command
  | Call_PreProcessUtilityInDatabaseShard parseTree context =>
      _ <- PreProcessUtilityInDatabaseShard parseTree context true ;; ret tt
  | Call_database_shard_assign databaseName =>
      database_shard_assign databaseName
  | Call_AssignDatabaseToShard databaseOid' =>
      AssignDatabaseToShard databaseOid'
  | Call_UpdateDatabaseShard databaseOid' targetNodeGroupId =>
      UpdateDatabaseShard databaseOid' targetNodeGroupId
  | Call_citus_internal_add_database_shard databaseName nodeGroupId' =>
      citus_internal_add_database_shard databaseName nodeGroupId'
  | Call_citus_internal_delete_database_shard databaseName =>
      citus_internal_delete_database_shard databaseName
  end.

End Subsystem.

Arguments citus_internal_database_command {_} env command s.
Arguments PreProcessUtilityInDatabaseShard {_} env parseTree context
  runPreviousUtilityHook s.
Arguments run_entry {_} env call s.

(** ** A concrete cluster for examples *)

Module Demo.

Local Open Scope string_scope.

(** A toy front end: just enough SQL to drive the entry points. *)
Definition parse (command : string) : option Node :=
  if String.prefix "CREATE DATABASE " command
  then Some (CreatedbStmt
               (String.substring 16 (String.length command - 16) command))
  else if String.prefix "DROP DATABASE IF EXISTS " command
  then Some (DropdbStmt
               (String.substring 24 (String.length command - 24) command)
               true)
  else if String.prefix "DROP DATABASE " command
  then Some (DropdbStmt
               (String.substring 14 (String.length command - 14) command)
               false)
  else if String.prefix "CREATE TABLE " command
  then Some (OtherStmt 100)
  else None.

Definition deparse (n : Node) : string :=
  match n with
  | CreatedbStmt dbname => "CREATE DATABASE " ++ dbname
  | DropdbStmt dbname true => "DROP DATABASE IF EXISTS " ++ dbname
  | DropdbStmt dbname false => "DROP DATABASE " ++ dbname
  | OtherStmt _ => ""
  end.

#[export] Instance frontend : SqlFrontend := {|
  ParseTreeNode := parse;
  DeparseCreatedbStmt := deparse;
  DeparseDropdbStmt := deparse
|}.

Definition worker (name : string) (group : Z) : WorkerNode :=
  {| workerName := name; workerPort := 5432; groupId := group |}.

(** The coordinator (group 0) with the given registered shard nodes. *)
Definition coordinator (sharding metadataSync : bool)
    (nodes : list WorkerNode) : Env :=
  {| superuser := true; GetUserId := 10;
     CitusVersionCompatible := true; GetLocalGroupId := 0;
     EnableDatabaseSharding := sharding; EnableMetadataSync := metadataSync;
     LocalHostName := "localhost"; PostPortNumber := 5432;
     CitusMainDatabase := "citus";
     TargetWorkerSetNodeList_ALL_SHARD_NODES := nodes;
     remote_failure := fun _ => false |}.

Definition three_workers : list WorkerNode :=
  [worker "w10" 10; worker "w20" 20; worker "w30" 30].

(** A session with both propagation flags at [flag], the databases
    [dbs] and the registry rows [shards]. *)
Definition session (flag : bool) (dbs : list pg_database_row)
    (shards : list DatabaseShard) : Backend :=
  {| EnableDDLPropagation := flag;
     EnableCreateDatabasePropagation := flag;
     GUCNestLevel := 1; guc_stack := fun _ => [];
     pg_database := dbs; nextOid := 16400;
     database_shard := shards;
     connect_revoked := ∅;
     ReconfigurePgBouncersOnCommit := false;
     trace := [] |}.

Definition citus_db : pg_database_row :=
  {| datname := "citus"; dboid := 16384; datdba := 10 |}.

Definition appdb : pg_database_row :=
  {| datname := "appdb"; dboid := 16387; datdba := 10 |}.

End Demo.

(** * commands/database.c: propagation hooks and owner reconciliation *)

(** The hooks see parse trees of many statement kinds and hand them to the
    deparser; the trees are kept abstract, with the one field the hooks
    read ([stmt->objects] of a GRANT) as an accessor. *)
Inductive ObjectType := OBJECT_DATABASE.

Inductive RoleSpecType := ROLESPEC_CSTRING.

Record RoleSpec := {
  roletype : RoleSpecType;
  rolename : string
}.

Record AlterOwnerStmt := {
  objectType : ObjectType;
  object : option string;
  newowner : RoleSpec
}.

Inductive CatalogClass := DatabaseRelationId.

Record ObjectAddress := {
  classId : CatalogClass;
  objectId : Z;
  objectSubId : Z
}.

Class UtilityFrontend := {
  UtilityNode : Type;
  DeparseTreeNode : UtilityNode -> string;
  quote_literal_cstr : string -> string;
  GrantStmt_objects : UtilityNode -> list string;
  AlterOwnerStmt_node : AlterOwnerStmt -> UtilityNode
}.

Inductive TargetWorkerSet := NON_COORDINATOR_NODES | ALL_SHARD_NODES.

Inductive DDLCommand :=
| DISABLE_DDL_PROPAGATION
| ENABLE_DDL_PROPAGATION
| SqlCommand (sql : string).

(** What a hook hands back: NIL, or whatever [NodeDDLTaskList] makes of a
    target set and a command list (the task builder is left
    uninterpreted). *)
Inductive DDLJobList :=
| NIL
| NodeDDLTaskList (targets : TargetWorkerSet) (commands : list DDLCommand).

Inductive HookError :=
| NotCoordinator
| UndefinedDatabaseWithOid (oid : Z)
| InvalidRoleOid (oid : Z).

(** What the hooks consult: whether DDL is propagated at all, whether this
    node is the coordinator, and the role names by OID. *)
Record PropagationEnv := {
  ShouldPropagate : bool;
  IsCoordinator : bool;
  rolname_of : Z -> option string
}.

Section Propagation.

Context `{UtilityFrontend} (penv : PropagationEnv).

Definition EnsureCoordinator : HookError + unit :=
  if IsCoordinator penv then inr tt else inl NotCoordinator.

Definition GetUserNameFromId (roleid : Z) (noerr : bool)
  : HookError + option string :=
  match rolname_of penv roleid with
  | Some name => inr (Some name)
  | None => if noerr then inr None else inl (InvalidRoleOid roleid)
  end.

(** [get_database_owner] returns the Oid of the role owning the database. *)
Definition get_database_owner (db_oid : Z) (s : Backend) : HookError + Z :=
  match find_database_by_oid db_oid s with
  | None => inl (UndefinedDatabaseWithOid db_oid)
  | Some tuple => inr (datdba tuple)
  end.

(** [RecreateAlterDatabaseOwnerStmt] creates an AlterOwnerStmt that
    represents the operation of changing the owner of the database to its
    current owner.  The name lookup yields NULL, without an error, for an
    OID that does not resolve. *)
Definition RecreateAlterDatabaseOwnerStmt (databaseOid' : Z) (s : Backend)
  : HookError + AlterOwnerStmt :=
  let object' := datname <$> find_database_by_oid databaseOid' s in
  match get_database_owner databaseOid' s with
  | inl e => inl e
  | inr ownerOid =>
      match GetUserNameFromId ownerOid false with
      | inl e => inl e
      | inr None => inl (InvalidRoleOid ownerOid)
      | inr (Some name) =>
          inr {| objectType := OBJECT_DATABASE; object := object';
                 newowner := {| roletype := ROLESPEC_CSTRING;
                                rolename := name |} |}
      end
  end.

(** [DatabaseOwnerDDLCommands] returns a list of sql statements to
    idempotently apply a change of the database owner on the workers. *)
Definition DatabaseOwnerDDLCommands (address : ObjectAddress) (s : Backend)
  : HookError + list string :=
  match RecreateAlterDatabaseOwnerStmt (objectId address) s with
  | inl e => inl e
  | inr stmt => inr [DeparseTreeNode (AlterOwnerStmt_node stmt)]
  end.

Definition PreprocessGrantOnDatabaseStmt (node : UtilityNode)
  : HookError + DDLJobList :=
  if negb (ShouldPropagate penv) then inr NIL
  else
    let databaseList := GrantStmt_objects node in
    if Z.of_nat (length databaseList) =? 0 then inr NIL
    else
      match EnsureCoordinator with
      | inl e => inl e
      | inr _ =>
          let sql := DeparseTreeNode node in
          let commands :=
            [DISABLE_DDL_PROPAGATION; SqlCommand sql;
             ENABLE_DDL_PROPAGATION] in
          inr (NodeDDLTaskList NON_COORDINATOR_NODES commands)
      end.

Definition PreprocessAlterDatabaseStmt (node : UtilityNode)
  : HookError + DDLJobList :=
  if negb (ShouldPropagate penv) then inr NIL
  else
    match EnsureCoordinator with
    | inl e => inl e
    | inr _ =>
        let sql := DeparseTreeNode node in
        let commands :=
          [DISABLE_DDL_PROPAGATION; SqlCommand sql; ENABLE_DDL_PROPAGATION] in
        inr (NodeDDLTaskList NON_COORDINATOR_NODES commands)
    end.

Definition PreprocessAlterDatabaseRefreshCollStmt (node : UtilityNode)
  : HookError + DDLJobList :=
  if negb (ShouldPropagate penv) then inr NIL
  else
    match EnsureCoordinator with
    | inl e => inl e
    | inr _ =>
        let sql := DeparseTreeNode node in
        let commands :=
          [DISABLE_DDL_PROPAGATION; SqlCommand sql; ENABLE_DDL_PROPAGATION] in
        inr (NodeDDLTaskList NON_COORDINATOR_NODES commands)
    end.

Definition PreprocessAlterDatabaseSetStmt (node : UtilityNode)
  : HookError + DDLJobList :=
  if negb (ShouldPropagate penv) then inr NIL
  else
    match EnsureCoordinator with
    | inl e => inl e
    | inr _ =>
        let sql := DeparseTreeNode node in
        let commands :=
          [DISABLE_DDL_PROPAGATION; SqlCommand sql; ENABLE_DDL_PROPAGATION] in
        inr (NodeDDLTaskList NON_COORDINATOR_NODES commands)
    end.

Definition PostprocessCreateDatabaseStmt (node : UtilityNode)
  : HookError + DDLJobList :=
  if negb (ShouldPropagate penv) then inr NIL
  else
    match EnsureCoordinator with
    | inl e => inl e
    | inr _ =>
        let createDatabaseCommand := DeparseTreeNode node in
        let internalCreateCommand :=
          ("SELECT pg_catalog.citus_internal_database_command(" ++
           quote_literal_cstr createDatabaseCommand ++ ")")%string in
        let commands :=
          [DISABLE_DDL_PROPAGATION; SqlCommand internalCreateCommand;
           ENABLE_DDL_PROPAGATION] in
        inr (NodeDDLTaskList NON_COORDINATOR_NODES commands)
    end.

Definition PreprocessDropDatabaseStmt (node : UtilityNode)
  : HookError + DDLJobList :=
  if negb (ShouldPropagate penv) then inr NIL
  else
    match EnsureCoordinator with
    | inl e => inl e
    | inr _ =>
        let dropDatabaseCommand := DeparseTreeNode node in
        let internalDropCommand :=
          ("SELECT pg_catalog.citus_internal_database_command(" ++
           quote_literal_cstr dropDatabaseCommand ++ ")")%string in
        let commands :=
          [DISABLE_DDL_PROPAGATION; SqlCommand internalDropCommand;
           ENABLE_DDL_PROPAGATION] in
        inr (NodeDDLTaskList NON_COORDINATOR_NODES commands)
    end.

(** The six statement hooks of the file. *)
Inductive PropagationHook :=
| Hook_PreprocessGrantOnDatabaseStmt
| Hook_PreprocessAlterDatabaseStmt
| Hook_PreprocessAlterDatabaseRefreshCollStmt
| Hook_PreprocessAlterDatabaseSetStmt
| Hook_PostprocessCreateDatabaseStmt
| Hook_PreprocessDropDatabaseStmt.

Definition run_hook (hook : PropagationHook) (node : UtilityNode)
  : HookError + DDLJobList :=
  match hook with
  | Hook_PreprocessGrantOnDatabaseStmt => PreprocessGrantOnDatabaseStmt node
  | Hook_PreprocessAlterDatabaseStmt => PreprocessAlterDatabaseStmt node
  | Hook_PreprocessAlterDatabaseRefreshCollStmt =>
      PreprocessAlterDatabaseRefreshCollStmt node
  | Hook_PreprocessAlterDatabaseSetStmt => PreprocessAlterDatabaseSetStmt node
  | Hook_PostprocessCreateDatabaseStmt => PostprocessCreateDatabaseStmt node
  | Hook_PreprocessDropDatabaseStmt => PreprocessDropDatabaseStmt node
  end.

End Propagation.

(** [AlterDatabaseOwnerObjectAddress] returns the ObjectAddress of the
    database that is the object of the AlterOwnerStmt.  Errors if
    missing_ok is false. *)
Definition AlterDatabaseOwnerObjectAddress (stmt : AlterOwnerStmt)
    (missing_ok isPostprocess : bool) : PG (list ObjectAddress) :=
  match object stmt with
  | None => ereport NullPointer
  | Some name =>
      databaseOid' <- get_database_oid name missing_ok ;;
      ret [{| classId := DatabaseRelationId; objectId := databaseOid';
              objectSubId := 0 |}]
  end.

(** A toy deparser for the hooks: a node is its text and its object
    list. *)
Module DemoHooks.

Local Open Scope string_scope.

#[export] Instance frontend : UtilityFrontend := {|
  UtilityNode := string * list string;
  DeparseTreeNode := fst;
  quote_literal_cstr := fun text => "'" ++ text ++ "'";
  GrantStmt_objects := snd;
  AlterOwnerStmt_node := fun stmt =>
    ("ALTER DATABASE " ++ default "" (object stmt) ++ " OWNER TO " ++
     rolename (newowner stmt), [])
|}.

Definition node_env (propagate coordinator : bool) : PropagationEnv :=
  {| ShouldPropagate := propagate; IsCoordinator := coordinator;
     rolname_of :=
       fun roleid => if (roleid =? 10)%Z then Some "alice" else None |}.

End DemoHooks.

(** * Vocabulary of the statements *)

(** [m] relates every start state to the state it ends in, whether it
    returns or raises. *)
Definition preserves {A} (R : Backend -> Backend -> Prop) (m : PG A) : Prop :=
  forall s, R s (snd (m s)).

(** The part of the state that catalogs, privileges and the command log
    make up: everything except the GUC machinery. *)
Definition same_catalogs (s s' : Backend) : Prop :=
  pg_database s' = pg_database s /\
  nextOid s' = nextOid s /\
  database_shard s' = database_shard s /\
  connect_revoked s' = connect_revoked s /\
  trace s' = trace s.


(** The state in which the statement is dispatched: nest level opened,
    both flags switched off. *)
Definition propagation_suppressed (env : Env) (s : Backend) : Backend :=
  let context := if superuser env then PGC_SUSET else PGC_USERSET in
  snd (set_config_option citus_enable_create_database_propagation false
         context GUC_ACTION_LOCAL
         (snd (set_config_option citus_enable_ddl_propagation false context
                 GUC_ACTION_LOCAL
                 (snd (NewGUCNestLevel s))))).

(** The statement dispatch between the two GUC calls. *)
Definition replay_statement `{SqlFrontend} (env : Env) (parseTree : Node)
  : PG unit :=
  match parseTree with
  | CreatedbStmt dbname =>
      databaseOid' <- get_database_oid dbname true ;;
      if negb (OidIsValid databaseOid')
      then (_ <- createdb env parseTree ;; ret tt)
      else ret tt
  | DropdbStmt dbname _ =>
      databaseOid' <- get_database_oid dbname false ;;
      if OidIsValid databaseOid' then DropDatabase parseTree else ret tt
  | OtherStmt tag => ereport (UnsupportedCommandType (T_Other tag))
  end.

(** The GUC machinery: both propagation flags, the nest level and every
    variable's stack of saved values. *)
Definition same_gucs (s s' : Backend) : Prop :=
  EnableDDLPropagation s' = EnableDDLPropagation s /\
  EnableCreateDatabasePropagation s' = EnableCreateDatabasePropagation s /\
  GUCNestLevel s' = GUCNestLevel s /\
  forall v, guc_stack s' v = guc_stack s v.




(** Database rows carry valid OIDs, and so will the next one handed out. *)
Definition catalog_wf (s : Backend) : Prop :=
  Forall (fun r => 0 < dboid r) (pg_database s) /\ 0 < nextOid s.

(** How many pg_database rows carry the name. *)
Definition database_count (name : string) (s : Backend) : nat :=
  length (List.filter (fun r => String.eqb (datname r) name) (pg_database s)).

(** A create- or drop-database statement. *)
Definition is_database_statement (parseTree : Node) : bool :=
  IsA parseTree T_CreatedbStmt || IsA parseTree T_DropdbStmt.

(** The connection the delegator opens, and what it does on it. *)
Definition control_database_connection (env : Env) : MultiConnection :=
  {| connectionFlags := FORCE_NEW_CONNECTION;
     hostname := LocalHostName env; port := PostPortNumber env;
     user := None; database := CitusMainDatabase env |}.

Definition control_database_session (env : Env) (command : string)
  : list Event :=
  let connection := control_database_connection env in
  [EvGetNodeUserDatabaseConnection connection;
   EvExecuteCriticalRemoteCommand connection
     (SetApplicationName "citus_database_shard");
   EvExecuteCriticalRemoteCommand connection (RawCommand command);
   EvCloseConnection connection].

(** The shard registry is untouched. *)
Definition same_registry (s s' : Backend) : Prop :=
  database_shard s' = database_shard s.

(** At most one registry row per database (the primary key). *)
Definition registry_unique (s : Backend) : Prop :=
  NoDup (databaseOid <$> database_shard s).

(** Every row present afterwards was present before, unchanged, or is
    marked available. *)
Definition rows_available (s s' : Backend) : Prop :=
  forall row, In row (database_shard s') ->
    In row (database_shard s) \/ isAvailable row = true.

(** The row that an insertion writes. *)
Definition shard_row (oid group : Z) : DatabaseShard :=
  {| databaseOid := oid; nodeGroupId := group; isAvailable := true |}.


(** A node is addressed by name and port. *)
Definition node_address (N : WorkerNode) : string * Z :=
  (workerName N, workerPort N).

(** Where the sweep runs the command meant for node [N]. *)
Definition node_site (env : Env) (N : WorkerNode) : Site :=
  if groupId N =? GetLocalGroupId env then LocalSite
  else RemoteSite (workerName N) (workerPort N).

(** The command the sweep builds for node [N], the event that issuing it
    leaves in the log, its effect on the privileges, and the loop body
    once the database name is known. *)
Definition connect_command (name : string) (group : Z) (N : WorkerNode)
  : Command :=
  if uint32 (groupId N) =? group then GrantConnectOnDatabase name
  else RevokeConnectOnDatabase name.

Definition sweep_event (env : Env) (name : string) (group : Z)
    (N : WorkerNode) : Event :=
  if groupId N =? GetLocalGroupId env
  then EvExecuteQueryViaSPI (connect_command name group N)
  else EvSendCommandToWorker (workerName N) (workerPort N)
         (connect_command name group N).

Definition sweep_step (env : Env) (name : string) (group : Z)
    (revoked : gset (Site * string)) (N : WorkerNode)
  : gset (Site * string) :=
  apply_command (node_site env N) (connect_command name group N) revoked.

Definition sweep_body (env : Env) (name : string) (group : Z)
    (workerNode : WorkerNode) : PG unit :=
  if groupId workerNode =? GetLocalGroupId env
  then ExecuteQueryViaSPI env (connect_command name group workerNode)
  else SendCommandToWorker env (workerName workerNode)
         (workerPort workerNode) (connect_command name group workerNode).

(** PUBLIC may connect to [db] at [site]. *)
Definition grants_connect (s : Backend) (site : Site) (db : string) : Prop :=
  (site, db) ∉ connect_revoked s.

(** The request mirrored to the metadata-holding nodes, if any. *)
Definition mirror_events (env : Env) (c : Command) : list Event :=
  if EnableMetadataSync env then [EvSendCommandToWorkersWithMetadata c]
  else [].

(** Insert, sweep, flag: the common tail of assignment and move. *)
Definition place (env : Env) (oid group : Z) : PG unit :=
  InsertDatabaseShardAssignment env oid group ;;;
  AllowConnectionsOnlyOnNodeGroup env oid (uint32 group) ;;;
  modify (set_ReconfigurePgBouncersOnCommit true).

(** The policy as the specification words it: the coordinator's own group
    when no worker is registered, else the group of
    [workers[databaseId mod workerCount]]. *)
Definition assign_spec (coordinatorGroup : Z) (workers : list WorkerNode)
    (databaseId : Z) : Z :=
  match workers with
  | [] => coordinatorGroup
  | first :: _ =>
      let workerCount := Z.of_nat (length workers) in
      groupId (nth (Z.to_nat (databaseId mod workerCount)) workers first)
  end.

(** Relations and predicates used by the further properties. *)

(** The pooler reconfiguration flag / the database catalog is untouched. *)
Definition same_pooler_flag (s s' : Backend) : Prop :=
  ReconfigurePgBouncersOnCommit s' = ReconfigurePgBouncersOnCommit s.

Definition same_pg_database (s s' : Backend) : Prop :=
  pg_database s' = pg_database s.

(** Nothing but the command log differs. *)
Definition only_log_changes (s s' : Backend) : Prop :=
  EnableDDLPropagation s' = EnableDDLPropagation s /\
  EnableCreateDatabasePropagation s' = EnableCreateDatabasePropagation s /\
  GUCNestLevel s' = GUCNestLevel s /\
  guc_stack s' = guc_stack s /\
  pg_database s' = pg_database s /\
  nextOid s' = nextOid s /\
  database_shard s' = database_shard s /\
  connect_revoked s' = connect_revoked s /\
  ReconfigurePgBouncersOnCommit s' = ReconfigurePgBouncersOnCommit s.

(** Neither the command log nor the shard registry differs. *)
Definition silent (s s' : Backend) : Prop :=
  trace s' = trace s /\ database_shard s' = database_shard s.

(** The computation leaves the registry alone and never fails on the
    registry's key. *)
Definition key_untouched {A} (m : PG A) : Prop :=
  forall s,
    database_shard (snd (m s)) = database_shard s /\
    forall oid, fst (m s) <> Raised (UniqueViolation oid).

(** The registry lookup of every database other than [oid] is as before. *)
Definition other_lookups_same (oid : Z) (s s' : Backend) : Prop :=
  forall oid', oid' <> oid ->
    fst (GetDatabaseShardByOid oid' s') = fst (GetDatabaseShardByOid oid' s).

(** The flag is raised when the computation returns and left alone when it
    raises. *)
Definition pooler_protocol {A} (m : PG A) : Prop :=
  forall s,
    match m s with
    | (Returned _, s') => ReconfigurePgBouncersOnCommit s' = true
    | (Raised _, s') =>
        ReconfigurePgBouncersOnCommit s' = ReconfigurePgBouncersOnCommit s
    end.

Definition database_names_unique (s : Backend) : Prop :=
  NoDup (datname <$> pg_database s).

Definition database_oids_unique (s : Backend) : Prop :=
  NoDup (dboid <$> pg_database s).

(** The entry points that write the shard registry. *)
Definition registry_writer (call : EntryPoint) : bool :=
  match call with
  | Call_citus_internal_database_command _ => false
  | Call_PreProcessUtilityInDatabaseShard _ _ => false
  | _ => true
  end.

(** The database a replayed statement names, if it names one. *)
Definition statement_database (parseTree : Node) : option string :=
  match parseTree with
  | CreatedbStmt dbname => Some dbname
  | DropdbStmt dbname _ => Some dbname
  | OtherStmt _ => None
  end.

(** Whether a hook has anything to propagate, and the SQL it then puts
    between the two guard commands. *)
Definition hook_has_work `{UtilityFrontend} (penv : PropagationEnv)
    (hook : PropagationHook) (node : UtilityNode) : bool :=
  ShouldPropagate penv &&
  match hook with
  | Hook_PreprocessGrantOnDatabaseStmt =>
      negb (Z.of_nat (length (GrantStmt_objects node)) =? 0)
  | _ => true
  end.

Definition hook_payload `{UtilityFrontend} (hook : PropagationHook)
    (node : UtilityNode) : string :=
  match hook with
  | Hook_PostprocessCreateDatabaseStmt | Hook_PreprocessDropDatabaseStmt =>
      ("SELECT pg_catalog.citus_internal_database_command(" ++
       quote_literal_cstr (DeparseTreeNode node) ++ ")")%string
  | _ => DeparseTreeNode node
  end.

(** * Properties *)

(** ** Frames: what a computation leaves related *)

Section Frames.

Context (R : Backend -> Backend -> Prop).
Context `{!Reflexive R, !Transitive R}.

Lemma preserves_ret {A} (a : A) : preserves R (ret a).
Proof. intros s. simpl. reflexivity. Qed.

Lemma preserves_ereport {A} (e : ErrorData) : preserves R (@ereport A e).
Proof. intros s. simpl. reflexivity. Qed.

Lemma preserves_gets {A} (f : Backend -> A) : preserves R (gets f).
Proof. intros s. simpl. reflexivity. Qed.

Lemma preserves_bind {A B} (m : PG A) (k : A -> PG B) :
  preserves R m -> (forall a, preserves R (k a)) -> preserves R (bind m k).
Proof.
  intros Hm Hk s. unfold bind.
  specialize (Hm s). destruct (m s) as [[a|e] s1]; simpl in *.
  - etransitivity; [exact Hm | apply Hk].
  - exact Hm.
Qed.

Lemma preserves_modify (f : Backend -> Backend) :
  (forall s, R s (f s)) -> preserves R (modify f).
Proof. intros Hf s. simpl. apply Hf. Qed.

Lemma preserves_if {A} (b : bool) (m1 m2 : PG A) :
  preserves R m1 -> preserves R m2 -> preserves R (if b then m1 else m2).
Proof. destruct b; auto. Qed.

Lemma preserves_foreach_ptr {A} (l : list A) (body : A -> PG unit) :
  (forall x, preserves R (body x)) -> preserves R (foreach_ptr l body).
Proof.
  intros Hbody. induction l as [|x rest IH]; simpl.
  - apply preserves_ret.
  - apply preserves_bind; auto.
Qed.

End Frames.

Ltac frame_bind := apply preserves_bind; [apply _ | | intros ?].
Ltac frame_ret :=
  first [apply preserves_ret | apply preserves_ereport | apply preserves_gets];
  apply _.

#[local] Instance same_catalogs_refl : Reflexive same_catalogs.
Proof. intros s. unfold same_catalogs. tauto. Qed.

#[local] Instance same_catalogs_trans : Transitive same_catalogs.
Proof.
  intros a b c (H1 & H2 & H3 & H4 & H5) (K1 & K2 & K3 & K4 & K5).
  unfold same_catalogs. repeat split; congruence.
Qed.

Lemma set_stack_catalogs v stack s : same_catalogs s (set_stack v stack s).
Proof. unfold same_catalogs. simpl. tauto. Qed.

Lemma push_old_value_catalogs v action s :
  same_catalogs s (push_old_value v action s).
Proof.
  unfold push_old_value.
  destruct (GUCNestLevel s =? 0); [reflexivity|].
  destruct (guc_stack s v) as [|top below]; [apply set_stack_catalogs|].
  destruct (_ <=? _); [|apply set_stack_catalogs].
  destruct action; [apply set_stack_catalogs| |reflexivity].
  destruct (state top); try reflexivity; apply set_stack_catalogs.
Qed.

Lemma guc_assign_catalogs v b s : same_catalogs s (guc_assign v b s).
Proof. destruct v; unfold same_catalogs; simpl; tauto. Qed.

Lemma set_config_option_catalogs v b c a :
  preserves same_catalogs (set_config_option v b c a).
Proof.
  apply preserves_modify. intros s.
  etransitivity; [apply push_old_value_catalogs | apply guc_assign_catalogs].
Qed.

Lemma NewGUCNestLevel_catalogs : preserves same_catalogs NewGUCNestLevel.
Proof. intros s. unfold same_catalogs. simpl. tauto. Qed.

Lemma unwind_variable_catalogs isCommit nestLevel v s :
  same_catalogs s (unwind_variable isCommit nestLevel v s).
Proof.
  unfold unwind_variable.
  etransitivity; [apply set_stack_catalogs | apply guc_assign_catalogs].
Qed.

Lemma AtEOXact_GUC_catalogs isCommit nestLevel :
  preserves same_catalogs (AtEOXact_GUC isCommit nestLevel).
Proof.
  apply preserves_modify. intros s.
  set (s1 := unwind_variable _ _ citus_enable_ddl_propagation s).
  set (s2 := unwind_variable _ _ _ s1).
  transitivity s1; [apply unwind_variable_catalogs|].
  transitivity s2; [apply unwind_variable_catalogs|].
  unfold same_catalogs.
  cbn [set_GUCNestLevel pg_database nextOid database_shard connect_revoked
       trace].
  tauto.
Qed.

(** ** The GUC bracket of the replay UDF *)

Lemma citus_internal_database_command_unfold `{SqlFrontend} env command s :
  citus_internal_database_command env command s =
  match ParseTreeNode command with
  | None => (Raised SyntaxError, snd (NewGUCNestLevel s))
  | Some parseTree =>
      match replay_statement env parseTree (propagation_suppressed env s) with
      | (Returned _, s2) => AtEOXact_GUC true (GUCNestLevel s + 1) s2
      | (Raised e, s2) => (Raised e, s2)
      end
  end.
Proof.
  unfold citus_internal_database_command, propagation_suppressed, bind.
  simpl. destruct (ParseTreeNode command) as [[dbname|dbname mo|tag]|];
    reflexivity.
Qed.

#[local] Instance same_gucs_refl : Reflexive same_gucs.
Proof. intros s. unfold same_gucs. tauto. Qed.

#[local] Instance same_gucs_trans : Transitive same_gucs.
Proof.
  intros a b c (H1 & H2 & H3 & H4) (K1 & K2 & K3 & K4).
  unfold same_gucs.
  split; [congruence|]. split; [congruence|]. split; [congruence|].
  intros v. rewrite K4. apply H4.
Qed.

Lemma get_database_oid_state name missing_ok s :
  snd (get_database_oid name missing_ok s) = s.
Proof.
  unfold get_database_oid.
  destruct (find_database name s); [|destruct missing_ok]; reflexivity.
Qed.

Lemma get_database_oid_preserves R `{!Reflexive R} name missing_ok :
  preserves R (get_database_oid name missing_ok).
Proof. intros s. rewrite get_database_oid_state. reflexivity. Qed.

Lemma CheckCitusVersion_state env elevel s :
  snd (CheckCitusVersion env elevel s) = s.
Proof.
  unfold CheckCitusVersion.
  destruct (CitusVersionCompatible env); [|destruct elevel]; reflexivity.
Qed.

Lemma CheckCitusVersion_preserves R `{!Reflexive R} env elevel :
  preserves R (CheckCitusVersion env elevel).
Proof. intros s. rewrite CheckCitusVersion_state. reflexivity. Qed.




Lemma propagation_suppressed_catalogs env s :
  same_catalogs s (propagation_suppressed env s).
Proof.
  unfold propagation_suppressed.
  etransitivity; [apply NewGUCNestLevel_catalogs|].
  etransitivity; apply set_config_option_catalogs.
Qed.

Lemma push_old_value_flags v action s :
  EnableDDLPropagation (push_old_value v action s) = EnableDDLPropagation s /\
  EnableCreateDatabasePropagation (push_old_value v action s) =
    EnableCreateDatabasePropagation s /\
  GUCNestLevel (push_old_value v action s) = GUCNestLevel s.
Proof.
  unfold push_old_value.
  destruct (GUCNestLevel s =? 0); [auto|].
  destruct (guc_stack s v) as [|top below]; [simpl; auto|].
  destruct (_ <=? _); [|simpl; auto].
  destruct action; [simpl; auto| |auto].
  destruct (state top); simpl; auto.
Qed.

Lemma propagation_suppressed_flags env s :
  EnableDDLPropagation (propagation_suppressed env s) = false /\
  EnableCreateDatabasePropagation (propagation_suppressed env s) = false /\
  GUCNestLevel (propagation_suppressed env s) = GUCNestLevel s + 1.
Proof.
  unfold propagation_suppressed, set_config_option, modify, NewGUCNestLevel.
  cbn [snd guc_assign].
  match goal with
  | |- context [push_old_value citus_enable_create_database_propagation
                  ?a ?s1] =>
      destruct (push_old_value_flags
                  citus_enable_create_database_propagation a s1)
        as (_ & _ & L2)
  end.
  match goal with
  | |- context [push_old_value citus_enable_ddl_propagation ?a ?s0] =>
      destruct (push_old_value_flags citus_enable_ddl_propagation a s0)
        as (_ & _ & L1)
  end.
  cbn [EnableDDLPropagation EnableCreateDatabasePropagation GUCNestLevel
       set_EnableDDLPropagation set_EnableCreateDatabasePropagation
       set_GUCNestLevel] in *.
  repeat split; try reflexivity.
  - destruct (push_old_value_flags citus_enable_create_database_propagation
                GUC_ACTION_LOCAL
                (set_EnableDDLPropagation false
                   (push_old_value citus_enable_ddl_propagation
                      GUC_ACTION_LOCAL
                      (set_GUCNestLevel (GUCNestLevel s + 1) s))))
      as (D & _). exact D.
  - rewrite L2. exact L1.
Qed.

(** ** Unwinding one variable's stack *)

Lemma merge_stack_level top prev :
  nest_level (merge_stack top prev) = nest_level prev.
Proof. unfold merge_stack. destruct (state top), (state prev); reflexivity. Qed.

(** Every iteration brings the loop closer to its end. *)
Lemma unwind_step_fuel isCommit nestLevel top below value :
  nestLevel <= nest_level top ->
  (unwind_fuel nestLevel (fst (unwind_step isCommit top below value)) <
   unwind_fuel nestLevel (top :: below))%nat.
Proof.
  intros Hlevel. unfold unwind_step.
  assert (Hdec :
    (S (Z.to_nat (nest_level top - 1 - nestLevel + 1)) <
     S (S (Z.to_nat (nest_level top - nestLevel + 1))))%nat) by lia.
  assert (Hdec' :
    (S (Z.to_nat (nest_level top - 1 - nestLevel + 1)) <
     S (Z.to_nat (nest_level top - nestLevel + 1)))%nat) by lia.
  destruct (negb isCommit); [simpl; lia|].
  destruct (state top); try (simpl; lia);
    (destruct (nest_level top =? 1); [simpl; lia|];
     destruct below as [|prev rest]; [simpl; lia|];
     destruct (nest_level prev <? nest_level top - 1); simpl;
     rewrite ?merge_stack_level; lia).
Qed.

Lemma unwind_fuel_cons nestLevel top below :
  unwind_fuel nestLevel (top :: below) =
  S (Z.to_nat (nest_level top - nestLevel + 1) + unwind_fuel nestLevel below).
Proof. reflexivity. Qed.

Lemma unwind_fuel_nil nestLevel stack :
  unwind_fuel nestLevel stack = O -> stack = [].
Proof. destruct stack; [reflexivity|simpl; lia]. Qed.

(** With enough fuel the loop runs to its end: more fuel changes
    nothing. *)
Lemma unwind_stack_enough isCommit nestLevel fuel1 fuel2 stack value :
  (unwind_fuel nestLevel stack <= fuel1)%nat ->
  (unwind_fuel nestLevel stack <= fuel2)%nat ->
  unwind_stack fuel1 isCommit nestLevel stack value =
  unwind_stack fuel2 isCommit nestLevel stack value.
Proof.
  revert fuel2 stack value.
  induction fuel1 as [|fuel1 IH]; intros fuel2 stack value H1 H2.
  - rewrite (unwind_fuel_nil nestLevel stack) by lia.
    destruct fuel2; reflexivity.
  - destruct stack as [|top below]; [destruct fuel2; reflexivity|].
    destruct fuel2 as [|fuel2]; [simpl in H2; lia|].
    cbn [unwind_stack].
    destruct (Z.ltb_spec (nest_level top) nestLevel); [reflexivity|].
    pose proof (unwind_step_fuel isCommit nestLevel top below value ltac:(lia)).
    apply IH; lia.
Qed.

Lemma guc_unwind_nil isCommit nestLevel value :
  guc_unwind isCommit nestLevel [] value = ([], value).
Proof. reflexivity. Qed.

Lemma guc_unwind_cons isCommit nestLevel top below value :
  guc_unwind isCommit nestLevel (top :: below) value =
  if nest_level top <? nestLevel then (top :: below, value)
  else
    let next := unwind_step isCommit top below value in
    guc_unwind isCommit nestLevel (fst next) (snd next).
Proof.
  unfold guc_unwind at 1. rewrite unwind_fuel_cons. cbn [unwind_stack].
  destruct (Z.ltb_spec (nest_level top) nestLevel); [reflexivity|].
  cbv zeta. unfold guc_unwind.
  pose proof (unwind_step_fuel isCommit nestLevel top below value ltac:(lia))
    as Hfuel.
  rewrite unwind_fuel_cons in Hfuel.
  apply unwind_stack_enough; lia.
Qed.

(** The loop ends with no entry left at [nestLevel] or deeper. *)
Lemma guc_unwind_settled isCommit nestLevel stack value :
  match fst (guc_unwind isCommit nestLevel stack value) with
  | [] => True
  | top :: _ => nest_level top < nestLevel
  end.
Proof.
  remember (unwind_fuel nestLevel stack) as fuel eqn:Hfuel.
  revert stack value Hfuel.
  induction fuel as [fuel IH] using lt_wf_ind. intros stack value ->.
  destruct stack as [|top below]; [exact I|].
  rewrite guc_unwind_cons.
  destruct (Z.ltb_spec (nest_level top) nestLevel); [exact H|].
  cbv zeta.
  apply (IH _ (unwind_step_fuel isCommit nestLevel top below value
                 ltac:(lia)) _ _ eq_refl).
Qed.




(** ** Replay: outcome and catalog effect *)

Lemma find_database_same name s s' :
  pg_database s' = pg_database s ->
  find_database name s' = find_database name s.
Proof. unfold find_database. intros ->. reflexivity. Qed.

Lemma find_database_valid name s r :
  catalog_wf s -> find_database name s = Some r -> OidIsValid (dboid r) = true.
Proof.
  intros [Hwf _] Hfind. apply List.find_some in Hfind as [Hin _].
  rewrite List.Forall_forall in Hwf. specialize (Hwf r Hin).
  unfold OidIsValid, InvalidOid.
  destruct (Z.eqb_spec (dboid r) 0); [lia|reflexivity].
Qed.

Lemma find_none_filter_nil {A} (f : A -> bool) l :
  List.find f l = None -> List.filter f l = [].
Proof.
  induction l as [|x l IH]; simpl; [auto|].
  destruct (f x); [discriminate|auto].
Qed.

Lemma AtEOXact_GUC_returns isCommit nestLevel s :
  fst (AtEOXact_GUC isCommit nestLevel s) = Returned tt.
Proof. reflexivity. Qed.

(** Once the text parses, the call's outcome is that of the statement
    dispatch, and only GUC state separates the two final states. *)
Lemma command_outcome `{SqlFrontend} env command parseTree s :
  ParseTreeNode command = Some parseTree ->
  let r := citus_internal_database_command env command s in
  let d := replay_statement env parseTree (propagation_suppressed env s) in
  fst r = fst d /\ same_catalogs (snd d) (snd r).
Proof.
  intros Hparse. cbv zeta.
  rewrite citus_internal_database_command_unfold, Hparse.
  destruct (replay_statement _ _ _) as [[[]|e] s2]; simpl.
  - split; [reflexivity|]. apply (AtEOXact_GUC_catalogs true _ s2).
  - split; reflexivity.
Qed.

Lemma replay_create_absent `{SqlFrontend} env dbname s1 :
  find_database dbname s1 = None ->
  replay_statement env (CreatedbStmt dbname) s1 =
  (Returned tt,
   set_pg_database
     (pg_database s1 ++
      [{| datname := dbname; dboid := nextOid s1; datdba := GetUserId env |}])
     (nextOid s1 + 1) s1).
Proof.
  intros Hfind. unfold replay_statement, bind, get_database_oid.
  rewrite Hfind. simpl. rewrite Hfind. reflexivity.
Qed.

Lemma replay_create_present `{SqlFrontend} env dbname s1 r :
  catalog_wf s1 ->
  find_database dbname s1 = Some r ->
  replay_statement env (CreatedbStmt dbname) s1 = (Returned tt, s1).
Proof.
  intros Hwf Hfind. unfold replay_statement, bind, get_database_oid.
  rewrite Hfind. rewrite (find_database_valid _ _ _ Hwf Hfind). reflexivity.
Qed.

Lemma replay_drop_absent `{SqlFrontend} env dbname missing_ok s1 :
  find_database dbname s1 = None ->
  replay_statement env (DropdbStmt dbname missing_ok) s1 =
  (Raised (UndefinedDatabase dbname), s1).
Proof.
  intros Hfind. unfold replay_statement, bind, get_database_oid.
  rewrite Hfind. reflexivity.
Qed.

Lemma replay_drop_present `{SqlFrontend} env dbname missing_ok s1 r :
  catalog_wf s1 ->
  find_database dbname s1 = Some r ->
  replay_statement env (DropdbStmt dbname missing_ok) s1 =
  (Returned tt,
   set_connect_revoked (connect_revoked s1 ∖ {[ (LocalSite, dbname) ]})
     (set_pg_database
        (List.filter (fun r => negb (String.eqb (datname r) dbname))
           (pg_database s1))
        (nextOid s1) s1)).
Proof.
  intros Hwf Hfind. unfold replay_statement, bind, get_database_oid.
  rewrite Hfind. rewrite (find_database_valid _ _ _ Hwf Hfind).
  simpl. unfold dropdb. rewrite Hfind. reflexivity.
Qed.

Lemma catalog_wf_same s s' :
  pg_database s' = pg_database s -> nextOid s' = nextOid s ->
  catalog_wf s -> catalog_wf s'.
Proof. unfold catalog_wf. intros -> ->. auto. Qed.

(** The drop half that the code does deliver: an existing database is
    removed from pg_database and the call returns. *)
Lemma replay_drop_existing_database `{SqlFrontend} env command dbname
    missing_ok s r :
  ParseTreeNode command = Some (DropdbStmt dbname missing_ok) ->
  catalog_wf s ->
  find_database dbname s = Some r ->
  let out := citus_internal_database_command env command s in
  fst out = Returned tt /\
  pg_database (snd out) =
    List.filter (fun r => negb (String.eqb (datname r) dbname))
      (pg_database s) /\
  find_database dbname (snd out) = None.
Proof.
  intros Hparse Hwf Hfind. cbv zeta.
  destruct (command_outcome env command _ s Hparse) as [Hfst Hcat].
  destruct (propagation_suppressed_catalogs env s) as (P1 & P2 & _).
  rewrite <- (find_database_same dbname _ _ P1) in Hfind.
  assert (Hwf1 : catalog_wf (propagation_suppressed env s))
    by (eapply catalog_wf_same; eauto).
  rewrite (replay_drop_present env dbname missing_ok _ r Hwf1 Hfind)
    in Hfst, Hcat.
  destruct Hcat as (C1 & _). simpl in *.
  rewrite Hfst, C1, P1. repeat split.
  unfold find_database. rewrite C1. simpl. rewrite P1.
  destruct (List.find _ _) as [x|] eqn:Hx; [|reflexivity].
  apply List.find_some in Hx as [Hin Hname].
  apply List.filter_In in Hin as [_ Hneg]. rewrite Hname in Hneg.
  discriminate.
Qed.

(** The drop half that it does not: with the database absent the lookup
    itself raises, before the validity test is reached. *)
Lemma replay_drop_absent_database `{SqlFrontend} env command dbname
    missing_ok s :
  ParseTreeNode command = Some (DropdbStmt dbname missing_ok) ->
  find_database dbname s = None ->
  fst (citus_internal_database_command env command s) =
  Raised (UndefinedDatabase dbname).
Proof.
  intros Hparse Hfind.
  destruct (command_outcome env command _ s Hparse) as [Hfst _].
  destruct (propagation_suppressed_catalogs env s) as (P1 & _).
  rewrite <- (find_database_same dbname _ _ P1) in Hfind.
  rewrite (replay_drop_absent env dbname missing_ok _ Hfind) in Hfst.
  exact Hfst.
Qed.

(** C1 (the code at the failing input): replaying a drop-database text for
    a database that is already absent is not a silent no-op; the call
    raises "database does not exist" and leaves the session inside the
    bracket with both propagation flags off. *)
Theorem replay_drop_absent_database_raises :
  let s := Demo.session true [Demo.citus_db] [] in
  let out :=
    @citus_internal_database_command Demo.frontend
      (Demo.coordinator false false []) "DROP DATABASE appdb" s in
  find_database "appdb" s = None /\
  fst out = Raised (UndefinedDatabase "appdb") /\
  pg_database (snd out) = pg_database s.
Proof. cbv zeta. repeat split; reflexivity. Qed.

Lemma replay_create_once `{SqlFrontend} env command dbname s :
  ParseTreeNode command = Some (CreatedbStmt dbname) ->
  catalog_wf s ->
  let out := citus_internal_database_command env command s in
  let row :=
    {| datname := dbname; dboid := nextOid s; datdba := GetUserId env |} in
  fst out = Returned tt /\
  catalog_wf (snd out) /\
  (find_database dbname s = None ->
   pg_database (snd out) = pg_database s ++ [row]) /\
  (find_database dbname s <> None -> same_catalogs s (snd out)) /\
  find_database dbname (snd out) <> None.
Proof.
  intros Hparse Hwf. cbv zeta.
  destruct (command_outcome env command _ s Hparse) as [Hfst Hcat].
  pose proof (propagation_suppressed_catalogs env s) as Hsup.
  destruct Hsup as (P1 & P2 & P3 & P4 & P5).
  assert (Hwf1 : catalog_wf (propagation_suppressed env s))
    by (eapply catalog_wf_same; eauto).
  destruct (find_database dbname s) as [r|] eqn:Hfind.
  - rewrite <- (find_database_same dbname _ _ P1) in Hfind.
    rewrite (replay_create_present env dbname _ r Hwf1 Hfind) in Hfst, Hcat.
    cbn [fst snd] in Hfst, Hcat. destruct Hcat as (C1 & C2 & C3 & C4 & C5).
    assert (Hsame : same_catalogs s
              (snd (citus_internal_database_command env command s)))
      by (unfold same_catalogs; repeat split; congruence).
    split; [exact Hfst|]. split; [|split; [discriminate|split]].
    + eapply catalog_wf_same; [| |exact Hwf]; congruence.
    + intros _. exact Hsame.
    + rewrite (find_database_same dbname s _) by congruence.
      rewrite <- (find_database_same dbname _ _ P1). congruence.
  - rewrite <- (find_database_same dbname _ _ P1) in Hfind.
    rewrite (replay_create_absent env dbname _ Hfind) in Hfst, Hcat.
    cbn [fst snd] in Hfst, Hcat. destruct Hcat as (C1 & C2 & _).
    cbn [pg_database nextOid set_pg_database] in C1, C2.
    rewrite P1, P2 in *.
    split; [exact Hfst|]. split; [|split; [|split]].
    + destruct Hwf as [Hrows Hnext]. split.
      * rewrite C1. apply Forall_app. split; [exact Hrows|].
        constructor; [simpl; lia|constructor].
      * rewrite C2. lia.
    + intros _. exact C1.
    + intros Hne. congruence.
    + unfold find_database. rewrite C1. intros Hnone.
      pose proof (List.find_none _ _ Hnone
                    {| datname := dbname; dboid := nextOid s;
                       datdba := GetUserId env |}) as Hrow.
      simpl in Hrow. rewrite String.eqb_refl in Hrow.
      assert (true = false); [apply Hrow|discriminate].
      apply List.in_or_app. right. left. reflexivity.
Qed.

(** C2: replaying a create-database text creates the database when it is
    absent and is a no-op when it is present; replayed twice, both calls
    return, the second changes nothing, and exactly one database of that
    name exists. *)
Theorem replay_create_database_idempotent `{SqlFrontend} env command dbname
    s :
  ParseTreeNode command = Some (CreatedbStmt dbname) ->
  catalog_wf s ->
  let first := citus_internal_database_command env command s in
  let second := citus_internal_database_command env command (snd first) in
  fst first = Returned tt /\
  (find_database dbname s = None ->
   pg_database (snd first) =
   pg_database s ++
   [{| datname := dbname; dboid := nextOid s; datdba := GetUserId env |}]) /\
  (find_database dbname s <> None -> same_catalogs s (snd first)) /\
  fst second = Returned tt /\
  same_catalogs (snd first) (snd second) /\
  (find_database dbname s = None ->
   database_count dbname (snd second) = 1%nat).
Proof.
  intros Hparse Hwf. cbv zeta.
  destruct (replay_create_once env command dbname s Hparse Hwf)
    as (F1 & Fwf & Fabsent & Fpresent & Ffound).
  destruct (replay_create_once env command dbname _ Hparse Fwf)
    as (S1 & _ & _ & Spresent & _).
  specialize (Spresent Ffound).
  split; [exact F1|]. split; [exact Fabsent|]. split; [exact Fpresent|].
  split; [exact S1|]. split; [exact Spresent|].
  intros Hnone. unfold database_count.
  destruct Spresent as (C1 & _). rewrite C1, (Fabsent Hnone).
  rewrite List.filter_app. unfold find_database in Hnone.
  rewrite (find_none_filter_nil _ _ Hnone). simpl.
  rewrite String.eqb_refl. reflexivity.
Qed.

Lemma replay_create_database_idempotent_witness :
  let env := Demo.coordinator false false [] in
  let s := Demo.session true [Demo.citus_db] [] in
  let first :=
    @citus_internal_database_command Demo.frontend env
      "CREATE DATABASE appdb" s in
  let second :=
    @citus_internal_database_command Demo.frontend env
      "CREATE DATABASE appdb" (snd first) in
  fst first = Returned tt /\
  (find_database "appdb" s = None ->
   pg_database (snd first) =
   pg_database s ++
   [{| datname := "appdb"; dboid := nextOid s; datdba := GetUserId env |}]) /\
  (find_database "appdb" s <> None -> same_catalogs s (snd first)) /\
  fst second = Returned tt /\
  same_catalogs (snd first) (snd second) /\
  (find_database "appdb" s = None ->
   database_count "appdb" (snd second) = 1%nat).
Proof.
  apply (@replay_create_database_idempotent Demo.frontend
           (Demo.coordinator false false []) "CREATE DATABASE appdb" "appdb"
           (Demo.session true [Demo.citus_db] [])).
  - reflexivity.
  - split; [repeat constructor|reflexivity].
Defined.

(** C4: text of any other statement kind makes the call fail with the
    "unsupported command type" error, and pg_database, the OID counter,
    the shard registry, the CONNECT privileges and the command log are
    what they were before the call. *)
Theorem replay_unsupported_statement `{SqlFrontend} env command parseTree s :
  ParseTreeNode command = Some parseTree ->
  IsA parseTree T_CreatedbStmt = false ->
  IsA parseTree T_DropdbStmt = false ->
  let out := citus_internal_database_command env command s in
  fst out = Raised (UnsupportedCommandType (nodeTag parseTree)) /\
  same_catalogs s (snd out).
Proof.
  intros Hparse Hcreate Hdrop. cbv zeta.
  destruct (command_outcome env command _ s Hparse) as [Hfst Hcat].
  destruct parseTree as [dbname|dbname mo|tag]; try discriminate.
  simpl in Hfst, Hcat. split; [exact Hfst|].
  etransitivity; [apply propagation_suppressed_catalogs|exact Hcat].
Qed.

Lemma replay_unsupported_statement_witness :
  let env := Demo.coordinator false false [] in
  let s := Demo.session true [Demo.citus_db; Demo.appdb] [] in
  let out :=
    @citus_internal_database_command Demo.frontend env "CREATE TABLE t" s in
  fst out = Raised (UnsupportedCommandType (T_Other 100)) /\
  same_catalogs s (snd out).
Proof.
  apply (@replay_unsupported_statement Demo.frontend
           (Demo.coordinator false false []) "CREATE TABLE t" (OtherStmt 100)
           (Demo.session true [Demo.citus_db; Demo.appdb] []));
    reflexivity.
Defined.

(** ** Replay: the propagation flags *)



















(** ** The control-database delegator *)

Lemma ExecuteCommandInControlDatabase_events env command s :
  (forall e, remote_failure env e = false) ->
  ExecuteCommandInControlDatabase env command s =
  (Returned tt,
   set_trace (trace s ++ control_database_session env command) s).
Proof.
  intros Hok.
  unfold ExecuteCommandInControlDatabase, GetNodeUserDatabaseConnection,
    ExecuteCriticalRemoteCommand, CloseConnection, bind, modify, ret.
  rewrite !Hok. unfold log_event, control_database_session,
    control_database_connection. simpl.
  rewrite <- !app_assoc. reflexivity.
Qed.

(** C9 (claimed: active whenever sharding is enabled): with per-database
    sharding enabled but create-database propagation switched off, a
    top-level CREATE DATABASE is not delegated: nothing is sent to the
    control database and the local execution path stays enabled. *)
Lemma delegator_inactive_without_create_database_propagation :
  let env := Demo.coordinator true false [] in
  let s := Demo.session false [Demo.citus_db; Demo.appdb] [] in
  EnableDatabaseSharding env = true /\
  is_database_statement (CreatedbStmt "newdb") = true /\
  @PreProcessUtilityInDatabaseShard Demo.frontend env (CreatedbStmt "newdb")
    PROCESS_UTILITY_TOPLEVEL true s = (Returned true, s).
Proof. cbv zeta. repeat split; reflexivity. Qed.

(** C9 (amended): the delegator acts exactly when per-database sharding is
    enabled, create-database propagation is enabled, the statement is at
    top level and it is a create- or drop-database statement.  It then
    deparses the statement, runs the text in the control database over a
    forced-new connection tagged with its application name, and clears the
    run-previous-hook flag, so that the statement is not executed locally;
    in every other case it does nothing and leaves the flag alone.  Whether
    the session is in a shard database is not tested by the delegator. *)
Theorem delegator_activation `{SqlFrontend} env parseTree context
    runPreviousUtilityHook s :
  let active :=
    EnableDatabaseSharding env && is_toplevel context &&
    EnableCreateDatabasePropagation s && is_database_statement parseTree in
  let command :=
    if IsA parseTree T_CreatedbStmt then DeparseCreatedbStmt parseTree
    else DeparseDropdbStmt parseTree in
  PreProcessUtilityInDatabaseShard env parseTree context
    runPreviousUtilityHook s =
  (if active then
     match ExecuteCommandInControlDatabase env command s with
     | (Returned _, s') => (Returned false, s')
     | (Raised e, s') => (Raised e, s')
     end
   else (Returned runPreviousUtilityHook, s)) /\
  ((forall e, remote_failure env e = false) ->
   active = true ->
   PreProcessUtilityInDatabaseShard env parseTree context
     runPreviousUtilityHook s =
   (Returned false,
    set_trace (trace s ++ control_database_session env command) s)).
Proof.
  cbv zeta.
  assert (Hfirst :
    PreProcessUtilityInDatabaseShard env parseTree context
      runPreviousUtilityHook s =
    (if EnableDatabaseSharding env && is_toplevel context &&
        EnableCreateDatabasePropagation s && is_database_statement parseTree
     then
       match ExecuteCommandInControlDatabase env
               (if IsA parseTree T_CreatedbStmt
                then DeparseCreatedbStmt parseTree
                else DeparseDropdbStmt parseTree) s with
       | (Returned _, s') => (Returned false, s')
       | (Raised e, s') => (Raised e, s')
       end
     else (Returned runPreviousUtilityHook, s))).
  { unfold PreProcessUtilityInDatabaseShard, is_database_statement.
    destruct (EnableDatabaseSharding env); [|reflexivity].
    destruct (is_toplevel context); [|reflexivity].
    cbn [negb orb andb]. unfold bind at 1. unfold gets.
    destruct (EnableCreateDatabasePropagation s); [|reflexivity].
    cbn [andb].
    destruct (IsA parseTree T_CreatedbStmt); cbn [orb].
    - unfold bind at 1.
      destruct (ExecuteCommandInControlDatabase _ _ _) as [[u|e] s'];
        reflexivity.
    - destruct (IsA parseTree T_DropdbStmt); [|reflexivity].
      unfold bind at 1.
      destruct (ExecuteCommandInControlDatabase _ _ _) as [[u|e] s'];
        reflexivity. }
  split; [exact Hfirst|].
  intros Hok Hactive. rewrite Hfirst, Hactive.
  rewrite (ExecuteCommandInControlDatabase_events env _ s Hok). reflexivity.
Qed.

Lemma delegator_activation_witness :
  let env := Demo.coordinator true false [] in
  let s := Demo.session true [Demo.citus_db; Demo.appdb] [] in
  @PreProcessUtilityInDatabaseShard Demo.frontend env
    (DropdbStmt "appdb" false) PROCESS_UTILITY_TOPLEVEL true s =
  (Returned false,
   set_trace (trace s ++ control_database_session env "DROP DATABASE appdb")
     s).
Proof.
  apply (proj2 (@delegator_activation Demo.frontend
                  (Demo.coordinator true false []) (DropdbStmt "appdb" false)
                  PROCESS_UTILITY_TOPLEVEL true
                  (Demo.session true [Demo.citus_db; Demo.appdb] [])));
    reflexivity.
Defined.

(** ** The shard registry: rows are only ever inserted as available *)

#[local] Instance same_registry_refl : Reflexive same_registry.
Proof. intros s. reflexivity. Qed.

#[local] Instance same_registry_trans : Transitive same_registry.
Proof. intros a b c Hab Hbc. unfold same_registry in *. congruence. Qed.

#[local] Instance rows_available_refl : Reflexive rows_available.
Proof. intros s row Hin. left. exact Hin. Qed.

#[local] Instance rows_available_trans : Transitive rows_available.
Proof.
  intros a b c Hab Hbc row Hin.
  destruct (Hbc row Hin) as [Hb|Htrue]; [apply Hab; exact Hb|right; exact Htrue].
Qed.


Lemma same_catalogs_same_registry {A} (m : PG A) :
  preserves same_catalogs m -> preserves same_registry m.
Proof. intros Hm s. destruct (Hm s) as (_ & _ & H3 & _). exact H3. Qed.

(** Primitive steps that never touch the registry. *)
Ltac registry_untouched :=
  intros ?s; cbv beta delta [bind ret gets modify ereport log_event];
  repeat match goal with
         | |- context [if ?b then _ else _] => destruct b
         | |- context [match ?x with _ => _ end] => destruct x
         end;
  reflexivity.




Lemma ExecuteQueryViaSPI_registry env c :
  preserves same_registry (ExecuteQueryViaSPI env c).
Proof. unfold ExecuteQueryViaSPI. registry_untouched. Qed.

Lemma SendCommandToWorker_registry env name port' c :
  preserves same_registry (SendCommandToWorker env name port' c).
Proof. unfold SendCommandToWorker. registry_untouched. Qed.

Lemma SendCommandToWorkersWithMetadata_registry env c :
  preserves same_registry (SendCommandToWorkersWithMetadata env c).
Proof. unfold SendCommandToWorkersWithMetadata. registry_untouched. Qed.





Lemma get_database_name_preserves R `{!Reflexive R} oid :
  preserves R (get_database_name oid).
Proof. unfold get_database_name. frame_ret. Qed.

Lemma AllowConnectionsOnlyOnNodeGroup_registry env oid group :
  preserves same_registry (AllowConnectionsOnlyOnNodeGroup env oid group).
Proof.
  unfold AllowConnectionsOnlyOnNodeGroup.
  frame_bind; [apply get_database_name_preserves; apply _|].
  apply preserves_foreach_ptr; [apply _..|]. intros workerNode.
  destruct a as [name|]; [|frame_ret].
  apply preserves_if;
    [apply ExecuteQueryViaSPI_registry|apply SendCommandToWorker_registry].
Qed.

Lemma mirror_insert_registry env oid group :
  preserves same_registry
    (if EnableMetadataSync env
     then InsertDatabaseShardAssignmentOnOtherNodes env oid group
     else ret tt).
Proof.
  apply preserves_if; [|frame_ret].
  unfold InsertDatabaseShardAssignmentOnOtherNodes,
    InsertDatabaseShardAssignmentCommand.
  frame_bind; [|apply SendCommandToWorkersWithMetadata_registry].
  frame_bind; [apply get_database_name_preserves; apply _|].
  destruct a as [name|]; frame_ret.
Qed.

Lemma mirror_delete_registry env oid :
  preserves same_registry
    (if EnableMetadataSync env
     then DeleteDatabaseShardByDatabaseIdOnOtherNodes env oid
     else ret tt).
Proof.
  apply preserves_if; [|frame_ret].
  unfold DeleteDatabaseShardByDatabaseIdOnOtherNodes,
    DeleteDatabaseShardByDatabaseIdCommand.
  frame_bind; [|apply SendCommandToWorkersWithMetadata_registry].
  frame_bind; [apply get_database_name_preserves; apply _|].
  destruct a as [name|]; frame_ret.
Qed.

Lemma set_ReconfigurePgBouncersOnCommit_registry b :
  preserves same_registry (modify (set_ReconfigurePgBouncersOnCommit b)).
Proof. intros s. reflexivity. Qed.

Lemma simple_heap_delete_In oid rows row :
  In row (simple_heap_delete oid rows) -> In row rows.
Proof.
  induction rows as [|r rest IH]; simpl; [auto|].
  destruct (databaseOid r =? oid); simpl; intuition.
Qed.









(** ** The CONNECT privilege sweep *)

Lemma AllowConnectionsOnlyOnNodeGroup_sweep env oid group s row :
  find_database_by_oid oid s = Some row ->
  AllowConnectionsOnlyOnNodeGroup env oid group s =
  foreach_ptr (TargetWorkerSetNodeList_ALL_SHARD_NODES env)
    (sweep_body env (datname row) group) s.
Proof.
  intros Hfind.
  unfold AllowConnectionsOnlyOnNodeGroup, bind at 1, get_database_name, gets.
  rewrite Hfind. reflexivity.
Qed.

Lemma AllowConnectionsOnlyOnNodeGroup_no_nodes env oid group s :
  TargetWorkerSetNodeList_ALL_SHARD_NODES env = [] ->
  AllowConnectionsOnlyOnNodeGroup env oid group s = (Returned tt, s).
Proof.
  intros Hnodes.
  unfold AllowConnectionsOnlyOnNodeGroup, bind at 1, get_database_name, gets.
  rewrite Hnodes. reflexivity.
Qed.

Lemma sweep_body_step env name group N s s' :
  sweep_body env name group N s = (Returned tt, s') ->
  connect_revoked s' = sweep_step env name group (connect_revoked s) N /\
  trace s' = trace s ++ [sweep_event env name group N] /\
  database_shard s' = database_shard s /\
  pg_database s' = pg_database s.
Proof.
  unfold sweep_body, sweep_step, sweep_event, node_site, SendCommandToWorker,
    ExecuteQueryViaSPI, modify, ereport.
  destruct (groupId N =? GetLocalGroupId env);
    (destruct (remote_failure env _); [discriminate|]);
    intros [= <-]; simpl; auto.
Qed.

(** One iteration of the sweep: the request for the node fails, or the
    command is logged and takes effect at the node's site. *)
Lemma sweep_body_unfold env name group N s :
  sweep_body env name group N s =
  if remote_failure env (sweep_event env name group N)
  then (Raised (if groupId N =? GetLocalGroupId env
                then SPIFailure else ConnectionFailure), s)
  else (Returned tt,
        set_connect_revoked
          (sweep_step env name group (connect_revoked s) N)
          (log_event (sweep_event env name group N) s)).
Proof.
  unfold sweep_body, sweep_step, sweep_event, node_site, SendCommandToWorker,
    ExecuteQueryViaSPI, modify, ereport.
  destruct (groupId N =? GetLocalGroupId env);
    destruct (remote_failure env _); reflexivity.
Qed.

Lemma foreach_sweep env name group nodes s s' :
  foreach_ptr nodes (sweep_body env name group) s = (Returned tt, s') ->
  connect_revoked s' =
    fold_left (sweep_step env name group) nodes (connect_revoked s) /\
  trace s' = trace s ++ map (sweep_event env name group) nodes /\
  database_shard s' = database_shard s /\
  pg_database s' = pg_database s.
Proof.
  revert s. induction nodes as [|N rest IH]; intros s; simpl.
  - intros [= <-]. rewrite app_nil_r. auto.
  - unfold bind at 1.
    destruct (sweep_body env name group N s) as [[[]|e] s1] eqn:Hstep;
      [|discriminate].
    intros Hrest. apply sweep_body_step in Hstep as (S1 & S2 & S3 & S4).
    apply IH in Hrest as (R1 & R2 & R3 & R4).
    rewrite R1, R2, R3, R4, S1, S2, S3, S4, <- app_assoc. auto.
Qed.

Lemma NoDup_fmap_eq {A B} (f : A -> B) (l : list A) a b :
  NoDup (f <$> l) -> a ∈ l -> b ∈ l -> f a = f b -> a = b.
Proof.
  induction l as [|x l IH]; simpl; intros Hnd Ha Hb Hab.
  - inversion Ha.
  - apply NoDup_cons in Hnd as [Hx Hnd].
    apply elem_of_cons in Ha as [->|Ha]; apply elem_of_cons in Hb as [->|Hb];
      auto.
    + exfalso. apply Hx. rewrite Hab. apply list_elem_of_fmap_2. exact Hb.
    + exfalso. apply Hx. rewrite <- Hab. apply list_elem_of_fmap_2. exact Ha.
Qed.

Lemma same_site_same_group env nodes N1 N2 :
  NoDup (node_address <$> nodes) -> N1 ∈ nodes -> N2 ∈ nodes ->
  node_site env N1 = node_site env N2 -> groupId N1 = groupId N2.
Proof.
  intros Hnd H1 H2. unfold node_site.
  destruct (Z.eqb_spec (groupId N1) (GetLocalGroupId env)) as [E1|E1];
    destruct (Z.eqb_spec (groupId N2) (GetLocalGroupId env)) as [E2|E2];
    try discriminate.
  - congruence.
  - intros [= Hname Hport].
    rewrite (NoDup_fmap_eq node_address nodes N1 N2 Hnd H1 H2); [reflexivity|].
    unfold node_address. congruence.
Qed.

Lemma sweep_step_same_site env name group revoked N :
  (node_site env N, name) ∉ sweep_step env name group revoked N <->
  uint32 (groupId N) = group.
Proof.
  unfold sweep_step, connect_command.
  destruct (Z.eqb_spec (uint32 (groupId N)) group); simpl; set_solver.
Qed.

Lemma sweep_step_other_site env name group revoked N site :
  site <> node_site env N ->
  (site, name) ∈ sweep_step env name group revoked N <->
  (site, name) ∈ revoked.
Proof.
  intros Hne. unfold sweep_step, connect_command.
  destruct (uint32 (groupId N) =? group); simpl; set_solver.
Qed.

(** After the sweep a listed node lets PUBLIC connect exactly when its
    group is the one the sweep was run for. *)
Lemma sweep_grants env name group nodes revoked N :
  NoDup (node_address <$> nodes) -> N ∈ nodes ->
  (node_site env N, name) ∉
    fold_left (sweep_step env name group) nodes revoked <->
  uint32 (groupId N) = group.
Proof.
  induction nodes as [|x l IH] using rev_ind; intros Hnd HN.
  - inversion HN.
  - rewrite fold_left_app. simpl.
    destruct (decide (node_site env N = node_site env x)) as [Hsite|Hsite].
    + rewrite Hsite, sweep_step_same_site.
      rewrite (same_site_same_group env (l ++ [x]) N x Hnd HN); [reflexivity| |exact Hsite].
      apply elem_of_app. right. apply list_elem_of_singleton. reflexivity.
    + rewrite (sweep_step_other_site env name group _ x _ Hsite).
      apply IH.
      * rewrite fmap_app in Hnd. apply NoDup_app in Hnd. tauto.
      * apply elem_of_app in HN as [HN|HN]; [exact HN|].
        apply list_elem_of_singleton in HN. subst. contradiction.
Qed.

(** The sweep leaves alone every privilege that is not that of a listed
    node's site on the swept database. *)
Lemma sweep_fold_untouched env name group nodes revoked key :
  (forall N, In N nodes -> (node_site env N, name) <> key) ->
  key ∈ fold_left (sweep_step env name group) nodes revoked <-> key ∈ revoked.
Proof.
  revert revoked. induction nodes as [|N rest IH]; intros revoked Hout; simpl.
  - reflexivity.
  - rewrite IH by (intros N' HN'; apply Hout; right; exact HN').
    assert (Hne : (node_site env N, name) <> key)
      by (apply Hout; left; reflexivity).
    unfold sweep_step, connect_command.
    destruct (uint32 (groupId N) =? group); simpl; set_solver.
Qed.

(** ** Integer conversions on the assignment path *)

Lemma uint32_eq_int32 a b :
  int32_range a -> int32_range b -> uint32 a = uint32 b <-> a = b.
Proof.
  unfold int32_range, uint32. intros Ha Hb. split; [|congruence].
  intros Heq.
  pose proof (Z.div_mod a (2 ^ 32) ltac:(lia)) as Da.
  pose proof (Z.div_mod b (2 ^ 32) ltac:(lia)) as Db.
  pose proof (Z.mod_pos_bound a (2 ^ 32) ltac:(lia)) as Ba.
  lia.
Qed.

Lemma worker_index_in_range oid len :
  Oid_range oid -> 0 < len < 2 ^ 31 ->
  int32 (uint32 oid mod uint32 len) = oid mod len /\
  0 <= oid mod len < len.
Proof.
  unfold Oid_range, int32, uint32. intros Hoid Hlen.
  rewrite (Z.mod_small oid) by lia.
  rewrite (Z.mod_small len) by lia.
  pose proof (Z.mod_pos_bound oid len ltac:(lia)) as Hb.
  rewrite (Z.mod_small (oid mod len + 2 ^ 31)) by lia.
  lia.
Qed.

(** ** Assignment and move: what a completed call has done *)

Lemma bind_returned {A B} (m : PG A) (k : A -> PG B) s b s' :
  bind m k s = (Returned b, s') ->
  exists a s1, m s = (Returned a, s1) /\ k a s1 = (Returned b, s').
Proof.
  unfold bind. destruct (m s) as [[a|e] s1]; [|discriminate].
  intros Hk. exists a, s1. auto.
Qed.

Lemma find_database_by_oid_same oid s s' :
  pg_database s' = pg_database s ->
  find_database_by_oid oid s' = find_database_by_oid oid s.
Proof. unfold find_database_by_oid. intros ->. reflexivity. Qed.

Lemma InsertDatabaseShardAssignment_effect env oid group s s' row :
  find_database_by_oid oid s = Some row ->
  InsertDatabaseShardAssignment env oid group s = (Returned tt, s') ->
  existsb (fun r => databaseOid r =? oid) (database_shard s) = false /\
  database_shard s' = database_shard s ++ [shard_row oid group] /\
  connect_revoked s' = connect_revoked s /\
  trace s' =
    trace s ++ mirror_events env (InternalAddDatabaseShard (datname row) group) /\
  pg_database s' = pg_database s.
Proof.
  intros Hfind Hrun. unfold InsertDatabaseShardAssignment in Hrun.
  apply bind_returned in Hrun as ([] & s1 & Hlocal & Hmirror).
  unfold InsertDatabaseShardAssignmentLocally in Hlocal.
  destruct (existsb _ _); [discriminate|].
  injection Hlocal as <-. split; [reflexivity|].
  unfold mirror_events. destruct (EnableMetadataSync env).
  - unfold InsertDatabaseShardAssignmentOnOtherNodes,
      InsertDatabaseShardAssignmentCommand, get_database_name, gets,
      SendCommandToWorkersWithMetadata, bind, ret, modify, ereport in Hmirror.
    rewrite (find_database_by_oid_same oid s) in Hmirror by reflexivity.
    rewrite Hfind in Hmirror. simpl in Hmirror.
    destruct (remote_failure env _); [discriminate|].
    injection Hmirror as <-. simpl. auto.
  - injection Hmirror as <-. simpl. rewrite app_nil_r. auto.
Qed.

Lemma DeleteDatabaseShardByDatabaseId_effect env oid s s' row :
  find_database_by_oid oid s = Some row ->
  DeleteDatabaseShardByDatabaseId env oid s = (Returned tt, s') ->
  database_shard s' = simple_heap_delete oid (database_shard s) /\
  connect_revoked s' = connect_revoked s /\
  trace s' =
    trace s ++ mirror_events env (InternalDeleteDatabaseShard (datname row)) /\
  pg_database s' = pg_database s.
Proof.
  intros Hfind Hrun. unfold DeleteDatabaseShardByDatabaseId in Hrun.
  apply bind_returned in Hrun as ([] & s1 & Hlocal & Hmirror).
  unfold DeleteDatabaseShardByDatabaseIdLocally, modify in Hlocal.
  injection Hlocal as <-.
  unfold mirror_events. destruct (EnableMetadataSync env).
  - unfold DeleteDatabaseShardByDatabaseIdOnOtherNodes,
      DeleteDatabaseShardByDatabaseIdCommand, get_database_name, gets,
      SendCommandToWorkersWithMetadata, bind, ret, modify, ereport in Hmirror.
    rewrite (find_database_by_oid_same oid s) in Hmirror by reflexivity.
    rewrite Hfind in Hmirror. simpl in Hmirror.
    destruct (remote_failure env _); [discriminate|].
    injection Hmirror as <-. simpl. auto.
  - injection Hmirror as <-. simpl. rewrite app_nil_r. auto.
Qed.

Lemma place_effect env oid group s s' row :
  find_database_by_oid oid s = Some row ->
  place env oid group s = (Returned tt, s') ->
  existsb (fun r => databaseOid r =? oid) (database_shard s) = false /\
  database_shard s' = database_shard s ++ [shard_row oid group] /\
  connect_revoked s' =
    fold_left (sweep_step env (datname row) (uint32 group))
      (TargetWorkerSetNodeList_ALL_SHARD_NODES env) (connect_revoked s) /\
  trace s' =
    trace s ++
    mirror_events env (InternalAddDatabaseShard (datname row) group) ++
    map (sweep_event env (datname row) (uint32 group))
      (TargetWorkerSetNodeList_ALL_SHARD_NODES env) /\
  ReconfigurePgBouncersOnCommit s' = true.
Proof.
  intros Hfind Hrun. unfold place in Hrun.
  apply bind_returned in Hrun as ([] & s1 & Hinsert & Hrun).
  apply bind_returned in Hrun as ([] & s2 & Hsweep & Hflag).
  apply (InsertDatabaseShardAssignment_effect env oid group s s1 row Hfind)
    in Hinsert as (I0 & I1 & I2 & I3 & I4).
  rewrite (AllowConnectionsOnlyOnNodeGroup_sweep env oid _ s1 row) in Hsweep
    by (rewrite (find_database_by_oid_same oid s s1 I4); exact Hfind).
  apply foreach_sweep in Hsweep as (W1 & W2 & W3 & W4).
  unfold modify in Hflag. injection Hflag as <-. simpl.
  rewrite W1, W2, W3, I1, I2, I3, <- app_assoc. auto.
Qed.

(** ** The assignment policy *)

Lemma AssignDatabaseToShard_place env oid s :
  Oid_range oid ->
  list_length (TargetWorkerSetNodeList_ALL_SHARD_NODES env) < 2 ^ 31 ->
  AssignDatabaseToShard env oid s =
  place env oid
    (assign_spec (GetLocalGroupId env)
       (TargetWorkerSetNodeList_ALL_SHARD_NODES env) oid) s.
Proof.
  intros Hoid Hlen. unfold AssignDatabaseToShard, place, assign_spec.
  destruct (TargetWorkerSetNodeList_ALL_SHARD_NODES env) as [|w0 ws] eqn:Hnodes.
  - reflexivity.
  - set (nodes := w0 :: ws) in *.
    assert (Hpos : 0 < list_length nodes < 2 ^ 31)
      by (unfold list_length in *; simpl length in *; lia).
    destruct (Z.ltb_spec 0 (list_length nodes)); [|lia].
    destruct (worker_index_in_range oid (list_length nodes) Hoid Hpos)
      as [-> Hidx].
    unfold list_nth. destruct (Z.ltb_spec (oid mod list_length nodes) 0); [lia|].
    unfold list_length in *.
    destruct (lookup_lt_is_Some_2 nodes
                (Z.to_nat (oid mod Z.of_nat (length nodes)))) as [w Hw];
      [lia|].
    rewrite Hw, (nth_lookup_Some _ _ w0 w Hw). reflexivity.
Qed.

Lemma assign_spec_range local nodes oid :
  int32_range local ->
  Forall (fun N => int32_range (groupId N)) nodes ->
  int32_range (assign_spec local nodes oid).
Proof.
  intros Hlocal Hnodes. unfold assign_spec.
  destruct nodes as [|w0 ws]; [exact Hlocal|].
  rewrite List.Forall_forall in Hnodes.
  destruct (List.nth_in_or_default
              (Z.to_nat (oid mod Z.of_nat (length (w0 :: ws))))
              (w0 :: ws) w0) as [Hin| ->].
  - apply Hnodes. exact Hin.
  - apply Hnodes. left. reflexivity.
Qed.

Lemma place_registry env oid group s s' :
  place env oid group s = (Returned tt, s') ->
  database_shard s' = database_shard s ++ [shard_row oid group].
Proof.
  intros Hrun. unfold place, InsertDatabaseShardAssignment in Hrun.
  apply bind_returned in Hrun as ([] & s2 & Hinsert & Hrun).
  apply bind_returned in Hinsert as ([] & s1 & Hlocal & Hmirror).
  apply bind_returned in Hrun as ([] & s3 & Hsweep & Hflag).
  unfold InsertDatabaseShardAssignmentLocally in Hlocal.
  destruct (existsb _ _); [discriminate|]. injection Hlocal as <-.
  match type of Hmirror with
  | _ ?s1 = _ => pose proof (mirror_insert_registry env oid group s1) as M
  end.
  rewrite Hmirror in M.
  pose proof (AllowConnectionsOnlyOnNodeGroup_registry env oid
                (uint32 group) s2) as W.
  rewrite Hsweep in W.
  unfold modify in Hflag. injection Hflag as <-.
  unfold same_registry, shard_row in *. simpl in *. congruence.
Qed.

(** C5: the group that assignment selects is the coordinator's own group
    when no worker node is registered, and otherwise the group of
    workers[databaseId mod workerCount]; that group is the one the
    registry row is inserted with. *)
Theorem shard_assignment_policy env oid s :
  Oid_range oid ->
  list_length (TargetWorkerSetNodeList_ALL_SHARD_NODES env) < 2 ^ 31 ->
  let group :=
    assign_spec (GetLocalGroupId env)
      (TargetWorkerSetNodeList_ALL_SHARD_NODES env) oid in
  AssignDatabaseToShard env oid s = place env oid group s /\
  (forall s',
     AssignDatabaseToShard env oid s = (Returned tt, s') ->
     database_shard s' = database_shard s ++ [shard_row oid group]).
Proof.
  intros Hoid Hlen. cbv zeta.
  pose proof (AssignDatabaseToShard_place env oid s Hoid Hlen) as Hplace.
  split; [exact Hplace|].
  intros s' Hrun. rewrite Hplace in Hrun.
  apply place_registry in Hrun. exact Hrun.
Qed.

Lemma shard_assignment_policy_witness :
  let env := Demo.coordinator false true Demo.three_workers in
  let s := Demo.session true [Demo.citus_db; Demo.appdb] [] in
  assign_spec 0 Demo.three_workers 16387 = 20 /\
  AssignDatabaseToShard env 16387 s = place env 16387 20 s /\
  (forall s',
     AssignDatabaseToShard env 16387 s = (Returned tt, s') ->
     database_shard s' = database_shard s ++ [shard_row 16387 20]).
Proof.
  split; [reflexivity|].
  apply (shard_assignment_policy
           (Demo.coordinator false true Demo.three_workers) 16387
           (Demo.session true [Demo.citus_db; Demo.appdb] [])).
  - unfold Oid_range. lia.
  - reflexivity.
Defined.

(** C6 (claimed for every node of the cluster; false for a node that is
    not in the list of shard nodes): the coordinator, group 0, is not
    registered as a shard node; the database is assigned to group 20, the
    three listed workers are swept, and PUBLIC can still connect to the
    database on the coordinator. *)
Lemma assignment_leaves_unlisted_node_open :
  let env := Demo.coordinator false true Demo.three_workers in
  let s := Demo.session true [Demo.citus_db; Demo.appdb] [] in
  let out := AssignDatabaseToShard env 16387 s in
  fst out = Returned tt /\
  database_shard (snd out) = [shard_row 16387 20] /\
  (forall N, In N (TargetWorkerSetNodeList_ALL_SHARD_NODES env) ->
     node_site env N <> LocalSite) /\
  GetLocalGroupId env <> 20 /\
  grants_connect (snd out) LocalSite "appdb".
Proof.
  cbv zeta. split; [vm_compute; reflexivity|].
  split; [vm_compute; reflexivity|].
  split.
  { intros N HN.
    repeat (destruct HN as [<-|HN]; [discriminate|]). destruct HN. }
  split; [cbn; lia|].
  unfold grants_connect. apply (bool_decide_unpack _). vm_compute.
  reflexivity.
Qed.

(** C6 (amended): after an assignment to group G has completed, every node
    N of the list of shard nodes lets PUBLIC connect to the database if and
    only if N's group is G: the sweep issued, in list order, one command
    per listed node, GRANT CONNECT for the nodes of group G and REVOKE
    CONNECT for all others, run locally for the local group and sent to
    the worker otherwise.  A node outside the list gets no command: at
    its site the privilege is what it was before the call, and so is the
    privilege on every other database at every site. *)
Theorem assignment_connect_isolation env oid s s' row :
  find_database_by_oid oid s = Some row ->
  Oid_range oid ->
  list_length (TargetWorkerSetNodeList_ALL_SHARD_NODES env) < 2 ^ 31 ->
  int32_range (GetLocalGroupId env) ->
  Forall (fun N => int32_range (groupId N))
    (TargetWorkerSetNodeList_ALL_SHARD_NODES env) ->
  NoDup (node_address <$> TargetWorkerSetNodeList_ALL_SHARD_NODES env) ->
  AssignDatabaseToShard env oid s = (Returned tt, s') ->
  let nodes := TargetWorkerSetNodeList_ALL_SHARD_NODES env in
  let G := assign_spec (GetLocalGroupId env) nodes oid in
  In (shard_row oid G) (database_shard s') /\
  (forall N, In N nodes ->
     (grants_connect s' (node_site env N) (datname row) <-> groupId N = G) /\
     connect_command (datname row) (uint32 G) N =
       (if groupId N =? G then GrantConnectOnDatabase (datname row)
        else RevokeConnectOnDatabase (datname row))) /\
  (forall site db,
     db <> datname row \/ (forall N, In N nodes -> node_site env N <> site) ->
     (grants_connect s' site db <-> grants_connect s site db)) /\
  trace s' =
    trace s ++ mirror_events env (InternalAddDatabaseShard (datname row) G) ++
    map (sweep_event env (datname row) (uint32 G)) nodes.
Proof.
  intros Hfind Hoid Hlen Hlocal Hgroups Hnd Hrun. cbv zeta.
  rewrite (AssignDatabaseToShard_place env oid s Hoid Hlen) in Hrun.
  pose proof (assign_spec_range _ _ oid Hlocal Hgroups) as HG.
  set (G := assign_spec _ _ oid) in *.
  apply (place_effect env oid G s s' row Hfind) in Hrun
    as (_ & Hrows & Hrevoked & Htrace & _).
  split; [rewrite Hrows; apply List.in_or_app; right; left; reflexivity|].
  split; [|split; [|exact Htrace]].
  2:{ intros site db Hout. unfold grants_connect. rewrite Hrevoked.
      rewrite sweep_fold_untouched; [reflexivity|].
      intros N HN [= Hsite Hdb]. destruct Hout as [Hne|Hne]; [congruence|].
      apply (Hne N HN). exact Hsite. }
  intros N HN.
  assert (HNr : int32_range (groupId N))
    by (rewrite List.Forall_forall in Hgroups; apply Hgroups; exact HN).
  split.
  - unfold grants_connect. rewrite Hrevoked.
    rewrite (sweep_grants env (datname row) _ _ _ N Hnd)
      by (apply list_elem_of_In; exact HN).
    apply uint32_eq_int32; assumption.
  - unfold connect_command.
    destruct (Z.eqb_spec (uint32 (groupId N)) (uint32 G)) as [E|E];
      destruct (Z.eqb_spec (groupId N) G) as [E'|E']; try reflexivity.
    + apply (uint32_eq_int32 _ _ HNr HG) in E. contradiction.
    + congruence.
Qed.

Lemma assignment_connect_isolation_witness :
  let env := Demo.coordinator false true Demo.three_workers in
  let s := Demo.session true [Demo.citus_db; Demo.appdb] [] in
  let s' := snd (AssignDatabaseToShard env 16387 s) in
  AssignDatabaseToShard env 16387 s = (Returned tt, s') /\
  In (shard_row 16387 20) (database_shard s') /\
  (forall N, In N Demo.three_workers ->
     (grants_connect s' (node_site env N) "appdb" <-> groupId N = 20) /\
     connect_command "appdb" (uint32 20) N =
       (if groupId N =? 20 then GrantConnectOnDatabase "appdb"
        else RevokeConnectOnDatabase "appdb")) /\
  (forall site db,
     db <> "appdb" \/
     (forall N, In N Demo.three_workers -> node_site env N <> site) ->
     (grants_connect s' site db <-> grants_connect s site db)) /\
  trace s' =
    trace s ++ mirror_events env (InternalAddDatabaseShard "appdb" 20) ++
    map (sweep_event env "appdb" (uint32 20)) Demo.three_workers.
Proof.
  split; [reflexivity|].
  apply (assignment_connect_isolation
           (Demo.coordinator false true Demo.three_workers) 16387
           (Demo.session true [Demo.citus_db; Demo.appdb] [])
           (snd (AssignDatabaseToShard
                   (Demo.coordinator false true Demo.three_workers) 16387
                   (Demo.session true [Demo.citus_db; Demo.appdb] [])))
           Demo.appdb).
  - reflexivity.
  - unfold Oid_range. lia.
  - reflexivity.
  - unfold int32_range. simpl. lia.
  - repeat constructor; unfold int32_range; simpl; lia.
  - apply (bool_decide_unpack _). reflexivity.
  - reflexivity.
Defined.

(** C7 (claimed: CONNECT is granted locally): with no worker node
    registered the sweep has no node to visit, so no GRANT is run on the
    coordinator either; a database whose CONNECT privilege had been revoked
    there is assigned to the coordinator's group and stays closed. *)
Lemma assignment_without_workers_grants_nothing :
  let env := Demo.coordinator false false [] in
  let s :=
    set_connect_revoked {[ (LocalSite, "appdb"%string) ]}
      (Demo.session true [Demo.citus_db; Demo.appdb] []) in
  let out := AssignDatabaseToShard env 16387 s in
  TargetWorkerSetNodeList_ALL_SHARD_NODES env = [] /\
  fst out = Returned tt /\
  database_shard (snd out) = [shard_row 16387 (GetLocalGroupId env)] /\
  trace (snd out) = [] /\
  ~ grants_connect (snd out) LocalSite "appdb".
Proof.
  cbv zeta. repeat split; try reflexivity.
  unfold grants_connect. intros Hnot. apply Hnot.
  change ((LocalSite, "appdb"%string) ∈
          ({[ (LocalSite, "appdb"%string) ]} : gset (Site * string))).
  apply elem_of_singleton. reflexivity.
Qed.

(** C7 (amended): when assignment runs with no worker node registered, the
    row is inserted with the coordinator's own group and no GRANT or
    REVOKE is issued anywhere, locally or remotely: the log gains at most
    the metadata mirroring request, and CONNECT privileges are left
    exactly as they were. *)
Theorem assignment_without_workers env oid s s' row :
  find_database_by_oid oid s = Some row ->
  TargetWorkerSetNodeList_ALL_SHARD_NODES env = [] ->
  AssignDatabaseToShard env oid s = (Returned tt, s') ->
  database_shard s' =
    database_shard s ++ [shard_row oid (GetLocalGroupId env)] /\
  connect_revoked s' = connect_revoked s /\
  trace s' =
    trace s ++
    mirror_events env
      (InternalAddDatabaseShard (datname row) (GetLocalGroupId env)).
Proof.
  intros Hfind Hnodes Hrun.
  unfold AssignDatabaseToShard in Hrun. rewrite Hnodes in Hrun.
  change (place env oid (GetLocalGroupId env) s = (Returned tt, s')) in Hrun.
  apply (place_effect env oid _ s s' row Hfind) in Hrun
    as (_ & Hrows & Hrevoked & Htrace & _).
  rewrite Hnodes in Hrevoked, Htrace. simpl in Hrevoked, Htrace.
  rewrite app_nil_r in Htrace. auto.
Qed.

Lemma assignment_without_workers_witness :
  let env := Demo.coordinator false false [] in
  let s := Demo.session true [Demo.citus_db; Demo.appdb] [] in
  let s' := snd (AssignDatabaseToShard env 16387 s) in
  AssignDatabaseToShard env 16387 s = (Returned tt, s') /\
  database_shard s' = database_shard s ++ [shard_row 16387 0] /\
  connect_revoked s' = connect_revoked s /\
  trace s' =
    trace s ++ mirror_events env (InternalAddDatabaseShard "appdb" 0).
Proof.
  split; [reflexivity|].
  apply (assignment_without_workers (Demo.coordinator false false []) 16387
           (Demo.session true [Demo.citus_db; Demo.appdb] [])
           (snd (AssignDatabaseToShard (Demo.coordinator false false [])
                   16387 (Demo.session true [Demo.citus_db; Demo.appdb] [])))
           Demo.appdb); reflexivity.
Defined.

Lemma existsb_false_filter {A} (f : A -> bool) l :
  existsb f l = false -> List.filter f l = [].
Proof.
  induction l as [|x l IH]; simpl; [auto|].
  destruct (f x); simpl; [discriminate|auto].
Qed.

(** C8 (claimed: CONNECT is granted only on G2's nodes; false for a node
    that is not in the list of shard nodes): the coordinator, group 0, is
    not registered as a shard node; the database is moved from group 10 to
    group 30, the three listed workers are swept, and PUBLIC can still
    connect to the database on the coordinator. *)
Lemma move_leaves_unlisted_node_open :
  let env := Demo.coordinator false true Demo.three_workers in
  let s :=
    Demo.session true [Demo.citus_db; Demo.appdb] [shard_row 16387 10] in
  let out := UpdateDatabaseShard env 16387 30 s in
  fst out = Returned tt /\
  database_shard (snd out) = [shard_row 16387 30] /\
  (forall N, In N (TargetWorkerSetNodeList_ALL_SHARD_NODES env) ->
     node_site env N <> LocalSite) /\
  GetLocalGroupId env <> 30 /\
  grants_connect (snd out) LocalSite "appdb".
Proof.
  cbv zeta. split; [vm_compute; reflexivity|].
  split; [vm_compute; reflexivity|].
  split.
  { intros N HN.
    repeat (destruct HN as [<-|HN]; [discriminate|]). destruct HN. }
  split; [cbn; lia|].
  unfold grants_connect. apply (bool_decide_unpack _). vm_compute.
  reflexivity.
Qed.

(** C8 (amended): moving a database that is assigned to group G1 over to
    group G2 deletes the old row, reinserts the database under G2 and runs
    the CONNECT sweep again; once the move has completed the registry
    holds exactly one row for the database, with group G2, and a node of
    the list of shard nodes lets PUBLIC connect if and only if its group
    is G2.  A node outside the list gets no command: at its site the
    privilege is what it was before the move, and so is the privilege on
    every other database at every site. *)
Theorem move_assignment env oid G1 G2 available s s' row :
  find_database_by_oid oid s = Some row ->
  In {| databaseOid := oid; nodeGroupId := G1; isAvailable := available |}
    (database_shard s) ->
  int32_range G2 ->
  Forall (fun N => int32_range (groupId N))
    (TargetWorkerSetNodeList_ALL_SHARD_NODES env) ->
  NoDup (node_address <$> TargetWorkerSetNodeList_ALL_SHARD_NODES env) ->
  UpdateDatabaseShard env oid G2 s = (Returned tt, s') ->
  let nodes := TargetWorkerSetNodeList_ALL_SHARD_NODES env in
  database_shard s' =
    simple_heap_delete oid (database_shard s) ++ [shard_row oid G2] /\
  List.filter (fun r => databaseOid r =? oid) (database_shard s') =
    [shard_row oid G2] /\
  (forall N, In N nodes ->
     grants_connect s' (node_site env N) (datname row) <-> groupId N = G2) /\
  (forall site db,
     db <> datname row \/ (forall N, In N nodes -> node_site env N <> site) ->
     (grants_connect s' site db <-> grants_connect s site db)) /\
  trace s' =
    trace s ++
    mirror_events env (InternalDeleteDatabaseShard (datname row)) ++
    mirror_events env (InternalAddDatabaseShard (datname row) G2) ++
    map (sweep_event env (datname row) (uint32 G2)) nodes.
Proof.
  intros Hfind _ HG Hgroups Hnd Hrun. cbv zeta.
  unfold UpdateDatabaseShard in Hrun.
  apply bind_returned in Hrun as ([] & s1 & Hdelete & Hplace).
  change (place env oid G2 s1 = (Returned tt, s')) in Hplace.
  apply (DeleteDatabaseShardByDatabaseId_effect env oid s s1 row Hfind)
    in Hdelete as (D1 & D2 & D3 & D4).
  assert (Hfind1 : find_database_by_oid oid s1 = Some row)
    by (rewrite (find_database_by_oid_same oid s s1 D4); exact Hfind).
  apply (place_effect env oid G2 s1 s' row Hfind1) in Hplace
    as (Hfresh & Hrows & Hrevoked & Htrace & _).
  rewrite D1 in Hfresh, Hrows. rewrite D2 in Hrevoked. rewrite D3 in Htrace.
  split; [exact Hrows|]. split; [|split; [|split]].
  - rewrite Hrows, List.filter_app, (existsb_false_filter _ _ Hfresh).
    simpl. rewrite Z.eqb_refl. reflexivity.
  - intros N HN.
    assert (HNr : int32_range (groupId N))
      by (rewrite List.Forall_forall in Hgroups; apply Hgroups; exact HN).
    unfold grants_connect. rewrite Hrevoked.
    rewrite (sweep_grants env (datname row) _ _ _ N Hnd)
      by (apply list_elem_of_In; exact HN).
    apply uint32_eq_int32; assumption.
  - intros site db Hout. unfold grants_connect. rewrite Hrevoked.
    rewrite sweep_fold_untouched; [reflexivity|].
    intros N HN [= Hsite Hdb]. destruct Hout as [Hne|Hne]; [congruence|].
    apply (Hne N HN). exact Hsite.
  - rewrite Htrace, <- app_assoc. reflexivity.
Qed.

Lemma move_assignment_witness :
  let env := Demo.coordinator false true Demo.three_workers in
  let s := Demo.session true [Demo.citus_db; Demo.appdb] [shard_row 16387 10] in
  let s' := snd (UpdateDatabaseShard env 16387 30 s) in
  UpdateDatabaseShard env 16387 30 s = (Returned tt, s') /\
  database_shard s' =
    simple_heap_delete 16387 (database_shard s) ++ [shard_row 16387 30] /\
  List.filter (fun r => databaseOid r =? 16387) (database_shard s') =
    [shard_row 16387 30] /\
  (forall N, In N Demo.three_workers ->
     grants_connect s' (node_site env N) "appdb" <-> groupId N = 30) /\
  (forall site db,
     db <> "appdb" \/
     (forall N, In N Demo.three_workers -> node_site env N <> site) ->
     (grants_connect s' site db <-> grants_connect s site db)) /\
  trace s' =
    trace s ++
    mirror_events env (InternalDeleteDatabaseShard "appdb") ++
    mirror_events env (InternalAddDatabaseShard "appdb" 30) ++
    map (sweep_event env "appdb" (uint32 30)) Demo.three_workers.
Proof.
  split; [reflexivity|].
  apply (move_assignment (Demo.coordinator false true Demo.three_workers)
           16387 10 30 true
           (Demo.session true [Demo.citus_db; Demo.appdb]
              [shard_row 16387 10])
           (snd (UpdateDatabaseShard
                   (Demo.coordinator false true Demo.three_workers) 16387 30
                   (Demo.session true [Demo.citus_db; Demo.appdb]
                      [shard_row 16387 10])))
           Demo.appdb).
  - reflexivity.
  - left. reflexivity.
  - unfold int32_range. lia.
  - repeat constructor; unfold int32_range; simpl; lia.
  - apply (bool_decide_unpack _). reflexivity.
  - reflexivity.
Defined.

(** ** Completion: when assignment and move go through *)

Lemma foreach_sweep_completes env name group nodes s :
  (forall e, remote_failure env e = false) ->
  exists s', foreach_ptr nodes (sweep_body env name group) s = (Returned tt, s').
Proof.
  intros Hok. revert s. induction nodes as [|N rest IH]; intros s; simpl.
  - exists s. reflexivity.
  - unfold bind at 1. rewrite sweep_body_unfold, Hok. apply IH.
Qed.

Lemma place_completes env oid group s row :
  find_database_by_oid oid s = Some row ->
  existsb (fun r => databaseOid r =? oid) (database_shard s) = false ->
  (forall e, remote_failure env e = false) ->
  exists s', place env oid group s = (Returned tt, s').
Proof.
  intros Hfind Hfresh Hok.
  unfold place, InsertDatabaseShardAssignment, bind at 1 2,
    InsertDatabaseShardAssignmentLocally.
  rewrite Hfresh.
  set (s1 := set_database_shard _ s).
  assert (Hfind1 : find_database_by_oid oid s1 = Some row) by exact Hfind.
  assert (Hmirror : exists s2,
            (if EnableMetadataSync env
             then InsertDatabaseShardAssignmentOnOtherNodes env oid group
             else ret tt) s1 = (Returned tt, s2) /\
            find_database_by_oid oid s2 = Some row).
  { destruct (EnableMetadataSync env).
    - unfold InsertDatabaseShardAssignmentOnOtherNodes,
        InsertDatabaseShardAssignmentCommand, get_database_name, gets,
        SendCommandToWorkersWithMetadata, bind, ret, modify.
      rewrite Hfind1. simpl. rewrite Hok. eexists. split; [reflexivity|].
      exact Hfind.
    - exists s1. split; [reflexivity|exact Hfind1]. }
  destruct Hmirror as (s2 & -> & Hfind2).
  unfold bind at 1.
  rewrite (AllowConnectionsOnlyOnNodeGroup_sweep env oid _ s2 row Hfind2).
  destruct (foreach_sweep_completes env (datname row) (uint32 group)
              (TargetWorkerSetNodeList_ALL_SHARD_NODES env) s2 Hok)
    as (s3 & ->).
  eexists. reflexivity.
Qed.

(** Assignment of an existing, not yet assigned database completes when
    no request fails. *)
Lemma AssignDatabaseToShard_completes env oid s row :
  Oid_range oid ->
  list_length (TargetWorkerSetNodeList_ALL_SHARD_NODES env) < 2 ^ 31 ->
  find_database_by_oid oid s = Some row ->
  existsb (fun r => databaseOid r =? oid) (database_shard s) = false ->
  (forall e, remote_failure env e = false) ->
  exists s', AssignDatabaseToShard env oid s = (Returned tt, s').
Proof.
  intros Hoid Hlen Hfind Hfresh Hok.
  rewrite (AssignDatabaseToShard_place env oid s Hoid Hlen).
  eapply place_completes; eauto.
Qed.

Lemma simple_heap_delete_unique oid rows :
  NoDup (databaseOid <$> rows) ->
  existsb (fun r => databaseOid r =? oid) (simple_heap_delete oid rows)
  = false.
Proof.
  induction rows as [|r rest IH]; simpl; intros Hnd; [reflexivity|].
  apply NoDup_cons in Hnd as [Hr Hnd].
  destruct (Z.eqb_spec (databaseOid r) oid) as [E|E].
  - destruct (existsb _ rest) eqn:Hex; [|reflexivity].
    exfalso. apply Hr. apply List.existsb_exists in Hex as (x & Hx & Heq).
    apply Z.eqb_eq in Heq. rewrite E, <- Heq.
    apply list_elem_of_fmap_2, list_elem_of_In. exact Hx.
  - simpl. destruct (Z.eqb_spec (databaseOid r) oid); [contradiction|].
    apply IH. exact Hnd.
Qed.

(** A move of an existing database completes, on a registry that respects
    its primary key, when no request fails. *)
Lemma UpdateDatabaseShard_completes env oid group s row :
  find_database_by_oid oid s = Some row ->
  registry_unique s ->
  (forall e, remote_failure env e = false) ->
  exists s', UpdateDatabaseShard env oid group s = (Returned tt, s').
Proof.
  intros Hfind Huniq Hok.
  unfold UpdateDatabaseShard, DeleteDatabaseShardByDatabaseId, bind at 1 2,
    DeleteDatabaseShardByDatabaseIdLocally, modify.
  set (s1 := set_database_shard _ s).
  assert (Hfind1 : find_database_by_oid oid s1 = Some row) by exact Hfind.
  assert (Hfresh1 :
    existsb (fun r => databaseOid r =? oid) (database_shard s1) = false)
    by (apply simple_heap_delete_unique; exact Huniq).
  assert (Hmirror : exists s2,
            (if EnableMetadataSync env
             then DeleteDatabaseShardByDatabaseIdOnOtherNodes env oid
             else ret tt) s1 = (Returned tt, s2) /\
            find_database_by_oid oid s2 = Some row /\
            database_shard s2 = database_shard s1).
  { destruct (EnableMetadataSync env).
    - unfold DeleteDatabaseShardByDatabaseIdOnOtherNodes,
        DeleteDatabaseShardByDatabaseIdCommand, get_database_name, gets,
        SendCommandToWorkersWithMetadata, bind, ret, modify.
      rewrite Hfind1. simpl. rewrite Hok. eexists.
      split; [reflexivity|]. split; [exact Hfind|reflexivity].
    - exists s1. auto. }
  destruct Hmirror as (s2 & -> & Hfind2 & Hrows2).
  rewrite <- Hrows2 in Hfresh1.
  apply (place_completes env oid group s2 row Hfind2 Hfresh1 Hok).
Qed.

(** * Further properties *)

(** ** Frames of the registry operations, for any relation *)

Section CompositeFrames.

Context (env : Env) (R : Backend -> Backend -> Prop).
Context `{!Reflexive R, !Transitive R}.

(** The databases whose rows may be written. *)
Context (P : Z -> Prop).

Hypothesis R_spi : forall c, preserves R (ExecuteQueryViaSPI env c).
Hypothesis R_send :
  forall name port' c, preserves R (SendCommandToWorker env name port' c).
Hypothesis R_mirror :
  forall c, preserves R (SendCommandToWorkersWithMetadata env c).
Hypothesis R_insert :
  forall oid group,
    P oid -> preserves R (InsertDatabaseShardAssignmentLocally oid group).
Hypothesis R_delete :
  forall oid, P oid -> preserves R (DeleteDatabaseShardByDatabaseIdLocally oid).
Hypothesis R_owner :
  forall oid roleid, preserves R (pg_database_ownercheck env oid roleid).

Lemma AllowConnectionsOnlyOnNodeGroup_frame oid group :
  preserves R (AllowConnectionsOnlyOnNodeGroup env oid group).
Proof.
  unfold AllowConnectionsOnlyOnNodeGroup.
  frame_bind; [apply get_database_name_preserves; apply _|].
  apply preserves_foreach_ptr; [apply _..|]. intros workerNode.
  destruct a as [name|]; [|frame_ret].
  apply preserves_if; [apply R_spi|apply R_send].
Qed.

Lemma InsertDatabaseShardAssignment_frame oid group :
  P oid -> preserves R (InsertDatabaseShardAssignment env oid group).
Proof.
  intros HP. unfold InsertDatabaseShardAssignment.
  frame_bind; [apply R_insert; exact HP|].
  apply preserves_if; [|frame_ret].
  unfold InsertDatabaseShardAssignmentOnOtherNodes,
    InsertDatabaseShardAssignmentCommand.
  frame_bind; [|apply R_mirror].
  frame_bind; [apply get_database_name_preserves; apply _|].
  destruct a0 as [name|]; frame_ret.
Qed.

Lemma DeleteDatabaseShardByDatabaseId_frame oid :
  P oid -> preserves R (DeleteDatabaseShardByDatabaseId env oid).
Proof.
  intros HP. unfold DeleteDatabaseShardByDatabaseId.
  frame_bind; [apply R_delete; exact HP|].
  apply preserves_if; [|frame_ret].
  unfold DeleteDatabaseShardByDatabaseIdOnOtherNodes,
    DeleteDatabaseShardByDatabaseIdCommand.
  frame_bind; [|apply R_mirror].
  frame_bind; [apply get_database_name_preserves; apply _|].
  destruct a0 as [name|]; frame_ret.
Qed.

(** Assignment and move up to, but not including, the final flag
    assignment. *)
Lemma selection_frame oid :
  preserves R
    (if 0 <? list_length (TargetWorkerSetNodeList_ALL_SHARD_NODES env)
     then
       match
         list_nth (TargetWorkerSetNodeList_ALL_SHARD_NODES env)
           (int32
              (uint32 oid mod
               uint32
                 (list_length (TargetWorkerSetNodeList_ALL_SHARD_NODES env))))
       with
       | Some workerNode => ret (groupId workerNode)
       | None => ereport ListIndexOutOfRange
       end
     else ret (GetLocalGroupId env)).
Proof.
  apply preserves_if; [|frame_ret]. destruct (list_nth _ _); frame_ret.
Qed.

Hypothesis R_flag :
  preserves R (modify (set_ReconfigurePgBouncersOnCommit true)).

Lemma place_frame oid group : P oid -> preserves R (place env oid group).
Proof.
  intros HP. unfold place.
  frame_bind; [apply InsertDatabaseShardAssignment_frame; exact HP|].
  frame_bind; [apply AllowConnectionsOnlyOnNodeGroup_frame|].
  apply R_flag.
Qed.

Lemma AssignDatabaseToShard_frame oid :
  P oid -> preserves R (AssignDatabaseToShard env oid).
Proof.
  intros HP. unfold AssignDatabaseToShard.
  frame_bind; [apply selection_frame|]. apply place_frame. exact HP.
Qed.

Lemma UpdateDatabaseShard_frame oid group :
  P oid -> preserves R (UpdateDatabaseShard env oid group).
Proof.
  intros HP. unfold UpdateDatabaseShard.
  frame_bind; [apply DeleteDatabaseShardByDatabaseId_frame; exact HP|].
  apply place_frame. exact HP.
Qed.

Lemma database_shard_assign_frame name :
  (forall oid, P oid) -> preserves R (database_shard_assign env name).
Proof.
  intros HP. unfold database_shard_assign.
  frame_bind; [apply CheckCitusVersion_preserves; apply _|].
  frame_bind; [apply get_database_oid_preserves; apply _|].
  frame_bind; [apply R_owner|].
  apply preserves_if; [frame_ret|].
  frame_bind; [unfold GetDatabaseShardByOid; frame_ret|].
  destruct a2; [frame_ret|apply AssignDatabaseToShard_frame; apply HP].
Qed.

Lemma citus_internal_add_database_shard_frame name group :
  (forall oid, P oid) ->
  preserves R (citus_internal_add_database_shard env name group).
Proof.
  intros HP. unfold citus_internal_add_database_shard.
  frame_bind; [apply get_database_oid_preserves; apply _|].
  frame_bind; [apply R_owner|].
  apply preserves_if; [frame_ret|].
  frame_bind; [apply R_insert; apply HP|apply R_flag].
Qed.

Lemma citus_internal_delete_database_shard_frame name :
  (forall oid, P oid) ->
  preserves R (citus_internal_delete_database_shard env name).
Proof.
  intros HP. unfold citus_internal_delete_database_shard.
  frame_bind; [apply get_database_oid_preserves; apply _|].
  frame_bind; [apply R_owner|].
  apply preserves_if; [frame_ret|].
  frame_bind; [apply R_delete; apply HP|apply R_flag].
Qed.

End CompositeFrames.

(** ** The registry's primary key *)

Lemma existsb_false_not_elem oid rows :
  existsb (fun r => databaseOid r =? oid) rows = false ->
  oid ∉ databaseOid <$> rows.
Proof.
  intros Hfresh Hin. apply list_elem_of_fmap in Hin as (r & -> & Hr).
  assert (Hex : existsb (fun x => databaseOid x =? databaseOid r) rows = true).
  { apply List.existsb_exists. exists r. split.
    - apply list_elem_of_In. exact Hr.
    - apply Z.eqb_refl. }
  congruence.
Qed.

Lemma simple_heap_delete_NoDup oid rows :
  NoDup (databaseOid <$> rows) ->
  NoDup (databaseOid <$> simple_heap_delete oid rows).
Proof.
  induction rows as [|r rest IH]; simpl; intros Hnd; [exact Hnd|].
  apply NoDup_cons in Hnd as [Hr Hnd].
  destruct (databaseOid r =? oid); [exact Hnd|].
  simpl. apply NoDup_cons. split; [|apply IH; exact Hnd].
  intros Hin. apply Hr.
  apply list_elem_of_fmap in Hin as (x & Hx & Hin).
  rewrite Hx. apply list_elem_of_fmap_2, list_elem_of_In.
  eapply simple_heap_delete_In. apply list_elem_of_In. exact Hin.
Qed.

(** ** Registry: insert, delete and lookup *)

Lemma find_snoc_fresh {A} (f : A -> bool) l x :
  existsb f l = false -> f x = true -> List.find f (l ++ [x]) = Some x.
Proof.
  induction l as [|y l IH]; simpl; intros Hfresh Hx.
  - rewrite Hx. reflexivity.
  - destruct (f y); [discriminate|]. apply IH; assumption.
Qed.

Lemma find_snoc_other {A} (f : A -> bool) l x :
  f x = false -> List.find f (l ++ [x]) = List.find f l.
Proof.
  intros Hx. induction l as [|y l IH]; simpl.
  - rewrite Hx. reflexivity.
  - destruct (f y); [reflexivity|exact IH].
Qed.

Lemma existsb_false_find {A} (f : A -> bool) l :
  existsb f l = false -> List.find f l = None.
Proof.
  induction l as [|y l IH]; simpl; [auto|].
  destruct (f y); [discriminate|exact IH].
Qed.

Lemma find_none_existsb {A} (f : A -> bool) l :
  List.find f l = None -> existsb f l = false.
Proof.
  induction l as [|y l IH]; simpl; [auto|].
  destruct (f y); [discriminate|exact IH].
Qed.

Lemma simple_heap_delete_other oid oid' rows :
  oid' <> oid ->
  List.find (fun r => databaseOid r =? oid') (simple_heap_delete oid rows) =
  List.find (fun r => databaseOid r =? oid') rows.
Proof.
  intros Hne. induction rows as [|r rest IH]; simpl; [reflexivity|].
  destruct (Z.eqb_spec (databaseOid r) oid) as [E|E].
  - destruct (Z.eqb_spec (databaseOid r) oid'); [congruence|reflexivity].
  - simpl. destruct (databaseOid r =? oid'); [reflexivity|exact IH].
Qed.

Lemma simple_heap_delete_absent oid rows :
  List.find (fun r => databaseOid r =? oid) rows = None ->
  simple_heap_delete oid rows = rows.
Proof.
  induction rows as [|r rest IH]; simpl; [reflexivity|].
  destruct (databaseOid r =? oid); [discriminate|].
  intros Hnone. rewrite IH by exact Hnone. reflexivity.
Qed.

Lemma simple_heap_delete_snoc oid rows row :
  existsb (fun r => databaseOid r =? oid) rows = false ->
  databaseOid row = oid ->
  simple_heap_delete oid (rows ++ [row]) = rows.
Proof.
  intros Hfresh Hrow. induction rows as [|r rest IH]; simpl in *.
  - rewrite Hrow, Z.eqb_refl. reflexivity.
  - destruct (databaseOid r =? oid); [discriminate|].
    rewrite IH by exact Hfresh. reflexivity.
Qed.

(** X2: a registry insertion that goes through can be read back: the
    lookup by database id then yields the row just written, with the given
    group and marked available. *)
Theorem insert_then_lookup env oid group s s' :
  InsertDatabaseShardAssignment env oid group s = (Returned tt, s') ->
  GetDatabaseShardByOid oid s' =
  (Returned
     (Some {| databaseOid := oid; nodeGroupId := group;
              isAvailable := true |}), s').
Proof.
  intros Hrun. unfold InsertDatabaseShardAssignment in Hrun.
  apply bind_returned in Hrun as ([] & s1 & Hlocal & Hmirror).
  unfold InsertDatabaseShardAssignmentLocally in Hlocal.
  destruct (existsb _ _) eqn:Hfresh; [discriminate|]. injection Hlocal as <-.
  match type of Hmirror with
  | _ ?s1 = _ => pose proof (mirror_insert_registry env oid group s1) as M
  end.
  rewrite Hmirror in M. unfold same_registry in M. simpl in M.
  unfold GetDatabaseShardByOid, gets. rewrite M.
  rewrite (find_snoc_fresh _ _ _ Hfresh); [reflexivity|].
  simpl. apply Z.eqb_refl.
Qed.

Lemma insert_then_lookup_witness :
  let env := Demo.coordinator false true Demo.three_workers in
  let s := Demo.session true [Demo.citus_db; Demo.appdb] [] in
  let s' := snd (InsertDatabaseShardAssignment env 16387 20 s) in
  InsertDatabaseShardAssignment env 16387 20 s = (Returned tt, s') /\
  GetDatabaseShardByOid 16387 s' =
  (Returned
     (Some {| databaseOid := 16387; nodeGroupId := 20;
              isAvailable := true |}), s').
Proof.
  split; [reflexivity|].
  apply (insert_then_lookup
           (Demo.coordinator false true Demo.three_workers) 16387 20
           (Demo.session true [Demo.citus_db; Demo.appdb] [])).
  reflexivity.
Defined.

(** X3: on a registry that respects its primary key, deleting a database's
    shard leaves no row to look up for it, whether or not the mirroring of
    the deletion to the other nodes succeeds. *)
Theorem delete_then_lookup env oid s :
  registry_unique s ->
  fst (GetDatabaseShardByOid oid
         (snd (DeleteDatabaseShardByDatabaseId env oid s))) =
  Returned None.
Proof.
  intros Hu.
  unfold DeleteDatabaseShardByDatabaseId, bind at 1,
    DeleteDatabaseShardByDatabaseIdLocally, modify.
  set (s1 := set_database_shard _ s).
  pose proof (mirror_delete_registry env oid s1) as M.
  destruct ((if EnableMetadataSync env
             then DeleteDatabaseShardByDatabaseIdOnOtherNodes env oid
             else ret tt) s1) as [o s2].
  unfold same_registry in M. simpl in M.
  unfold GetDatabaseShardByOid, gets. simpl. rewrite M.
  rewrite existsb_false_find; [reflexivity|].
  apply simple_heap_delete_unique. exact Hu.
Qed.

Lemma delete_then_lookup_witness :
  let env := Demo.coordinator false true Demo.three_workers in
  let s :=
    Demo.session true [Demo.citus_db; Demo.appdb] [shard_row 16387 10] in
  registry_unique s /\
  fst (GetDatabaseShardByOid 16387
         (snd (DeleteDatabaseShardByDatabaseId env 16387 s))) =
  Returned None.
Proof.
  assert (Hu : registry_unique
                 (Demo.session true [Demo.citus_db; Demo.appdb]
                    [shard_row 16387 10]))
    by (apply (bool_decide_unpack _); reflexivity).
  split; [exact Hu|].
  apply (delete_then_lookup (Demo.coordinator false true Demo.three_workers)
           16387).
  exact Hu.
Defined.

#[local] Instance other_lookups_same_refl oid :
  Reflexive (other_lookups_same oid).
Proof. intros s oid' Hne. reflexivity. Qed.

#[local] Instance other_lookups_same_trans oid :
  Transitive (other_lookups_same oid).
Proof.
  intros a b c Hab Hbc oid' Hne. rewrite (Hbc oid' Hne). apply Hab, Hne.
Qed.

Lemma same_registry_other_lookups oid {A} (m : PG A) :
  preserves same_registry m -> preserves (other_lookups_same oid) m.
Proof.
  intros Hm s oid' Hne. unfold GetDatabaseShardByOid, gets. simpl.
  rewrite (Hm s). reflexivity.
Qed.

Lemma InsertDatabaseShardAssignmentLocally_other oid group :
  preserves (other_lookups_same oid)
    (InsertDatabaseShardAssignmentLocally oid group).
Proof.
  intros s oid' Hne. unfold InsertDatabaseShardAssignmentLocally.
  destruct (existsb _ _); [reflexivity|].
  unfold GetDatabaseShardByOid, gets. simpl.
  rewrite find_snoc_other; [reflexivity|].
  simpl. apply Z.eqb_neq. congruence.
Qed.

Lemma DeleteDatabaseShardByDatabaseIdLocally_other oid :
  preserves (other_lookups_same oid)
    (DeleteDatabaseShardByDatabaseIdLocally oid).
Proof.
  intros s oid' Hne. unfold GetDatabaseShardByOid, gets. simpl.
  rewrite (simple_heap_delete_other oid oid' _ Hne). reflexivity.
Qed.

Lemma registry_write_other_lookups env oid :
  (forall group,
     preserves (other_lookups_same oid) (UpdateDatabaseShard env oid group))
  /\ preserves (other_lookups_same oid) (AssignDatabaseToShard env oid).
Proof.
  assert (Hspi : forall c,
             preserves (other_lookups_same oid) (ExecuteQueryViaSPI env c))
    by (intros; apply same_registry_other_lookups,
          ExecuteQueryViaSPI_registry).
  assert (Hsend : forall name port' c,
             preserves (other_lookups_same oid)
               (SendCommandToWorker env name port' c))
    by (intros; apply same_registry_other_lookups,
          SendCommandToWorker_registry).
  assert (Hmirror : forall c,
             preserves (other_lookups_same oid)
               (SendCommandToWorkersWithMetadata env c))
    by (intros; apply same_registry_other_lookups,
          SendCommandToWorkersWithMetadata_registry).
  assert (Hflag :
            preserves (other_lookups_same oid)
              (modify (set_ReconfigurePgBouncersOnCommit true)))
    by (apply same_registry_other_lookups,
          set_ReconfigurePgBouncersOnCommit_registry).
  assert (Hinsert : forall oid0 group, oid0 = oid ->
             preserves (other_lookups_same oid)
               (InsertDatabaseShardAssignmentLocally oid0 group))
    by (intros ? ? ->; apply InsertDatabaseShardAssignmentLocally_other).
  assert (Hdelete : forall oid0, oid0 = oid ->
             preserves (other_lookups_same oid)
               (DeleteDatabaseShardByDatabaseIdLocally oid0))
    by (intros ? ->; apply DeleteDatabaseShardByDatabaseIdLocally_other).
  split.
  - intros group.
    apply (UpdateDatabaseShard_frame env (other_lookups_same oid)
             (fun oid0 => oid0 = oid)); auto.
  - apply (AssignDatabaseToShard_frame env (other_lookups_same oid)
             (fun oid0 => oid0 = oid)); auto.
Qed.

(** X4: assigning or moving one database never disturbs another: for every
    other database id the registry lookup gives the same answer after the
    call as before, whether the call completes or raises. *)
Theorem registry_write_leaves_other_databases env oid group oid' s :
  oid' <> oid ->
  fst (GetDatabaseShardByOid oid' (snd (UpdateDatabaseShard env oid group s)))
  = fst (GetDatabaseShardByOid oid' s) /\
  fst (GetDatabaseShardByOid oid' (snd (AssignDatabaseToShard env oid s)))
  = fst (GetDatabaseShardByOid oid' s).
Proof.
  intros Hne. destruct (registry_write_other_lookups env oid) as [Hmove Hassign].
  split; [apply (Hmove group s oid' Hne)|apply (Hassign s oid' Hne)].
Qed.

Lemma registry_write_leaves_other_databases_witness :
  let env := Demo.coordinator false true Demo.three_workers in
  let s :=
    Demo.session true [Demo.citus_db; Demo.appdb]
      [shard_row 16384 10; shard_row 16387 10] in
  16384 <> 16387 /\
  fst (GetDatabaseShardByOid 16384 (snd (UpdateDatabaseShard env 16387 30 s)))
  = fst (GetDatabaseShardByOid 16384 s) /\
  fst (GetDatabaseShardByOid 16384 (snd (AssignDatabaseToShard env 16387 s)))
  = fst (GetDatabaseShardByOid 16384 s).
Proof.
  split; [lia|].
  apply (registry_write_leaves_other_databases
           (Demo.coordinator false true Demo.three_workers) 16387 30 16384).
  lia.
Defined.

(** ** The registry UDFs and their checks *)

Lemma find_database_by_oid_unique s r :
  database_oids_unique s -> In r (pg_database s) ->
  find_database_by_oid (dboid r) s = Some r.
Proof.
  unfold database_oids_unique, find_database_by_oid.
  induction (pg_database s) as [|x l IH]; simpl; intros Hnd Hin; [contradiction|].
  apply NoDup_cons in Hnd as [Hx Hnd].
  destruct (Z.eqb_spec (dboid x) (dboid r)) as [E|E].
  - destruct Hin as [->|Hin]; [reflexivity|].
    exfalso. apply Hx. rewrite E.
    apply list_elem_of_fmap_2, list_elem_of_In. exact Hin.
  - destruct Hin as [->|Hin]; [congruence|]. apply IH; assumption.
Qed.

Lemma find_database_In name s r :
  find_database name s = Some r -> In r (pg_database s).
Proof. intros Hf. apply List.find_some in Hf. tauto. Qed.

Lemma find_database_resolves name s r :
  find_database name s = Some r ->
  exists r', find_database_by_oid (dboid r) s = Some r'.
Proof.
  intros Hf. apply find_database_In in Hf.
  unfold find_database_by_oid.
  destruct (List.find _ _) as [r'|] eqn:Hnone; [eauto|].
  pose proof (List.find_none _ _ Hnone r Hf) as Hr. simpl in Hr.
  rewrite Z.eqb_refl in Hr. discriminate.
Qed.

(** The outcome of the ownership test, which never changes the state. *)
Lemma pg_database_ownercheck_state env oid roleid s :
  snd (pg_database_ownercheck env oid roleid s) = s.
Proof.
  unfold pg_database_ownercheck. destruct (superuser env); [reflexivity|].
  destruct (find_database_by_oid oid s); reflexivity.
Qed.

Lemma pg_database_ownercheck_same env oid roleid s s' :
  pg_database s' = pg_database s ->
  fst (pg_database_ownercheck env oid roleid s') =
  fst (pg_database_ownercheck env oid roleid s).
Proof.
  intros Hpg. unfold pg_database_ownercheck.
  destruct (superuser env); [reflexivity|].
  rewrite (find_database_by_oid_same oid s s' Hpg).
  destruct (find_database_by_oid oid s); reflexivity.
Qed.

(** What the two checks that open each registry UDF let through. *)
Lemma udf_checks_pass {A} env name (body : Z -> PG A) s a s' :
  (databaseOid' <- get_database_oid name false ;;
   isOwner <- pg_database_ownercheck env databaseOid' (GetUserId env) ;;
   if negb isOwner then ereport (InsufficientPrivilege name)
   else body databaseOid') s = (Returned a, s') ->
  exists r,
    find_database name s = Some r /\
    fst (pg_database_ownercheck env (dboid r) (GetUserId env) s) =
      Returned true /\
    body (dboid r) s = (Returned a, s').
Proof.
  intros Hrun.
  apply bind_returned in Hrun as (oid & s1 & Hoid & Hrun).
  apply bind_returned in Hrun as (isOwner & s2 & Hown & Hrun).
  unfold get_database_oid in Hoid.
  destruct (find_database name s) as [r|] eqn:Hf; [|discriminate].
  injection Hoid as <- <-.
  pose proof (pg_database_ownercheck_state env (dboid r) (GetUserId env) s)
    as Hst.
  rewrite Hown in Hst. simpl in Hst. subst s2.
  destruct isOwner; [|discriminate].
  exists r. rewrite Hown. auto.
Qed.

Lemma udf_checks_run {A} env name (body : Z -> PG A) s r :
  find_database name s = Some r ->
  fst (pg_database_ownercheck env (dboid r) (GetUserId env) s) =
    Returned true ->
  (databaseOid' <- get_database_oid name false ;;
   isOwner <- pg_database_ownercheck env databaseOid' (GetUserId env) ;;
   if negb isOwner then ereport (InsufficientPrivilege name)
   else body databaseOid') s = body (dboid r) s.
Proof.
  intros Hf Hown. unfold bind at 1, get_database_oid. rewrite Hf.
  unfold bind at 1.
  pose proof (pg_database_ownercheck_state env (dboid r) (GetUserId env) s)
    as Hst.
  destruct (pg_database_ownercheck env (dboid r) (GetUserId env) s)
    as [o s2]. simpl in Hown, Hst. subst o s2. reflexivity.
Qed.

Lemma udf_checks_unfold {A} env name (body : Z -> PG A) s r :
  find_database name s = Some r ->
  (databaseOid' <- get_database_oid name false ;;
   isOwner <- pg_database_ownercheck env databaseOid' (GetUserId env) ;;
   if negb isOwner then ereport (InsufficientPrivilege name)
   else body databaseOid') s =
  match fst (pg_database_ownercheck env (dboid r) (GetUserId env) s) with
  | Returned true => body (dboid r) s
  | Returned false => (Raised (InsufficientPrivilege name), s)
  | Raised e => (Raised e, s)
  end.
Proof.
  intros Hf. unfold bind at 1, get_database_oid. rewrite Hf.
  unfold bind at 1.
  pose proof (pg_database_ownercheck_state env (dboid r) (GetUserId env) s)
    as Hst.
  destruct (pg_database_ownercheck env (dboid r) (GetUserId env) s)
    as [[[]|e] s2]; simpl in Hst; subst s2; reflexivity.
Qed.

Lemma udf_checks_unknown {A} env name (body : Z -> PG A) s :
  find_database name s = None ->
  (databaseOid' <- get_database_oid name false ;;
   isOwner <- pg_database_ownercheck env databaseOid' (GetUserId env) ;;
   if negb isOwner then ereport (InsufficientPrivilege name)
   else body databaseOid') s = (Raised (UndefinedDatabase name), s).
Proof.
  intros Hf. unfold bind at 1, get_database_oid. rewrite Hf. reflexivity.
Qed.

(** X5: the two internal registry UDFs undo each other: a successful
    citus_internal_add_database_shard followed by
    citus_internal_delete_database_shard for the same database succeeds and
    leaves the registry exactly as it was before the addition. *)
Theorem add_then_delete_restores_registry env name group s s1 :
  citus_internal_add_database_shard env name group s = (Returned tt, s1) ->
  exists s2,
    citus_internal_delete_database_shard env name s1 = (Returned tt, s2) /\
    database_shard s2 = database_shard s.
Proof.
  intros Hadd. unfold citus_internal_add_database_shard in Hadd.
  apply udf_checks_pass in Hadd as (r & Hf & Hown & Hbody).
  apply bind_returned in Hbody as ([] & s0 & Hins & Hflag).
  unfold InsertDatabaseShardAssignmentLocally in Hins.
  destruct (existsb _ _) eqn:Hfresh; [discriminate|].
  injection Hins as <-. unfold modify in Hflag. injection Hflag as <-.
  unfold citus_internal_delete_database_shard.
  rewrite (udf_checks_run env name _ _ r); [| exact Hf |].
  - eexists. split; [reflexivity|]. simpl.
    apply simple_heap_delete_snoc; [exact Hfresh|reflexivity].
  - rewrite <- Hown. apply pg_database_ownercheck_same. reflexivity.
Qed.

Lemma add_then_delete_restores_registry_witness :
  let env := Demo.coordinator false true Demo.three_workers in
  let s :=
    Demo.session true [Demo.citus_db; Demo.appdb] [shard_row 16384 10] in
  let s1 := snd (citus_internal_add_database_shard env "appdb" 20 s) in
  citus_internal_add_database_shard env "appdb" 20 s = (Returned tt, s1) /\
  exists s2,
    citus_internal_delete_database_shard env "appdb" s1 = (Returned tt, s2) /\
    database_shard s2 = database_shard s.
Proof.
  split; [reflexivity|].
  apply (add_then_delete_restores_registry
           (Demo.coordinator false true Demo.three_workers) "appdb" 20
           (Demo.session true [Demo.citus_db; Demo.appdb]
              [shard_row 16384 10])).
  reflexivity.
Defined.

#[local] Instance same_pg_database_refl : Reflexive same_pg_database.
Proof. intros s. reflexivity. Qed.

#[local] Instance same_pg_database_trans : Transitive same_pg_database.
Proof. intros a b c Hab Hbc. unfold same_pg_database in *. congruence. Qed.

#[local] Instance same_pooler_flag_refl : Reflexive same_pooler_flag.
Proof. intros s. reflexivity. Qed.

#[local] Instance same_pooler_flag_trans : Transitive same_pooler_flag.
Proof. intros a b c Hab Hbc. unfold same_pooler_flag in *. congruence. Qed.

Lemma AssignDatabaseToShard_pg_database env oid :
  preserves same_pg_database (AssignDatabaseToShard env oid).
Proof.
  apply (AssignDatabaseToShard_frame env same_pg_database (fun _ => True));
    try exact I; intros.
  - unfold ExecuteQueryViaSPI. registry_untouched.
  - unfold SendCommandToWorker. registry_untouched.
  - unfold SendCommandToWorkersWithMetadata. registry_untouched.
  - unfold InsertDatabaseShardAssignmentLocally. registry_untouched.
  - intros s. reflexivity.
Qed.

Lemma AssignDatabaseToShard_returned_row env oid s s' :
  AssignDatabaseToShard env oid s = (Returned tt, s') ->
  exists group, database_shard s' = database_shard s ++ [shard_row oid group].
Proof.
  intros Hrun. unfold AssignDatabaseToShard in Hrun.
  apply bind_returned in Hrun as (group & s1 & Hsel & Hplace).
  change (place env oid group s1 = (Returned tt, s')) in Hplace.
  pose proof (selection_frame env same_registry oid s) as Hreg.
  rewrite Hsel in Hreg. unfold same_registry in Hreg. simpl in Hreg.
  exists group. rewrite <- Hreg.
  apply (place_registry env oid group s1 s' Hplace).
Qed.

(** The version check that opens [database_shard_assign]. *)
Lemma database_shard_assign_unfold env name s :
  database_shard_assign env name s =
  if CitusVersionCompatible env then
    (databaseOid' <- get_database_oid name false ;;
     isOwner <- pg_database_ownercheck env databaseOid' (GetUserId env) ;;
     if negb isOwner then ereport (InsufficientPrivilege name)
     else
       shard <- GetDatabaseShardByOid databaseOid' ;;
       match shard with
       | Some _ => ereport AlreadyAssignedToShard
       | None => AssignDatabaseToShard env databaseOid'
       end) s
  else (Raised VersionMismatch, s).
Proof.
  unfold database_shard_assign, bind at 1, CheckCitusVersion.
  destruct (CitusVersionCompatible env); reflexivity.
Qed.

(** X7: a database can be assigned only once through the UDF: after a
    database_shard_assign that succeeded, the same call again raises
    "database is already assigned to a shard" and changes nothing. *)
Theorem assign_twice_is_rejected env name s s1 :
  database_shard_assign env name s = (Returned tt, s1) ->
  database_shard_assign env name s1 = (Raised AlreadyAssignedToShard, s1).
Proof.
  intros Hrun. rewrite database_shard_assign_unfold in Hrun.
  destruct (CitusVersionCompatible env) eqn:Hversion; [|discriminate].
  apply udf_checks_pass in Hrun as (r & Hf & Hown & Hbody).
  apply bind_returned in Hbody as (shard & s0 & Hlookup & Hassign).
  unfold GetDatabaseShardByOid, gets in Hlookup.
  injection Hlookup as <- <-.
  destruct (List.find _ (database_shard s)); [discriminate|].
  pose proof (AssignDatabaseToShard_pg_database env (dboid r) s) as Hpg.
  rewrite Hassign in Hpg. unfold same_pg_database in Hpg. simpl in Hpg.
  apply AssignDatabaseToShard_returned_row in Hassign as (group & Hrows).
  rewrite database_shard_assign_unfold, Hversion.
  rewrite (udf_checks_run env name _ s1 r).
  - unfold bind, GetDatabaseShardByOid, gets. rewrite Hrows.
    destruct (List.find _ (database_shard s ++ [shard_row (dboid r) group]))
      as [x|] eqn:Hnone; [reflexivity|].
    pose proof (List.find_none _ _ Hnone (shard_row (dboid r) group)) as Hrow.
    simpl in Hrow. rewrite Z.eqb_refl in Hrow.
    assert (true = false); [apply Hrow|discriminate].
    apply List.in_or_app. right. left. reflexivity.
  - rewrite (find_database_same name s s1 Hpg). exact Hf.
  - rewrite <- Hown. apply pg_database_ownercheck_same. exact Hpg.
Qed.

Lemma assign_twice_is_rejected_witness :
  let env := Demo.coordinator false true Demo.three_workers in
  let s := Demo.session true [Demo.citus_db; Demo.appdb] [] in
  let s1 := snd (database_shard_assign env "appdb" s) in
  database_shard_assign env "appdb" s = (Returned tt, s1) /\
  database_shard_assign env "appdb" s1 = (Raised AlreadyAssignedToShard, s1).
Proof.
  split; [reflexivity|].
  apply (assign_twice_is_rejected
           (Demo.coordinator false true Demo.three_workers) "appdb"
           (Demo.session true [Demo.citus_db; Demo.appdb] [])).
  reflexivity.
Defined.

(** X8: the ownership check comes before any write: a caller who is
    neither superuser nor owner of the database is refused with the
    permission error by each of the three registry UDFs, and the state is
    exactly what it was.  (database_shard_assign checks the extension
    version first: when that check fails, its error is the one raised,
    the state being unchanged all the same.) *)
Theorem non_owner_is_refused env name group s r :
  superuser env = false ->
  database_oids_unique s ->
  find_database name s = Some r ->
  datdba r <> GetUserId env ->
  database_shard_assign env name s =
    (Raised (if CitusVersionCompatible env
             then InsufficientPrivilege name else VersionMismatch), s)
  /\ citus_internal_add_database_shard env name group s =
     (Raised (InsufficientPrivilege name), s)
  /\ citus_internal_delete_database_shard env name s =
     (Raised (InsufficientPrivilege name), s).
Proof.
  intros Hsuper Huniq Hf Howner.
  assert (Hcheck :
    fst (pg_database_ownercheck env (dboid r) (GetUserId env) s) =
    Returned false).
  { unfold pg_database_ownercheck. rewrite Hsuper.
    rewrite (find_database_by_oid_unique s r Huniq (find_database_In _ _ _ Hf)).
    simpl. apply Z.eqb_neq in Howner. rewrite Howner. reflexivity. }
  rewrite database_shard_assign_unfold.
  unfold citus_internal_add_database_shard,
    citus_internal_delete_database_shard.
  rewrite !(udf_checks_unfold env name _ s r Hf), Hcheck.
  destruct (CitusVersionCompatible env); auto.
Qed.

Lemma non_owner_is_refused_witness :
  let env :=
    {| superuser := false; GetUserId := 11;
       CitusVersionCompatible := true; GetLocalGroupId := 0;
       EnableDatabaseSharding := true; EnableMetadataSync := true;
       LocalHostName := "localhost"; PostPortNumber := 5432;
       CitusMainDatabase := "citus";
       TargetWorkerSetNodeList_ALL_SHARD_NODES := Demo.three_workers;
       remote_failure := fun _ => false |} in
  let s := Demo.session true [Demo.citus_db; Demo.appdb] [] in
  database_shard_assign env "appdb" s =
    (Raised (InsufficientPrivilege "appdb"), s)
  /\ citus_internal_add_database_shard env "appdb" 20 s =
     (Raised (InsufficientPrivilege "appdb"), s)
  /\ citus_internal_delete_database_shard env "appdb" s =
     (Raised (InsufficientPrivilege "appdb"), s).
Proof.
  cbv zeta.
  match goal with
  | |- database_shard_assign ?env _ _ = _ /\ _ =>
      apply (non_owner_is_refused env "appdb" 20
               (Demo.session true [Demo.citus_db; Demo.appdb] [])
               Demo.appdb)
  end.
  - reflexivity.
  - apply (bool_decide_unpack _). reflexivity.
  - reflexivity.
  - simpl. lia.
Defined.

(** ** The CONNECT sweep: failure, repetition, reach *)

Lemma foreach_sweep_raised env name group nodes s e s' :
  foreach_ptr nodes (sweep_body env name group) s = (Raised e, s') ->
  exists done N rest,
    nodes = done ++ N :: rest /\
    remote_failure env (sweep_event env name group N) = true /\
    e = (if groupId N =? GetLocalGroupId env
         then SPIFailure else ConnectionFailure) /\
    trace s' = trace s ++ map (sweep_event env name group) done /\
    connect_revoked s' =
      fold_left (sweep_step env name group) done (connect_revoked s).
Proof.
  revert s. induction nodes as [|N rest IH]; intros s; simpl.
  - discriminate.
  - unfold bind at 1.
    destruct (sweep_body env name group N s) as [[[]|e1] s1] eqn:Hstep.
    + intros Hrest. apply sweep_body_step in Hstep as (S1 & S2 & _).
      apply IH in Hrest as (done & N' & rest' & -> & Hfail & He & T & C).
      exists (N :: done), N', rest'. simpl.
      rewrite T, C, S1, S2, <- app_assoc. auto.
    + intros [= <- <-]. rewrite sweep_body_unfold in Hstep.
      destruct (remote_failure env _) eqn:Hfail; [|discriminate].
      injection Hstep as <- <-.
      exists [], N, rest. simpl. rewrite app_nil_r. auto.
Qed.

(** X9: the sweep has no compensation.  It raises only when the database
    id does not resolve to a name (on the first node, with nothing issued)
    or when the request for some node of the list fails, the local SPI
    query or the remote command.  In the latter case the commands for all
    nodes before that one have been issued and have taken effect, and
    nothing was issued for that node or any node after it. *)
Theorem sweep_failure_leaves_prefix env oid group s e s' :
  AllowConnectionsOnlyOnNodeGroup env oid group s = (Raised e, s') ->
  (find_database_by_oid oid s = None /\ e = NullPointer /\ s' = s) \/
  (exists row done N rest,
     find_database_by_oid oid s = Some row /\
     TargetWorkerSetNodeList_ALL_SHARD_NODES env = done ++ N :: rest /\
     remote_failure env (sweep_event env (datname row) group N) = true /\
     e = (if groupId N =? GetLocalGroupId env
          then SPIFailure else ConnectionFailure) /\
     trace s' = trace s ++ map (sweep_event env (datname row) group) done /\
     connect_revoked s' =
       fold_left (sweep_step env (datname row) group) done
         (connect_revoked s)).
Proof.
  intros Hrun.
  destruct (find_database_by_oid oid s) as [row|] eqn:Hfind.
  - right.
    rewrite (AllowConnectionsOnlyOnNodeGroup_sweep env oid group s row Hfind)
      in Hrun.
    apply foreach_sweep_raised in Hrun
      as (done & N & rest & Hnodes & Hfail & He & T & C).
    exists row, done, N, rest.
    repeat apply conj; solve [assumption | reflexivity].
  - left. split; [reflexivity|].
    unfold AllowConnectionsOnlyOnNodeGroup, bind at 1, get_database_name, gets
      in Hrun.
    rewrite Hfind in Hrun. cbn [fmap option_fmap option_map] in Hrun.
    destruct (TargetWorkerSetNodeList_ALL_SHARD_NODES env) as [|N rest];
      [discriminate|].
    injection Hrun as <- <-. auto.
Qed.

Lemma sweep_failure_leaves_prefix_witness :
  let env :=
    {| superuser := true; GetUserId := 10;
       CitusVersionCompatible := true; GetLocalGroupId := 0;
       EnableDatabaseSharding := false; EnableMetadataSync := false;
       LocalHostName := "localhost"; PostPortNumber := 5432;
       CitusMainDatabase := "citus";
       TargetWorkerSetNodeList_ALL_SHARD_NODES := Demo.three_workers;
       remote_failure := fun ev =>
         match ev with
         | EvSendCommandToWorker name _ _ => String.eqb name "w20"
         | _ => false
         end |} in
  let s := Demo.session true [Demo.citus_db; Demo.appdb] [] in
  let out := AllowConnectionsOnlyOnNodeGroup env 16387 30 s in
  out = (Raised ConnectionFailure, snd out) /\
  ((find_database_by_oid 16387 s = None /\
    ConnectionFailure = NullPointer /\ snd out = s) \/
   (exists row done N rest,
      find_database_by_oid 16387 s = Some row /\
      Demo.three_workers = done ++ N :: rest /\
      remote_failure env (sweep_event env (datname row) 30 N) = true /\
      ConnectionFailure =
        (if groupId N =? GetLocalGroupId env
         then SPIFailure else ConnectionFailure) /\
      trace (snd out) =
        trace s ++ map (sweep_event env (datname row) 30) done /\
      connect_revoked (snd out) =
        fold_left (sweep_step env (datname row) 30) done
          (connect_revoked s))).
Proof.
  cbv zeta.
  match goal with
  | |- AllowConnectionsOnlyOnNodeGroup ?env ?oid ?group ?s = _ /\ _ =>
      assert (Hrun :
        AllowConnectionsOnlyOnNodeGroup env oid group s =
        (Raised ConnectionFailure,
         snd (AllowConnectionsOnlyOnNodeGroup env oid group s)))
        by (vm_compute; reflexivity);
      split; [exact Hrun|];
      exact (sweep_failure_leaves_prefix env oid group s ConnectionFailure
               _ Hrun)
  end.
Defined.

(** Once some node of the list writes a key, what was there before no
    longer matters. *)
Lemma sweep_fold_overwrites env name group nodes revoked revoked' key :
  (exists N, In N nodes /\ (node_site env N, name) = key) ->
  key ∈ fold_left (sweep_step env name group) nodes revoked <->
  key ∈ fold_left (sweep_step env name group) nodes revoked'.
Proof.
  induction nodes as [|x l IH] using rev_ind; intros (N & HN & Hkey).
  - contradiction.
  - rewrite !fold_left_app. simpl.
    destruct (decide ((node_site env x, name) = key)) as [Hx|Hx].
    + clear HN Hkey IH. subst key. unfold sweep_step, connect_command.
      destruct (uint32 (groupId x) =? group); cbn [apply_command].
      * split; intros Hin; apply elem_of_difference in Hin as [_ Hin];
          exfalso; apply Hin; apply elem_of_singleton; reflexivity.
      * split; intros _; apply elem_of_union; right;
          apply elem_of_singleton; reflexivity.
    + assert (Hstep : forall R,
                key ∈ sweep_step env name group R x <-> key ∈ R).
      { intros R. unfold sweep_step, connect_command.
        destruct (uint32 (groupId x) =? group); simpl; set_solver. }
      rewrite !Hstep. apply IH. exists N. split; [|exact Hkey].
      apply List.in_app_or in HN as [HN|[Heq|[]]]; [exact HN|].
      subst x. contradiction.
Qed.

Lemma sweep_fold_idempotent env name group nodes revoked :
  fold_left (sweep_step env name group) nodes
    (fold_left (sweep_step env name group) nodes revoked) =
  fold_left (sweep_step env name group) nodes revoked.
Proof.
  apply set_eq. intros key.
  destruct (decide (Exists (fun N => (node_site env N, name) = key) nodes))
    as [Hin|Hout].
  - apply sweep_fold_overwrites.
    apply Exists_exists in Hin as (N & HN & Hkey).
    exists N. split; [apply list_elem_of_In; exact HN|exact Hkey].
  - apply sweep_fold_untouched. intros N HN Hkey. apply Hout.
    apply Exists_exists. exists N. split; [apply list_elem_of_In; exact HN|].
    exact Hkey.
Qed.

(** X10: the sweep is idempotent: running it a second time for the same
    database and group, right after a run that completed, leaves every
    CONNECT privilege as the first run set it. *)
Theorem sweep_twice_same_privileges env oid group s s1 s2 row :
  find_database_by_oid oid s = Some row ->
  AllowConnectionsOnlyOnNodeGroup env oid group s = (Returned tt, s1) ->
  AllowConnectionsOnlyOnNodeGroup env oid group s1 = (Returned tt, s2) ->
  connect_revoked s2 = connect_revoked s1.
Proof.
  intros Hfind Hfirst Hsecond.
  rewrite (AllowConnectionsOnlyOnNodeGroup_sweep env oid group s row Hfind)
    in Hfirst.
  apply foreach_sweep in Hfirst as (C1 & _ & _ & Hpg).
  rewrite (AllowConnectionsOnlyOnNodeGroup_sweep env oid group s1 row)
    in Hsecond
    by (rewrite (find_database_by_oid_same oid s s1 Hpg); exact Hfind).
  apply foreach_sweep in Hsecond as (C2 & _).
  rewrite C2, C1. apply sweep_fold_idempotent.
Qed.

Lemma sweep_twice_same_privileges_witness :
  let env := Demo.coordinator false true Demo.three_workers in
  let s := Demo.session true [Demo.citus_db; Demo.appdb] [] in
  let s1 := snd (AllowConnectionsOnlyOnNodeGroup env 16387 20 s) in
  let s2 := snd (AllowConnectionsOnlyOnNodeGroup env 16387 20 s1) in
  AllowConnectionsOnlyOnNodeGroup env 16387 20 s = (Returned tt, s1) /\
  AllowConnectionsOnlyOnNodeGroup env 16387 20 s1 = (Returned tt, s2) /\
  connect_revoked s2 = connect_revoked s1.
Proof.
  cbv zeta.
  assert (Hfirst :
    AllowConnectionsOnlyOnNodeGroup
      (Demo.coordinator false true Demo.three_workers) 16387 20
      (Demo.session true [Demo.citus_db; Demo.appdb] []) =
    (Returned tt,
     snd (AllowConnectionsOnlyOnNodeGroup
            (Demo.coordinator false true Demo.three_workers) 16387 20
            (Demo.session true [Demo.citus_db; Demo.appdb] []))))
    by (vm_compute; reflexivity).
  assert (Hsecond :
    AllowConnectionsOnlyOnNodeGroup
      (Demo.coordinator false true Demo.three_workers) 16387 20
      (snd (AllowConnectionsOnlyOnNodeGroup
              (Demo.coordinator false true Demo.three_workers) 16387 20
              (Demo.session true [Demo.citus_db; Demo.appdb] []))) =
    (Returned tt,
     snd (AllowConnectionsOnlyOnNodeGroup
            (Demo.coordinator false true Demo.three_workers) 16387 20
            (snd (AllowConnectionsOnlyOnNodeGroup
                    (Demo.coordinator false true Demo.three_workers)
                    16387 20
                    (Demo.session true [Demo.citus_db; Demo.appdb] []))))))
    by (vm_compute; reflexivity).
  split; [exact Hfirst|]. split; [exact Hsecond|].
  apply (sweep_twice_same_privileges
           (Demo.coordinator false true Demo.three_workers) 16387 20
           (Demo.session true [Demo.citus_db; Demo.appdb] []) _ _ Demo.appdb
           eq_refl Hfirst Hsecond).
Defined.

(** X11: the sweep reaches only the listed nodes and only the one
    database: a CONNECT privilege on another database, or at a site that is
    the site of no node in the list (such as the local node when it is not
    listed), is the same after the sweep as before, whether the sweep
    completes or raises. *)
Theorem sweep_reach env oid group s row site db :
  find_database_by_oid oid s = Some row ->
  db <> datname row \/
  (forall N, In N (TargetWorkerSetNodeList_ALL_SHARD_NODES env) ->
             node_site env N <> site) ->
  let s' := snd (AllowConnectionsOnlyOnNodeGroup env oid group s) in
  grants_connect s' site db <-> grants_connect s site db.
Proof.
  intros Hfind Hkey. cbv zeta. unfold grants_connect.
  rewrite (AllowConnectionsOnlyOnNodeGroup_sweep env oid group s row Hfind).
  destruct (foreach_ptr _ _ s) as [[[]|e] s'] eqn:Hrun; simpl.
  - apply foreach_sweep in Hrun as (C & _). rewrite C.
    rewrite sweep_fold_untouched; [reflexivity|].
    intros N HN [= Hsite Hdb]. destruct Hkey as [Hne|Hne]; [congruence|].
    apply (Hne N HN). exact Hsite.
  - apply foreach_sweep_raised in Hrun
      as (done & N0 & rest & Hnodes & _ & _ & _ & C).
    rewrite C. rewrite sweep_fold_untouched; [reflexivity|].
    intros N HN [= Hsite Hdb]. destruct Hkey as [Hne|Hne]; [congruence|].
    apply (Hne N); [|exact Hsite].
    rewrite Hnodes. apply List.in_or_app. left. exact HN.
Qed.

Lemma sweep_reach_witness :
  let env := Demo.coordinator false true Demo.three_workers in
  let s := Demo.session true [Demo.citus_db; Demo.appdb] [] in
  let s' := snd (AllowConnectionsOnlyOnNodeGroup env 16387 20 s) in
  grants_connect s' LocalSite "appdb" <-> grants_connect s LocalSite "appdb".
Proof.
  apply (sweep_reach (Demo.coordinator false true Demo.three_workers) 16387 20
           (Demo.session true [Demo.citus_db; Demo.appdb] []) Demo.appdb
           LocalSite "appdb").
  - reflexivity.
  - right. intros N HN.
    repeat (destruct HN as [<-|HN]; [discriminate|]). destruct HN.
Defined.

(** ** database_shard_assign: what can go wrong *)

Lemma bind_raised {A B} (m : PG A) (k : A -> PG B) s e s' :
  bind m k s = (Raised e, s') ->
  m s = (Raised e, s') \/
  exists a s1, m s = (Returned a, s1) /\ k a s1 = (Raised e, s').
Proof.
  unfold bind. destruct (m s) as [[a|e1] s1]; intros Hk.
  - right. exists a, s1. auto.
  - left. injection Hk as -> ->. reflexivity.
Qed.

Lemma place_raises env oid group s row e s' :
  find_database_by_oid oid s = Some row ->
  existsb (fun r => databaseOid r =? oid) (database_shard s) = false ->
  place env oid group s = (Raised e, s') ->
  e = ConnectionFailure \/ e = SPIFailure.
Proof.
  intros Hfind Hfresh Hrun. unfold place in Hrun.
  apply bind_raised in Hrun as [Hins|([] & s1 & Hins & Hrun)].
  - unfold InsertDatabaseShardAssignment in Hins.
    apply bind_raised in Hins as [Hlocal|([] & s0 & Hlocal & Hmirror)].
    + unfold InsertDatabaseShardAssignmentLocally in Hlocal.
      rewrite Hfresh in Hlocal. discriminate.
    + unfold InsertDatabaseShardAssignmentLocally in Hlocal.
      rewrite Hfresh in Hlocal. injection Hlocal as <-.
      destruct (EnableMetadataSync env); [|discriminate].
      unfold InsertDatabaseShardAssignmentOnOtherNodes,
        InsertDatabaseShardAssignmentCommand, get_database_name, gets,
        SendCommandToWorkersWithMetadata, bind, ret, modify, ereport
        in Hmirror.
      rewrite (find_database_by_oid_same oid s) in Hmirror by reflexivity.
      rewrite Hfind in Hmirror. simpl in Hmirror.
      destruct (remote_failure env _); [|discriminate].
      injection Hmirror as <- _. left. reflexivity.
  - apply (InsertDatabaseShardAssignment_effect env oid group s s1 row Hfind)
      in Hins as (_ & _ & _ & _ & Hpg).
    apply bind_raised in Hrun as [Hsweep|([] & s2 & _ & Hflag)];
      [|discriminate].
    rewrite (AllowConnectionsOnlyOnNodeGroup_sweep env oid _ s1 row) in Hsweep
      by (rewrite (find_database_by_oid_same oid s s1 Hpg); exact Hfind).
    apply foreach_sweep_raised in Hsweep as (_ & N & _ & _ & _ & He & _).
    rewrite He. destruct (groupId N =? GetLocalGroupId env); auto.
Qed.

(** X12: database_shard_assign has six ways to fail: the extension
    version check fails, the database does not exist, the caller does not
    own it, it is already assigned, a request to another node fails, or
    the local SPI query of the sweep fails.  On a catalog with well-formed
    OIDs no duplicate-key, missing-name or list-index failure can come out
    of the assignment it then runs. *)
Theorem database_shard_assign_errors env name s e :
  Forall (fun r => Oid_range (dboid r)) (pg_database s) ->
  list_length (TargetWorkerSetNodeList_ALL_SHARD_NODES env) < 2 ^ 31 ->
  fst (database_shard_assign env name s) = Raised e ->
  (e = VersionMismatch /\ CitusVersionCompatible env = false) \/
  (CitusVersionCompatible env = true /\
   (e = UndefinedDatabase name \/ e = InsufficientPrivilege name \/
    e = AlreadyAssignedToShard \/ e = ConnectionFailure \/
    e = SPIFailure)).
Proof.
  intros Hoids Hlen Hrun. rewrite database_shard_assign_unfold in Hrun.
  destruct (CitusVersionCompatible env);
    [right; split; [reflexivity|]
    |injection Hrun as <-; left; split; reflexivity].
  destruct (find_database name s) as [r|] eqn:Hf.
  - rewrite (udf_checks_unfold env name _ s r Hf) in Hrun.
    destruct (find_database_resolves name s r Hf) as (r' & Hres).
    assert (Hcheck : forall e0,
              fst (pg_database_ownercheck env (dboid r) (GetUserId env) s)
              <> Raised e0).
    { intros e0. unfold pg_database_ownercheck.
      destruct (superuser env); [discriminate|]. rewrite Hres. discriminate. }
    destruct (fst (pg_database_ownercheck env (dboid r) (GetUserId env) s))
      as [[]|e0].
    + unfold bind at 1, GetDatabaseShardByOid, gets in Hrun.
      destruct (List.find _ (database_shard s)) as [shard|] eqn:Hshard.
      * injection Hrun as <-. auto.
      * right. right. right.
        assert (Hraised : e = ConnectionFailure \/ e = SPIFailure);
          [|destruct Hraised; auto].
        assert (Hrange : Oid_range (dboid r)).
        { rewrite List.Forall_forall in Hoids. apply Hoids.
          eapply find_database_In. exact Hf. }
        rewrite (AssignDatabaseToShard_place env (dboid r) s Hrange Hlen)
          in Hrun.
        destruct (place env (dboid r) _ s) as [o s'] eqn:Hplace.
        simpl in Hrun. subst o.
        eapply place_raises; [exact Hres| |exact Hplace].
        apply find_none_existsb. exact Hshard.
    + injection Hrun as <-. auto.
    + exfalso. apply (Hcheck e0). reflexivity.
  - rewrite (udf_checks_unknown env name _ s Hf) in Hrun.
    injection Hrun as <-. auto.
Qed.

Lemma database_shard_assign_errors_witness :
  let env := Demo.coordinator false true Demo.three_workers in
  let s :=
    Demo.session true [Demo.citus_db; Demo.appdb] [shard_row 16387 10] in
  fst (database_shard_assign env "appdb" s) = Raised AlreadyAssignedToShard /\
  ((AlreadyAssignedToShard = VersionMismatch /\
    CitusVersionCompatible env = false) \/
   (CitusVersionCompatible env = true /\
    (AlreadyAssignedToShard = UndefinedDatabase "appdb" \/
     AlreadyAssignedToShard = InsufficientPrivilege "appdb" \/
     AlreadyAssignedToShard = AlreadyAssignedToShard \/
     AlreadyAssignedToShard = ConnectionFailure \/
     AlreadyAssignedToShard = SPIFailure))).
Proof.
  split; [reflexivity|].
  apply (database_shard_assign_errors
           (Demo.coordinator false true Demo.three_workers) "appdb"
           (Demo.session true [Demo.citus_db; Demo.appdb]
              [shard_row 16387 10])).
  - repeat constructor; unfold Oid_range; simpl; lia.
  - reflexivity.
  - reflexivity.
Defined.

(** ** The pooler reconfiguration flag *)

Lemma pooler_bind {A B} (m : PG A) (k : A -> PG B) :
  preserves same_pooler_flag m -> (forall a, pooler_protocol (k a)) ->
  pooler_protocol (bind m k).
Proof.
  intros Hm Hk s. unfold bind. specialize (Hm s).
  destruct (m s) as [[a|e] s1]; simpl in Hm.
  - specialize (Hk a s1). destruct (k a s1) as [[b|e] s2];
      unfold same_pooler_flag in Hm; congruence.
  - exact Hm.
Qed.

Lemma pooler_ereport {A} e : pooler_protocol (@ereport A e).
Proof. intros s. reflexivity. Qed.

Lemma pooler_set :
  pooler_protocol (modify (set_ReconfigurePgBouncersOnCommit true)).
Proof. intros s. reflexivity. Qed.

Lemma pooler_prims env :
  (forall c, preserves same_pooler_flag (ExecuteQueryViaSPI env c)) /\
  (forall name port' c,
     preserves same_pooler_flag (SendCommandToWorker env name port' c)) /\
  (forall c,
     preserves same_pooler_flag (SendCommandToWorkersWithMetadata env c)) /\
  (forall oid group,
     preserves same_pooler_flag
       (InsertDatabaseShardAssignmentLocally oid group)) /\
  (forall oid,
     preserves same_pooler_flag (DeleteDatabaseShardByDatabaseIdLocally oid))
  /\
  (forall oid roleid,
     preserves same_pooler_flag (pg_database_ownercheck env oid roleid)).
Proof.
  repeat apply conj; intros.
  - unfold ExecuteQueryViaSPI. registry_untouched.
  - unfold SendCommandToWorker. registry_untouched.
  - unfold SendCommandToWorkersWithMetadata. registry_untouched.
  - unfold InsertDatabaseShardAssignmentLocally. registry_untouched.
  - unfold DeleteDatabaseShardByDatabaseIdLocally. registry_untouched.
  - unfold pg_database_ownercheck, find_database_by_oid. registry_untouched.
Qed.

Lemma pooler_place env oid group : pooler_protocol (place env oid group).
Proof.
  destruct (pooler_prims env) as (Hspi & Hsend & Hmirror & Hinsert & _).
  unfold place.
  apply pooler_bind.
  - apply (InsertDatabaseShardAssignment_frame env same_pooler_flag
             (fun _ => True)); auto.
  - intros _. apply pooler_bind; [|intros _; apply pooler_set].
    apply (AllowConnectionsOnlyOnNodeGroup_frame env same_pooler_flag); auto.
Qed.

Lemma pooler_AssignDatabaseToShard env oid :
  pooler_protocol (AssignDatabaseToShard env oid).
Proof.
  unfold AssignDatabaseToShard. apply pooler_bind.
  - apply selection_frame. apply _.
  - intros group. apply pooler_place.
Qed.

Lemma pooler_udf env name (body : Z -> PG unit) :
  (forall oid, pooler_protocol (body oid)) ->
  pooler_protocol
    (databaseOid' <- get_database_oid name false ;;
     isOwner <- pg_database_ownercheck env databaseOid' (GetUserId env) ;;
     if negb isOwner then ereport (InsufficientPrivilege name)
     else body databaseOid').
Proof.
  intros Hbody. destruct (pooler_prims env) as (_ & _ & _ & _ & _ & Howner).
  apply pooler_bind; [apply get_database_oid_preserves; apply _|].
  intros oid. apply pooler_bind; [apply Howner|].
  intros isOwner. destruct isOwner; simpl; [apply Hbody|apply pooler_ereport].
Qed.

(** X13: the pooler reconfiguration request follows the registry writes:
    each entry point that writes the registry leaves
    ReconfigurePgBouncersOnCommit set when it returns, and leaves the flag
    as it found it when it raises. *)
Theorem pooler_flag_follows_registry_writes `{SqlFrontend} env call s :
  registry_writer call = true ->
  match run_entry env call s with
  | (Returned _, s') => ReconfigurePgBouncersOnCommit s' = true
  | (Raised _, s') =>
      ReconfigurePgBouncersOnCommit s' = ReconfigurePgBouncersOnCommit s
  end.
Proof.
  intros Hwriter. revert s.
  change (pooler_protocol (run_entry env call)).
  destruct (pooler_prims env) as (_ & _ & Hmirror & Hinsert & Hdelete & _).
  destruct call; try discriminate; cbn [run_entry].
  - unfold database_shard_assign.
    apply pooler_bind; [apply CheckCitusVersion_preserves; apply _|].
    intros _. apply pooler_udf. intros oid.
    apply pooler_bind; [unfold GetDatabaseShardByOid; frame_ret|].
    intros [shard|]; [apply pooler_ereport|apply pooler_AssignDatabaseToShard].
  - apply pooler_AssignDatabaseToShard.
  - unfold UpdateDatabaseShard. apply pooler_bind; [|intros _; apply pooler_place].
    apply (DeleteDatabaseShardByDatabaseId_frame env same_pooler_flag
             (fun _ => True)); auto.
  - unfold citus_internal_add_database_shard. apply pooler_udf. intros oid.
    apply pooler_bind; [apply Hinsert|intros _; apply pooler_set].
  - unfold citus_internal_delete_database_shard. apply pooler_udf. intros oid.
    apply pooler_bind; [apply Hdelete|intros _; apply pooler_set].
Qed.

Lemma pooler_flag_follows_registry_writes_witness :
  let env := Demo.coordinator false true Demo.three_workers in
  let s := Demo.session true [Demo.citus_db; Demo.appdb] [] in
  registry_writer (Call_database_shard_assign "appdb") = true /\
  match
    @run_entry Demo.frontend env (Call_database_shard_assign "appdb") s
  with
  | (Returned _, s') => ReconfigurePgBouncersOnCommit s' = true
  | (Raised _, s') =>
      ReconfigurePgBouncersOnCommit s' = ReconfigurePgBouncersOnCommit s
  end.
Proof.
  split; [reflexivity|].
  apply (@pooler_flag_follows_registry_writes Demo.frontend
           (Demo.coordinator false true Demo.three_workers)
           (Call_database_shard_assign "appdb")
           (Demo.session true [Demo.citus_db; Demo.appdb] [])).
  reflexivity.
Defined.

(** ** Replay: what it leaves alone, and what it undoes *)

#[local] Instance silent_refl : Reflexive silent.
Proof. intros s. unfold silent. tauto. Qed.

#[local] Instance silent_trans : Transitive silent.
Proof.
  intros a b c [H1 H2] [K1 K2]. unfold silent. split; congruence.
Qed.

Lemma same_catalogs_silent s s' : same_catalogs s s' -> silent s s'.
Proof. intros (_ & _ & H3 & _ & H5). split; assumption. Qed.

Lemma replay_statement_silent `{SqlFrontend} env parseTree :
  preserves silent (replay_statement env parseTree).
Proof.
  destruct parseTree as [dbname|dbname mo|tag]; cbn [replay_statement].
  - frame_bind; [apply get_database_oid_preserves; apply _|].
    apply preserves_if; [|frame_ret].
    frame_bind; [|frame_ret].
    intros s. unfold createdb. destruct (find_database dbname s);
      split; reflexivity.
  - frame_bind; [apply get_database_oid_preserves; apply _|].
    apply preserves_if; [|frame_ret].
    intros s. unfold DropDatabase, dropdb.
    destruct (find_database dbname s); [|destruct mo]; split; reflexivity.
  - frame_ret.
Qed.

(** X14: the replay UDF works on the local catalog only: whatever text it
    is given and however it ends, it issues no command to any other node
    or connection and leaves the shard registry untouched. *)
Theorem replay_is_local `{SqlFrontend} env command s :
  let s' := snd (citus_internal_database_command env command s) in
  trace s' = trace s /\ database_shard s' = database_shard s.
Proof.
  cbv zeta. change (silent s (snd (citus_internal_database_command env command s))).
  rewrite citus_internal_database_command_unfold.
  destruct (ParseTreeNode command) as [parseTree|]; [|split; reflexivity].
  pose proof (replay_statement_silent env parseTree
                (propagation_suppressed env s)) as Hbody.
  pose proof (same_catalogs_silent _ _
                (propagation_suppressed_catalogs env s)) as Hsup.
  destruct (replay_statement _ _ _) as [[[]|e] s2]; cbn [fst snd] in *.
  - etransitivity; [exact Hsup|]. etransitivity; [exact Hbody|].
    apply same_catalogs_silent.
    apply (AtEOXact_GUC_catalogs true (GUCNestLevel s + 1) s2).
  - etransitivity; [exact Hsup|exact Hbody].
Qed.

(** The database catalog after the statement dispatch: unchanged, or one
    row appended for an absent name, or the rows of the name filtered
    out. *)
Lemma replay_statement_pg_database `{SqlFrontend} env parseTree s1 :
  let rows := pg_database (snd (replay_statement env parseTree s1)) in
  rows = pg_database s1 \/
  (exists dbname,
     parseTree = CreatedbStmt dbname /\
     find_database dbname s1 = None /\
     rows =
       pg_database s1 ++
       [{| datname := dbname; dboid := nextOid s1;
           datdba := GetUserId env |}]) \/
  (exists dbname missing_ok,
     parseTree = DropdbStmt dbname missing_ok /\
     rows =
       List.filter (fun r => negb (String.eqb (datname r) dbname))
         (pg_database s1)).
Proof.
  cbv zeta. destruct parseTree as [dbname|dbname mo|tag].
  - unfold replay_statement, bind, get_database_oid.
    destruct (find_database dbname s1) as [r|] eqn:Hf.
    + destruct (negb (OidIsValid (dboid r))); [|left; reflexivity].
      simpl. rewrite Hf. left. reflexivity.
    + simpl. rewrite Hf. right. left. exists dbname. auto.
  - unfold replay_statement, bind, get_database_oid.
    destruct (find_database dbname s1) as [r|] eqn:Hf; [|left; reflexivity].
    destruct (OidIsValid (dboid r)); [|left; reflexivity].
    simpl. unfold dropdb. rewrite Hf. right. right.
    exists dbname, mo. auto.
  - left. reflexivity.
Qed.

Lemma command_pg_database `{SqlFrontend} env command parseTree s :
  ParseTreeNode command = Some parseTree ->
  pg_database (snd (citus_internal_database_command env command s)) =
  pg_database
    (snd (replay_statement env parseTree (propagation_suppressed env s))).
Proof.
  intros Hparse.
  destruct (command_outcome env command _ s Hparse) as [_ (Hpg & _)].
  exact Hpg.
Qed.

Lemma find_none_filter_others (name : string) rows :
  List.find (fun r => String.eqb (datname r) name) rows = None ->
  List.filter (fun r => negb (String.eqb (datname r) name)) rows = rows.
Proof.
  induction rows as [|r rest IH]; simpl; [reflexivity|].
  destruct (String.eqb (datname r) name); [discriminate|].
  intros Hnone. simpl. rewrite IH by exact Hnone. reflexivity.
Qed.

(** X15: create and drop replays undo each other: on a catalog where the
    name is free, replaying a create-database text and then a
    drop-database text for the same name makes both calls return and gives
    back the database catalog that was there at the start. *)
Theorem replay_create_then_drop `{SqlFrontend} env create drop dbname
    missing_ok s :
  ParseTreeNode create = Some (CreatedbStmt dbname) ->
  ParseTreeNode drop = Some (DropdbStmt dbname missing_ok) ->
  catalog_wf s ->
  find_database dbname s = None ->
  let created := citus_internal_database_command env create s in
  let dropped := citus_internal_database_command env drop (snd created) in
  fst created = Returned tt /\ fst dropped = Returned tt /\
  pg_database (snd dropped) = pg_database s.
Proof.
  intros Hcreate Hdrop Hwf Hfree. cbv zeta.
  destruct (replay_create_once env create dbname s Hcreate Hwf)
    as (F1 & Fwf & Fabsent & _ & Ffound).
  specialize (Fabsent Hfree).
  destruct (find_database dbname
              (snd (citus_internal_database_command env create s)))
    as [r|] eqn:Hf; [|contradiction].
  destruct (replay_drop_existing_database env drop dbname missing_ok _ r
              Hdrop Fwf Hf) as (D1 & D2 & _).
  split; [exact F1|]. split; [exact D1|].
  rewrite D2, Fabsent, List.filter_app. simpl.
  rewrite String.eqb_refl. simpl. rewrite app_nil_r.
  apply find_none_filter_others. exact Hfree.
Qed.

Lemma replay_create_then_drop_witness :
  let env := Demo.coordinator false false [] in
  let s := Demo.session true [Demo.citus_db] [] in
  let created :=
    @citus_internal_database_command Demo.frontend env
      "CREATE DATABASE appdb" s in
  let dropped :=
    @citus_internal_database_command Demo.frontend env
      "DROP DATABASE appdb" (snd created) in
  fst created = Returned tt /\ fst dropped = Returned tt /\
  pg_database (snd dropped) = pg_database s.
Proof.
  apply (@replay_create_then_drop Demo.frontend
           (Demo.coordinator false false []) "CREATE DATABASE appdb"
           "DROP DATABASE appdb" "appdb" false
           (Demo.session true [Demo.citus_db] [])).
  - reflexivity.
  - reflexivity.
  - split; [repeat constructor|reflexivity].
  - reflexivity.
Defined.

(** X16: a replay touches only the database it names: every pg_database
    row of another name is present after the call exactly if it was
    present before, for every statement kind and every outcome. *)
Theorem replay_leaves_other_databases `{SqlFrontend} env command parseTree s
    row :
  ParseTreeNode command = Some parseTree ->
  statement_database parseTree <> Some (datname row) ->
  In row (pg_database (snd (citus_internal_database_command env command s)))
  <-> In row (pg_database s).
Proof.
  intros Hparse Hother.
  rewrite (command_pg_database env command parseTree s Hparse).
  destruct (propagation_suppressed_catalogs env s) as (Hpg & Hnext & _).
  destruct (replay_statement_pg_database env parseTree
              (propagation_suppressed env s))
    as [-> | [(dbname & -> & _ & ->) | (dbname & mo & -> & ->)]].
  - rewrite Hpg. reflexivity.
  - rewrite Hpg. split.
    + intros Hin. apply List.in_app_or in Hin as [Hin|[<-|[]]]; [exact Hin|].
      simpl in Hother. congruence.
    + intros Hin. apply List.in_or_app. left. exact Hin.
  - rewrite Hpg, List.filter_In. split; [tauto|].
    intros Hin. split; [exact Hin|].
    destruct (String.eqb_spec (datname row) dbname) as [E|E]; [|reflexivity].
    simpl in Hother. congruence.
Qed.

Lemma replay_leaves_other_databases_witness :
  let env := Demo.coordinator false false [] in
  let s := Demo.session true [Demo.citus_db; Demo.appdb] [] in
  In Demo.citus_db
    (pg_database
       (snd (@citus_internal_database_command Demo.frontend env
               "DROP DATABASE appdb" s)))
  <-> In Demo.citus_db (pg_database s).
Proof.
  apply (@replay_leaves_other_databases Demo.frontend
           (Demo.coordinator false false []) "DROP DATABASE appdb"
           (DropdbStmt "appdb" false)
           (Demo.session true [Demo.citus_db; Demo.appdb] []) Demo.citus_db).
  - reflexivity.
  - simpl. discriminate.
Defined.

Lemma NoDup_fmap_filter {A B} (f : A -> B) (p : A -> bool) (l : list A) :
  NoDup (f <$> l) -> NoDup (f <$> List.filter p l).
Proof.
  induction l as [|x l IH]; simpl; intros Hnd; [exact Hnd|].
  apply NoDup_cons in Hnd as [Hx Hnd].
  destruct (p x); [|apply IH; exact Hnd].
  simpl. apply NoDup_cons. split; [|apply IH; exact Hnd].
  intros Hin. apply Hx.
  apply list_elem_of_fmap in Hin as (y & Hy & Hin). rewrite Hy.
  apply list_elem_of_fmap_2, list_elem_of_In.
  apply list_elem_of_In in Hin. apply List.filter_In in Hin. tauto.
Qed.

(** X17: replay never produces two databases of one name: if the names in
    pg_database are pairwise different before the call they are so after
    it, for every text and every outcome. *)
Theorem replay_keeps_names_unique `{SqlFrontend} env command s :
  database_names_unique s ->
  database_names_unique
    (snd (citus_internal_database_command env command s)).
Proof.
  intros Hu. unfold database_names_unique in *.
  destruct (ParseTreeNode command) as [parseTree|] eqn:Hparse.
  - rewrite (command_pg_database env command parseTree s Hparse).
    destruct (propagation_suppressed_catalogs env s) as (Hpg & _).
    destruct (replay_statement_pg_database env parseTree
                (propagation_suppressed env s))
      as [-> | [(dbname & _ & Hfree & ->) | (dbname & mo & _ & ->)]].
    + rewrite Hpg. exact Hu.
    + rewrite Hpg. rewrite fmap_app. apply NoDup_app.
      split; [exact Hu|]. split; [|apply NoDup_singleton].
      intros name Hname Hin. simpl in Hin.
      apply list_elem_of_singleton in Hin. subst name.
      apply list_elem_of_fmap in Hname as (r & Hr & Hin).
      rewrite (find_database_same dbname s _ Hpg) in Hfree.
      pose proof (List.find_none _ _ Hfree r
                    (proj1 (list_elem_of_In _ _) Hin)) as Hneq.
      simpl in Hneq. rewrite <- Hr, String.eqb_refl in Hneq. discriminate.
    + rewrite Hpg. apply NoDup_fmap_filter. exact Hu.
  - rewrite citus_internal_database_command_unfold, Hparse. exact Hu.
Qed.

Lemma replay_keeps_names_unique_witness :
  let env := Demo.coordinator false false [] in
  let s := Demo.session true [Demo.citus_db] [] in
  database_names_unique s /\
  database_names_unique
    (snd (@citus_internal_database_command Demo.frontend env
            "CREATE DATABASE appdb" s)).
Proof.
  assert (Hu : database_names_unique (Demo.session true [Demo.citus_db] []))
    by (apply (bool_decide_unpack _); reflexivity).
  split; [exact Hu|].
  apply (@replay_keeps_names_unique Demo.frontend
           (Demo.coordinator false false []) "CREATE DATABASE appdb").
  exact Hu.
Defined.

(** ** The delegator: nothing runs locally *)

#[local] Instance only_log_changes_refl : Reflexive only_log_changes.
Proof. intros s. unfold only_log_changes. tauto. Qed.

#[local] Instance only_log_changes_trans : Transitive only_log_changes.
Proof.
  intros a b c (H1 & H2 & H3 & H4 & H5 & H6 & H7 & H8 & H9)
    (K1 & K2 & K3 & K4 & K5 & K6 & K7 & K8 & K9).
  unfold only_log_changes. repeat split; congruence.
Qed.



(** ** The propagation hooks of commands/database.c *)

(** X19: a hook with nothing to propagate hands back the empty task list
    and never raises, on any node: that is so for all six hooks when
    propagation is switched off, and for the GRANT hook also when the
    statement names no database. *)
Theorem hook_without_work_is_noop `{UtilityFrontend} penv hook node :
  hook_has_work penv hook node = false ->
  run_hook penv hook node = inr NIL.
Proof.
  unfold hook_has_work. intros Hwork.
  destruct hook; cbn [run_hook];
    unfold PreprocessGrantOnDatabaseStmt, PreprocessAlterDatabaseStmt,
      PreprocessAlterDatabaseRefreshCollStmt, PreprocessAlterDatabaseSetStmt,
      PostprocessCreateDatabaseStmt, PreprocessDropDatabaseStmt;
    destruct (ShouldPropagate penv); cbn [negb andb] in *;
    try reflexivity; try discriminate.
  destruct (Z.of_nat (length (GrantStmt_objects node)) =? 0);
    [reflexivity|discriminate].
Qed.

Lemma hook_without_work_is_noop_witness :
  @run_hook DemoHooks.frontend (DemoHooks.node_env true false)
    Hook_PreprocessGrantOnDatabaseStmt ("GRANT CONNECT TO bob"%string, [])
  = inr NIL.
Proof.
  apply (@hook_without_work_is_noop DemoHooks.frontend
           (DemoHooks.node_env true false) Hook_PreprocessGrantOnDatabaseStmt
           ("GRANT CONNECT TO bob"%string, [])).
  reflexivity.
Defined.

(** X20: a hook that has something to propagate refuses to run off the
    coordinator, and on the coordinator builds one task list for the
    non-coordinator nodes with exactly three commands: propagation off, the
    payload, propagation on.  The payload is the deparsed statement for
    GRANT and the ALTER DATABASE forms, and a call of
    citus_internal_database_command on the quoted deparsed statement for
    CREATE and DROP DATABASE. *)
Theorem hook_with_work_brackets_payload `{UtilityFrontend} penv hook node :
  hook_has_work penv hook node = true ->
  run_hook penv hook node =
  if IsCoordinator penv
  then inr (NodeDDLTaskList NON_COORDINATOR_NODES
              [DISABLE_DDL_PROPAGATION;
               SqlCommand (hook_payload hook node);
               ENABLE_DDL_PROPAGATION])
  else inl NotCoordinator.
Proof.
  unfold hook_has_work. intros Hwork.
  destruct hook; cbn [run_hook hook_payload];
    unfold PreprocessGrantOnDatabaseStmt, PreprocessAlterDatabaseStmt,
      PreprocessAlterDatabaseRefreshCollStmt, PreprocessAlterDatabaseSetStmt,
      PostprocessCreateDatabaseStmt, PreprocessDropDatabaseStmt,
      EnsureCoordinator;
    destruct (ShouldPropagate penv); cbn [negb andb] in *;
    try discriminate;
    try (destruct (Z.of_nat (length (GrantStmt_objects node)) =? 0);
         [discriminate|]);
    destruct (IsCoordinator penv); reflexivity.
Qed.

Lemma hook_with_work_brackets_payload_witness :
  @run_hook DemoHooks.frontend (DemoHooks.node_env true true)
    Hook_PostprocessCreateDatabaseStmt ("CREATE DATABASE appdb"%string, [])
  = inr (NodeDDLTaskList NON_COORDINATOR_NODES
           [DISABLE_DDL_PROPAGATION;
            SqlCommand
              "SELECT pg_catalog.citus_internal_database_command('CREATE DATABASE appdb')";
            ENABLE_DDL_PROPAGATION]).
Proof.
  apply (@hook_with_work_brackets_payload DemoHooks.frontend
           (DemoHooks.node_env true true) Hook_PostprocessCreateDatabaseStmt
           ("CREATE DATABASE appdb"%string, [])).
  reflexivity.
Defined.

(** ** Owner reconciliation *)

Lemma find_database_unique s r :
  database_names_unique s -> In r (pg_database s) ->
  find_database (datname r) s = Some r.
Proof.
  unfold database_names_unique, find_database.
  induction (pg_database s) as [|x l IH]; simpl; intros Hnd Hin;
    [contradiction|].
  apply NoDup_cons in Hnd as [Hx Hnd].
  destruct (String.eqb_spec (datname x) (datname r)) as [E|E].
  - destruct Hin as [->|Hin]; [reflexivity|].
    exfalso. apply Hx. rewrite E.
    apply list_elem_of_fmap_2, list_elem_of_In. exact Hin.
  - destruct Hin as [->|Hin]; [congruence|]. apply IH; assumption.
Qed.

(** X21: the statement rebuilt for a database addresses that database and
    names its current owner: when database names are unique, the OID
    resolves and the owner's role exists, RecreateAlterDatabaseOwnerStmt
    succeeds, its new owner is the name of the role recorded as owner, and
    AlterDatabaseOwnerObjectAddress maps the statement back to the OID it
    was built from. *)
Theorem owner_statement_round_trip penv oid s r owner :
  database_names_unique s ->
  find_database_by_oid oid s = Some r ->
  rolname_of penv (datdba r) = Some owner ->
  exists stmt,
    RecreateAlterDatabaseOwnerStmt penv oid s = inr stmt /\
    object stmt = Some (datname r) /\
    rolename (newowner stmt) = owner /\
    AlterDatabaseOwnerObjectAddress stmt false false s =
    (Returned
       [{| classId := DatabaseRelationId; objectId := oid;
           objectSubId := 0 |}], s).
Proof.
  intros Hu Hfind Hrole.
  unfold RecreateAlterDatabaseOwnerStmt, get_database_owner,
    GetUserNameFromId.
  rewrite Hfind, Hrole. eexists. split; [reflexivity|].
  simpl. split; [reflexivity|]. split; [reflexivity|].
  pose proof Hfind as Hr. unfold find_database_by_oid in Hr.
  apply List.find_some in Hr as [Hin Hoid]. apply Z.eqb_eq in Hoid.
  unfold AlterDatabaseOwnerObjectAddress. simpl.
  unfold bind, get_database_oid.
  rewrite (find_database_unique s r Hu Hin), Hoid. reflexivity.
Qed.

Lemma owner_statement_round_trip_witness :
  let penv := DemoHooks.node_env true true in
  let s := Demo.session true [Demo.citus_db; Demo.appdb] [] in
  exists stmt,
    RecreateAlterDatabaseOwnerStmt penv 16387 s = inr stmt /\
    object stmt = Some "appdb"%string /\
    rolename (newowner stmt) = "alice"%string /\
    AlterDatabaseOwnerObjectAddress stmt false false s =
    (Returned
       [{| classId := DatabaseRelationId; objectId := 16387;
           objectSubId := 0 |}], s).
Proof.
  apply (owner_statement_round_trip (DemoHooks.node_env true true) 16387
           (Demo.session true [Demo.citus_db; Demo.appdb] []) Demo.appdb
           "alice"%string).
  - apply (bool_decide_unpack _). reflexivity.
  - reflexivity.
  - reflexivity.
Defined.

(** X22: DatabaseOwnerDDLCommands either fails or yields exactly one
    statement.  It fails with the undefined-database error exactly when
    the OID does not resolve, and with the invalid-role error exactly when
    the database resolves but its owner role does not; otherwise the one
    statement is the deparsed ALTER ... OWNER TO naming the database and
    its current owner. *)
Theorem owner_commands_outcome `{UtilityFrontend} penv address s :
  match DatabaseOwnerDDLCommands penv address s with
  | inl e =>
      (find_database_by_oid (objectId address) s = None /\
       e = UndefinedDatabaseWithOid (objectId address)) \/
      (exists r,
         find_database_by_oid (objectId address) s = Some r /\
         rolname_of penv (datdba r) = None /\
         e = InvalidRoleOid (datdba r))
  | inr commands =>
      exists r owner,
        find_database_by_oid (objectId address) s = Some r /\
        rolname_of penv (datdba r) = Some owner /\
        commands =
          [DeparseTreeNode
             (AlterOwnerStmt_node
                {| objectType := OBJECT_DATABASE;
                   object := Some (datname r);
                   newowner := {| roletype := ROLESPEC_CSTRING;
                                  rolename := owner |} |})]
  end.
Proof.
  unfold DatabaseOwnerDDLCommands, RecreateAlterDatabaseOwnerStmt,
    get_database_owner, GetUserNameFromId.
  destruct (find_database_by_oid (objectId address) s) as [r|] eqn:Hfind.
  - destruct (rolname_of penv (datdba r)) as [owner|] eqn:Hrole.
    + exists r, owner. auto.
    + right. exists r. auto.
  - left. auto.
Qed.

(** ** Registry: listing, unassigned databases, failed mirroring *)

Lemma find_shard_unique rows row :
  NoDup (databaseOid <$> rows) -> In row rows ->
  List.find (fun r => databaseOid r =? databaseOid row) rows = Some row.
Proof.
  induction rows as [|x l IH]; simpl; intros Hnd Hin; [contradiction|].
  apply NoDup_cons in Hnd as [Hx Hnd].
  destruct (Z.eqb_spec (databaseOid x) (databaseOid row)) as [E|E].
  - destruct Hin as [->|Hin]; [reflexivity|].
    exfalso. apply Hx. rewrite E.
    apply list_elem_of_fmap_2, list_elem_of_In. exact Hin.
  - destruct Hin as [->|Hin]; [congruence|]. apply IH; assumption.
Qed.

(** X23: lookup and listing agree: on a registry that respects its primary
    key, GetDatabaseShardByOid finds a row for a database id exactly when
    ListDatabaseShards lists that row with that database id. *)
Theorem lookup_agrees_with_listing s oid row :
  registry_unique s ->
  fst (GetDatabaseShardByOid oid s) = Returned (Some row) <->
  (exists rows,
     fst (ListDatabaseShards s) = Returned rows /\
     In row rows /\ databaseOid row = oid).
Proof.
  intros Hu. unfold GetDatabaseShardByOid, ListDatabaseShards, gets. simpl.
  split.
  - intros [= Hfind]. apply List.find_some in Hfind as [Hin Hoid].
    exists (database_shard s). apply Z.eqb_eq in Hoid. auto.
  - intros (rows & [= <-] & Hin & <-).
    rewrite (find_shard_unique _ row Hu Hin). reflexivity.
Qed.

Lemma lookup_agrees_with_listing_witness :
  let s :=
    Demo.session true [Demo.citus_db; Demo.appdb]
      [shard_row 16384 10; shard_row 16387 20] in
  registry_unique s /\
  (fst (GetDatabaseShardByOid 16387 s) = Returned (Some (shard_row 16387 20))
   <->
   (exists rows,
      fst (ListDatabaseShards s) = Returned rows /\
      In (shard_row 16387 20) rows /\
      databaseOid (shard_row 16387 20) = 16387)).
Proof.
  assert (Hu : registry_unique
                 (Demo.session true [Demo.citus_db; Demo.appdb]
                    [shard_row 16384 10; shard_row 16387 20]))
    by (apply (bool_decide_unpack _); reflexivity).
  split; [exact Hu|].
  apply (lookup_agrees_with_listing
           (Demo.session true [Demo.citus_db; Demo.appdb]
              [shard_row 16384 10; shard_row 16387 20]) 16387
           (shard_row 16387 20)).
  exact Hu.
Defined.

(** X24: local before remote, and no undo: when the request that mirrors
    an insertion to the metadata-holding nodes fails, the assignment step
    raises with the new row already written to the local registry, and
    with nothing else sent and no CONNECT privilege changed. *)
Theorem failed_mirroring_keeps_local_row env oid group s row :
  find_database_by_oid oid s = Some row ->
  existsb (fun r => databaseOid r =? oid) (database_shard s) = false ->
  EnableMetadataSync env = true ->
  remote_failure env
    (EvSendCommandToWorkersWithMetadata
       (InternalAddDatabaseShard (datname row) group)) = true ->
  let out := place env oid group s in
  fst out = Raised ConnectionFailure /\
  database_shard (snd out) = database_shard s ++ [shard_row oid group] /\
  trace (snd out) = trace s /\
  connect_revoked (snd out) = connect_revoked s.
Proof.
  intros Hfind Hfresh Hsync Hfail. cbv zeta.
  assert (Hinsert :
    InsertDatabaseShardAssignment env oid group s =
    (Raised ConnectionFailure,
     set_database_shard (database_shard s ++ [shard_row oid group]) s)).
  { unfold InsertDatabaseShardAssignment, bind at 1,
      InsertDatabaseShardAssignmentLocally.
    rewrite Hfresh, Hsync.
    unfold InsertDatabaseShardAssignmentOnOtherNodes,
      InsertDatabaseShardAssignmentCommand, get_database_name, gets,
      SendCommandToWorkersWithMetadata, bind, ret.
    rewrite (find_database_by_oid_same oid s) by reflexivity.
    rewrite Hfind. simpl. rewrite Hfail. reflexivity. }
  assert (Hplace :
    place env oid group s =
    (Raised ConnectionFailure,
     set_database_shard (database_shard s ++ [shard_row oid group]) s)).
  { unfold place, bind at 1. rewrite Hinsert. reflexivity. }
  rewrite Hplace. simpl. auto.
Qed.

Lemma failed_mirroring_keeps_local_row_witness :
  let env :=
    {| superuser := true; GetUserId := 10;
       CitusVersionCompatible := true; GetLocalGroupId := 0;
       EnableDatabaseSharding := false; EnableMetadataSync := true;
       LocalHostName := "localhost"; PostPortNumber := 5432;
       CitusMainDatabase := "citus";
       TargetWorkerSetNodeList_ALL_SHARD_NODES := Demo.three_workers;
       remote_failure := fun ev =>
         match ev with
         | EvSendCommandToWorkersWithMetadata _ => true
         | _ => false
         end |} in
  let s := Demo.session true [Demo.citus_db; Demo.appdb] [] in
  let out := place env 16387 20 s in
  fst out = Raised ConnectionFailure /\
  database_shard (snd out) = database_shard s ++ [shard_row 16387 20] /\
  trace (snd out) = trace s /\
  connect_revoked (snd out) = connect_revoked s.
Proof.
  cbv zeta.
  match goal with
  | |- fst (place ?env ?oid ?group ?s) = _ /\ _ =>
      apply (failed_mirroring_keeps_local_row env oid group s Demo.appdb)
  end; reflexivity.
Defined.

(** X25: a move does not require an existing assignment: for a database
    with no registry row, UpdateDatabaseShard that completes has simply
    appended the row for the target group, and every earlier row is still
    there. *)
Theorem move_of_unassigned_database_assigns env oid group s s' row :
  find_database_by_oid oid s = Some row ->
  fst (GetDatabaseShardByOid oid s) = Returned None ->
  UpdateDatabaseShard env oid group s = (Returned tt, s') ->
  database_shard s' = database_shard s ++ [shard_row oid group].
Proof.
  intros Hfind Hnone Hrun.
  unfold GetDatabaseShardByOid, gets in Hnone. simpl in Hnone.
  injection Hnone as Hnone.
  unfold UpdateDatabaseShard in Hrun.
  apply bind_returned in Hrun as ([] & s1 & Hdelete & Hplace).
  change (place env oid group s1 = (Returned tt, s')) in Hplace.
  apply (DeleteDatabaseShardByDatabaseId_effect env oid s s1 row Hfind)
    in Hdelete as (D1 & _).
  apply place_registry in Hplace.
  rewrite Hplace, D1, (simple_heap_delete_absent oid _ Hnone). reflexivity.
Qed.

Lemma move_of_unassigned_database_assigns_witness :
  let env := Demo.coordinator false true Demo.three_workers in
  let s :=
    Demo.session true [Demo.citus_db; Demo.appdb] [shard_row 16384 10] in
  let s' := snd (UpdateDatabaseShard env 16387 30 s) in
  UpdateDatabaseShard env 16387 30 s = (Returned tt, s') /\
  database_shard s' = database_shard s ++ [shard_row 16387 30].
Proof.
  cbv zeta.
  assert (Hrun :
    UpdateDatabaseShard
      (Demo.coordinator false true Demo.three_workers) 16387 30
      (Demo.session true [Demo.citus_db; Demo.appdb] [shard_row 16384 10]) =
    (Returned tt,
     snd (UpdateDatabaseShard
            (Demo.coordinator false true Demo.three_workers) 16387 30
            (Demo.session true [Demo.citus_db; Demo.appdb]
               [shard_row 16384 10]))))
    by (vm_compute; reflexivity).
  split; [exact Hrun|].
  apply (move_of_unassigned_database_assigns
           (Demo.coordinator false true Demo.three_workers) 16387 30
           (Demo.session true [Demo.citus_db; Demo.appdb]
              [shard_row 16384 10]) _ Demo.appdb eq_refl eq_refl Hrun).
Defined.

(** X26: deleting the shard of a database that has none is a silent
    success: citus_internal_delete_database_shard, called by an owner for
    an existing but unassigned database, returns, leaves the registry as
    it was, and still requests the pooler reconfiguration. *)
Theorem delete_of_unassigned_database env name s r :
  find_database name s = Some r ->
  fst (pg_database_ownercheck env (dboid r) (GetUserId env) s) =
    Returned true ->
  fst (GetDatabaseShardByOid (dboid r) s) = Returned None ->
  let out := citus_internal_delete_database_shard env name s in
  fst out = Returned tt /\
  database_shard (snd out) = database_shard s /\
  ReconfigurePgBouncersOnCommit (snd out) = true.
Proof.
  intros Hf Hown Hnone. cbv zeta.
  unfold GetDatabaseShardByOid, gets in Hnone. simpl in Hnone.
  injection Hnone as Hnone.
  unfold citus_internal_delete_database_shard.
  rewrite (udf_checks_run env name _ s r Hf Hown).
  unfold bind, DeleteDatabaseShardByDatabaseIdLocally, modify. simpl.
  rewrite (simple_heap_delete_absent _ _ Hnone). auto.
Qed.

Lemma delete_of_unassigned_database_witness :
  let env := Demo.coordinator false true Demo.three_workers in
  let s :=
    Demo.session true [Demo.citus_db; Demo.appdb] [shard_row 16384 10] in
  let out := citus_internal_delete_database_shard env "appdb" s in
  fst out = Returned tt /\
  database_shard (snd out) = database_shard s /\
  ReconfigurePgBouncersOnCommit (snd out) = true.
Proof.
  apply (delete_of_unassigned_database
           (Demo.coordinator false true Demo.three_workers) "appdb"
           (Demo.session true [Demo.citus_db; Demo.appdb]
              [shard_row 16384 10]) Demo.appdb); reflexivity.
Defined.

(** ** The registry: what each entry point may do to it *)

Lemma bind_registry_tail {A B} (m : PG A) (k : A -> PG B) s :
  (forall a, preserves same_registry (k a)) ->
  database_shard (snd (bind m k s)) = database_shard (snd (m s)).
Proof.
  intros Hk. unfold bind.
  destruct (m s) as [[a|e] s1]; [apply (Hk a s1)|reflexivity].
Qed.





Lemma DeleteDatabaseShardByDatabaseId_registry env oid s :
  database_shard (snd (DeleteDatabaseShardByDatabaseId env oid s)) =
  simple_heap_delete oid (database_shard s).
Proof.
  unfold DeleteDatabaseShardByDatabaseId.
  rewrite bind_registry_tail by (intros _; apply mirror_delete_registry).
  reflexivity.
Qed.

Lemma UpdateDatabaseShard_unfold env oid group s :
  UpdateDatabaseShard env oid group s =
  match DeleteDatabaseShardByDatabaseId env oid s with
  | (Returned _, s1) => place env oid group s1
  | (Raised e, s1) => (Raised e, s1)
  end.
Proof. reflexivity. Qed.




(** ** The registry's key at insertion *)

Lemma key_untouched_ret {A} (a : A) : key_untouched (ret a).
Proof. intros s. split; [reflexivity|discriminate]. Qed.

Lemma key_untouched_bind {A B} (m : PG A) (k : A -> PG B) :
  key_untouched m -> (forall a, key_untouched (k a)) ->
  key_untouched (bind m k).
Proof.
  intros Hm Hk s. unfold bind. destruct (Hm s) as [Hrows Herror].
  destruct (m s) as [[a|e] s1]; cbn [fst snd] in *.
  - destruct (Hk a s1) as [Hrows' Herror'].
    split; [congruence|exact Herror'].
  - split; [exact Hrows|].
    intros oid [= ->]. apply (Herror oid). reflexivity.
Qed.

Lemma key_untouched_foreach_ptr {A} (l : list A) (body : A -> PG unit) :
  (forall x, key_untouched (body x)) -> key_untouched (foreach_ptr l body).
Proof.
  intros Hbody. induction l as [|x rest IH]; cbn [foreach_ptr].
  - apply key_untouched_ret.
  - apply key_untouched_bind; [apply Hbody|intros _; exact IH].
Qed.

Lemma key_untouched_gets {A} (f : Backend -> A) : key_untouched (gets f).
Proof. intros s. split; [reflexivity|discriminate]. Qed.

Lemma key_untouched_ereport {A} (e : ErrorData) :
  (forall oid, e <> UniqueViolation oid) -> key_untouched (@ereport A e).
Proof.
  intros He s. split; [reflexivity|].
  intros oid [= ->]. apply (He oid). reflexivity.
Qed.

Lemma key_untouched_modify (f : Backend -> Backend) :
  (forall s, database_shard (f s) = database_shard s) ->
  key_untouched (modify f).
Proof. intros Hf s. split; [apply Hf|discriminate]. Qed.

Lemma key_untouched_requests env :
  (forall c, key_untouched (SendCommandToWorkersWithMetadata env c)) /\
  (forall c, key_untouched (ExecuteQueryViaSPI env c)) /\
  (forall name port' c, key_untouched (SendCommandToWorker env name port' c)).
Proof.
  repeat apply conj; intros;
    unfold SendCommandToWorkersWithMetadata, ExecuteQueryViaSPI,
      SendCommandToWorker;
    (destruct (remote_failure env _);
     [apply key_untouched_ereport; discriminate
     |apply key_untouched_modify; reflexivity]).
Qed.

Lemma key_untouched_mirror_insert env oid group :
  key_untouched
    (if EnableMetadataSync env
     then InsertDatabaseShardAssignmentOnOtherNodes env oid group
     else ret tt).
Proof.
  destruct (EnableMetadataSync env); [|apply key_untouched_ret].
  unfold InsertDatabaseShardAssignmentOnOtherNodes,
    InsertDatabaseShardAssignmentCommand, get_database_name.
  apply key_untouched_bind; [|intros c; apply key_untouched_requests].
  apply key_untouched_bind; [apply key_untouched_gets|].
  intros [name|];
    [apply key_untouched_ret|apply key_untouched_ereport; discriminate].
Qed.

Lemma key_untouched_mirror_delete env oid :
  key_untouched
    (if EnableMetadataSync env
     then DeleteDatabaseShardByDatabaseIdOnOtherNodes env oid
     else ret tt).
Proof.
  destruct (EnableMetadataSync env); [|apply key_untouched_ret].
  unfold DeleteDatabaseShardByDatabaseIdOnOtherNodes,
    DeleteDatabaseShardByDatabaseIdCommand, get_database_name.
  apply key_untouched_bind; [|intros c; apply key_untouched_requests].
  apply key_untouched_bind; [apply key_untouched_gets|].
  intros [name|];
    [apply key_untouched_ret|apply key_untouched_ereport; discriminate].
Qed.

Lemma key_untouched_sweep env oid group :
  key_untouched (AllowConnectionsOnlyOnNodeGroup env oid group).
Proof.
  unfold AllowConnectionsOnlyOnNodeGroup, get_database_name.
  apply key_untouched_bind; [apply key_untouched_gets|].
  intros databaseName. apply key_untouched_foreach_ptr. intros workerNode.
  destruct databaseName as [name|];
    [|apply key_untouched_ereport; discriminate].
  destruct (groupId workerNode =? GetLocalGroupId env);
    apply key_untouched_requests.
Qed.

(** An insertion for a database that has no row finds the key free. *)
Lemma place_key_free env oid group s :
  existsb (fun r => databaseOid r =? oid) (database_shard s) = false ->
  registry_unique s ->
  (forall oid', fst (place env oid group s) <> Raised (UniqueViolation oid'))
  /\ registry_unique (snd (place env oid group s)).
Proof.
  intros Hfresh Hunique.
  set (s0 := set_database_shard (database_shard s ++ [shard_row oid group]) s).
  assert (Hplace :
    place env oid group s =
    ((if EnableMetadataSync env
      then InsertDatabaseShardAssignmentOnOtherNodes env oid group
      else ret tt) ;;;
     AllowConnectionsOnlyOnNodeGroup env oid (uint32 group) ;;;
     modify (set_ReconfigurePgBouncersOnCommit true)) s0).
  { unfold place, InsertDatabaseShardAssignment, bind,
      InsertDatabaseShardAssignmentLocally.
    rewrite Hfresh. reflexivity. }
  rewrite Hplace.
  match goal with
  | |- context [fst (?m s0)] =>
      assert (Htail : key_untouched m)
  end.
  { apply key_untouched_bind; [apply key_untouched_mirror_insert|].
    intros _. apply key_untouched_bind; [apply key_untouched_sweep|].
    intros _. apply key_untouched_modify. reflexivity. }
  destruct (Htail s0) as [Hrows Herror]. split; [exact Herror|].
  unfold registry_unique. rewrite Hrows. unfold s0.
  cbn [database_shard set_database_shard].
  rewrite fmap_app. apply NoDup_app. split; [exact Hunique|]. split.
  - intros x Hx Hin. apply list_elem_of_singleton in Hin. subst x.
    apply (existsb_false_not_elem _ _ Hfresh). exact Hx.
  - apply NoDup_singleton.
Qed.

Lemma AssignDatabaseToShard_key_free env oid s :
  existsb (fun r => databaseOid r =? oid) (database_shard s) = false ->
  registry_unique s ->
  (forall oid',
     fst (AssignDatabaseToShard env oid s) <> Raised (UniqueViolation oid'))
  /\ registry_unique (snd (AssignDatabaseToShard env oid s)).
Proof.
  intros Hfresh Hunique. unfold AssignDatabaseToShard, bind at 1.
  destruct (0 <? list_length _).
  - destruct (list_nth _ _) as [workerNode|]; cbn [ret ereport fst snd].
    + apply (place_key_free env oid (groupId workerNode) s Hfresh Hunique).
    + split; [discriminate|exact Hunique].
  - cbn [ret fst snd].
    apply (place_key_free env oid (GetLocalGroupId env) s Hfresh Hunique).
Qed.

Lemma assign_checked_key_free env oid s :
  registry_unique s ->
  let out :=
    (shard <- GetDatabaseShardByOid oid ;;
     match shard with
     | Some _ => ereport AlreadyAssignedToShard
     | None => AssignDatabaseToShard env oid
     end) s in
  (forall oid', fst out <> Raised (UniqueViolation oid')) /\
  registry_unique (snd out).
Proof.
  intros Hunique. cbv zeta. unfold bind, GetDatabaseShardByOid, gets.
  destruct (List.find _ _) eqn:Hlookup;
    [split; [discriminate|exact Hunique]|].
  apply AssignDatabaseToShard_key_free; [|exact Hunique].
  apply find_none_existsb. exact Hlookup.
Qed.

(** X1: assignment through the UDF and the move never run into the
    registry's key.  On a registry with at most one row per database,
    database_shard_assign (which looks the database up first) and
    UpdateDatabaseShard (which deletes the database's row first) insert
    their row when the database has none: no duplicate-key failure comes
    out of them, and the registry still has at most one row per database
    afterwards, whatever the outcome. *)
Theorem registry_key_free_at_insertion env s :
  registry_unique s ->
  (forall name,
     let out := database_shard_assign env name s in
     (forall oid, fst out <> Raised (UniqueViolation oid)) /\
     registry_unique (snd out)) /\
  (forall oid group,
     let out := UpdateDatabaseShard env oid group s in
     (forall oid', fst out <> Raised (UniqueViolation oid')) /\
     registry_unique (snd out)).
Proof.
  intros Hunique. split.
  - intros name. cbv zeta. rewrite database_shard_assign_unfold.
    destruct (CitusVersionCompatible env);
      [|split; [discriminate|exact Hunique]].
    destruct (find_database name s) as [r|] eqn:Hf.
    + rewrite (udf_checks_unfold env name _ s r Hf).
      destruct (fst (pg_database_ownercheck env (dboid r) (GetUserId env) s))
        as [[]|e] eqn:Howner.
      * apply assign_checked_key_free. exact Hunique.
      * split; [discriminate|exact Hunique].
      * split; [|exact Hunique]. intros oid. cbn [fst].
        unfold pg_database_ownercheck in Howner.
        destruct (superuser env); [discriminate|].
        destruct (find_database_by_oid (dboid r) s);
          cbn in Howner; congruence.
    + rewrite (udf_checks_unknown env name _ s Hf).
      split; [discriminate|exact Hunique].
  - intros oid group. cbv zeta.
    pose proof (DeleteDatabaseShardByDatabaseId_registry env oid s) as Hrows.
    assert (Hdelete : forall oid',
      fst (DeleteDatabaseShardByDatabaseId env oid s) <>
      Raised (UniqueViolation oid')).
    { unfold DeleteDatabaseShardByDatabaseId, bind at 1,
        DeleteDatabaseShardByDatabaseIdLocally, modify.
      apply (key_untouched_mirror_delete env oid). }
    rewrite UpdateDatabaseShard_unfold.
    destruct (DeleteDatabaseShardByDatabaseId env oid s) as [[[]|e] s1];
      cbn [fst snd] in *.
    + apply (place_key_free env oid group s1).
      * rewrite Hrows. apply simple_heap_delete_unique. exact Hunique.
      * unfold registry_unique. rewrite Hrows.
        apply simple_heap_delete_NoDup. exact Hunique.
    + split; [exact Hdelete|].
      unfold registry_unique. rewrite Hrows.
      apply simple_heap_delete_NoDup. exact Hunique.
Qed.

Lemma registry_key_free_at_insertion_witness :
  let env := Demo.coordinator false true Demo.three_workers in
  let s :=
    Demo.session true [Demo.citus_db; Demo.appdb] [shard_row 16387 10] in
  registry_unique s /\
  (forall name,
     let out := database_shard_assign env name s in
     (forall oid, fst out <> Raised (UniqueViolation oid)) /\
     registry_unique (snd out)) /\
  (forall oid group,
     let out := UpdateDatabaseShard env oid group s in
     (forall oid', fst out <> Raised (UniqueViolation oid')) /\
     registry_unique (snd out)).
Proof.
  assert (Hunique : registry_unique
                      (Demo.session true [Demo.citus_db; Demo.appdb]
                         [shard_row 16387 10]))
    by (apply (bool_decide_unpack _); reflexivity).
  split; [exact Hunique|].
  apply (registry_key_free_at_insertion
           (Demo.coordinator false true Demo.three_workers)
           (Demo.session true [Demo.citus_db; Demo.appdb]
              [shard_row 16387 10]) Hunique).
Defined.
